(** * emnist_dl2prod: the utility module [utils.py]

    A shallow embedding of [src/emnist_dl2prod/utils.py] (data loading, the
    label mapping, the single-query evaluator and the throughput driver) and
    the properties of it that the specification states.

    Conventions of the embedding.
    - Python [int] is [Z]; counts that the code only uses as lengths
      ([n_examples], [n_print_examples]) are [nat].
    - Python and NumPy floating point numbers are the rationals [Q]: every
      quotient is exact, rounding to binary64 is not part of the model.
    - A NumPy array is a shape, a list of strides (counted in elements) and a
      flat buffer, as NumPy stores it; the contiguity flags are computed from
      shape and strides the way NumPy does.
    - Effects (file system, wall clock, random generator, network, standard
      output) are threaded through a state-and-exception monad; what the
      outside world answers is read from an [environment] of oracles.
    - The records the module hands to the [logging] module are left out.
      The field [stdout] of the state holds what [print] and the
      [matplotlib] calls put on the screen; the log lines, which the logging
      configuration of the module sends to standard output as well, are not
      among its events. *)

From Stdlib Require Import ZArith QArith Qround Lia Lqa Ascii.
From stdpp Require Import gmap strings list.

Set Warnings "-register-all".

Local Open Scope string_scope.
Local Open Scope nat_scope.
Local Open Scope list_scope.

(* ===================================================================== *)
(** * Python values: exceptions and outcomes                              *)
(* ===================================================================== *)

(** The exceptions the module can raise (the payload is the message where
    the code builds one). *)
Inductive exn : Type :=
| FileNotFoundError (msg : string)
| FileExistsError
| ZeroDivisionError
| ValueError (msg : string)
| KeyError
| IndexError
| AttributeError
| BadZipFile
| ConnectionError.

(** What running a piece of code gives: a value, an exception, or no answer
    within the fuel given (only the [while] loop of [eval_throughput] can
    run out of fuel). *)
Inductive outcome (A : Type) : Type :=
| Ret (a : A)
| Raise (e : exn)
| OutOfFuel.
Arguments Ret {A} a.
Arguments Raise {A} e.
Arguments OutOfFuel {A}.

Definition of_option {A} (e : exn) (o : option A) : outcome A :=
  match o with Some a => Ret a | None => Raise e end.

(** Sequencing: the first exception (or the lack of fuel) ends the run. *)
#[global] Instance outcome_ret : MRet outcome := fun A a => Ret a.

#[global] Instance outcome_bind : MBind outcome := fun A B f o =>
  match o with
  | Ret a => f a
  | Raise e => Raise e
  | OutOfFuel => OutOfFuel
  end.

(** Python's [chr], on the ASCII range that the module uses. *)
Definition chr (v : Z) : string :=
  String (Ascii.ascii_of_N (Z.to_N v)) EmptyString.

(** [list(range(a, b))]. *)
Definition range (a b : Z) : list Z :=
  map (fun i => (a + Z.of_nat i)%Z) (seq 0 (Z.to_nat (b - a))).

(** [dict(pairs)]: pairs are inserted from left to right, a later pair
    replaces an earlier one with the same key. *)
Definition dict {V} (pairs : list (Z * V)) : gmap Z V :=
  foldl (fun m kv => <[kv.1 := kv.2]> m) ∅ pairs.

(** A bound of the slice [seq[lo:hi]] of a sequence of length [len]: a
    negative bound counts from the end, and it is clamped to the sequence. *)
Definition slice_bound (len : nat) (i : Z) : nat :=
  if (i <? 0)%Z then Z.to_nat (Z.max (i + Z.of_nat len) 0)
  else Nat.min (Z.to_nat i) len.

(* ===================================================================== *)
(** * NumPy arrays                                                        *)
(* ===================================================================== *)

Module np.

Record ndarray (A : Type) : Type := mk_ndarray {
  shape : list nat;
  strides : list nat;
  buffer : list A
}.
Arguments mk_ndarray {A} shape strides buffer.
Arguments shape {A} _.
Arguments strides {A} _.
Arguments buffer {A} _.

(** The [order] argument of [reshape]. *)
Inductive order : Type := order_C | order_F | order_A.

(** Number of elements of a shape. *)
Definition size (sh : list nat) : nat := foldr Nat.mul 1 sh.

(** Strides of a freshly allocated array: C order (last index fastest) and
    Fortran order (first index fastest). *)
Fixpoint c_strides (sh : list nat) : list nat :=
  match sh with
  | [] => []
  | _ :: rest => size rest :: c_strides rest
  end.

Fixpoint f_strides_from (sd : nat) (sh : list nat) : list nat :=
  match sh with
  | [] => []
  | d :: rest => sd :: f_strides_from (sd * d) rest
  end.

Definition f_strides (sh : list nat) : list nat := f_strides_from 1 sh.

(** Position in the buffer of the element at a full index. *)
Fixpoint offset (st idx : list nat) : nat :=
  match st, idx with
  | s :: st', i :: idx' => i * s + offset st' idx'
  | _, _ => 0
  end.

Fixpoint in_bounds (sh idx : list nat) : bool :=
  match sh, idx with
  | [], [] => true
  | d :: sh', i :: idx' => (i <? d) && in_bounds sh' idx'
  | _, _ => false
  end.

(** [a[i0, i1, ...]] with one index per dimension. *)
Definition getitem {A} (a : ndarray A) (idx : list nat) : option A :=
  if in_bounds (shape a) idx then buffer a !! offset (strides a) idx else None.

(** All indices of a shape, in C order and in Fortran order. *)
Fixpoint c_indices (sh : list nat) : list (list nat) :=
  match sh with
  | [] => [[]]
  | d :: rest => i ← seq 0 d; cons i <$> c_indices rest
  end.

Fixpoint f_indices (sh : list nat) : list (list nat) :=
  match sh with
  | [] => [[]]
  | d :: rest => tl ← f_indices rest; (fun i => i :: tl) <$> seq 0 d
  end.

(** The contiguity flags, as NumPy's [_UpdateContiguousFlags] computes them:
    an array with an empty dimension is contiguous both ways, and the stride
    of a dimension of length 1 is never looked at. *)
Fixpoint contiguous_walk (sd : nat) (dims : list (nat * nat)) : bool :=
  match dims with
  | [] => true
  | (d, s) :: rest =>
      if d =? 1 then contiguous_walk sd rest
      else (s =? sd) && contiguous_walk (sd * d) rest
  end.

Definition has_empty_dim {A} (a : ndarray A) : bool :=
  existsb (fun d => d =? 0) (shape a).

Definition c_contiguous {A} (a : ndarray A) : bool :=
  has_empty_dim a || contiguous_walk 1 (reverse (zip (shape a) (strides a))).

Definition f_contiguous {A} (a : ndarray A) : bool :=
  has_empty_dim a || contiguous_walk 1 (zip (shape a) (strides a)).

(** [np.isfortran]: Fortran contiguous but not C contiguous. *)
Definition isfortran {A} (a : ndarray A) : bool :=
  f_contiguous a && negb (c_contiguous a).

(** The index order a [reshape] reads and writes in. NumPy resolves ['A']
    with the test of [np.isfortran]: Fortran order for an array that is
    Fortran contiguous and not C contiguous, C order for every other
    array. *)
Definition resolve_order {A} (o : order) (a : ndarray A) : order :=
  match o with
  | order_A => if isfortran a then order_F else order_C
  | _ => o
  end.

Definition indices (o : order) (sh : list nat) : list (list nat) :=
  match o with order_F => f_indices sh | _ => c_indices sh end.

Definition fresh_strides (o : order) (sh : list nat) : list nat :=
  match o with order_F => f_strides sh | _ => c_strides sh end.

(** The elements of [a] read in index order [o]. *)
Definition ravel {A} (o : order) (a : ndarray A) : option (list A) :=
  mapM (getitem a) (indices o (shape a)).

(** [a.reshape(newshape, order=o)]: the elements are read in the resolved
    order and laid out in that order under the new shape. (NumPy returns a
    view where it can; the module never writes to an array, so the copy made
    here has the same elements at every index.) *)
Definition reshape {A} (a : ndarray A) (newshape : list nat) (o : order)
  : outcome (ndarray A) :=
  if size newshape =? size (shape a) then
    let o' := resolve_order o a in
    match ravel o' a with
    | Some l => Ret (mk_ndarray newshape (fresh_strides o' newshape) l)
    | None => Raise IndexError
    end
  else Raise (ValueError "cannot reshape array").

(** The dimension that [-1] stands for in [a.reshape(-1, d1, ...)]. *)
Definition infer_dim (total : nat) (known : list nat) : outcome nat :=
  let k := size known in
  if (k =? 0) || negb (total mod k =? 0)
  then Raise (ValueError "cannot reshape array")
  else Ret (total / k).

Definition reshape_infer {A} (a : ndarray A) (known : list nat)
  : outcome (ndarray A) :=
  d ← infer_dim (size (shape a)) known;
  reshape a (d :: known) order_C.

(** [a[i]]: the sub-array at position [i] of the first dimension. *)
Definition index0 {A} (a : ndarray A) (i : nat) : outcome (ndarray A) :=
  match shape a, strides a with
  | d :: sh, s :: st =>
      if i <? d then Ret (mk_ndarray sh st (drop (i * s) (buffer a)))
      else Raise IndexError
  | _, _ => Raise IndexError
  end.

(** [a[lo:hi]]: a slice of the first dimension. *)
Definition slice0 {A} (a : ndarray A) (lo hi : Z) : outcome (ndarray A) :=
  match shape a, strides a with
  | d :: sh, s :: st =>
      let i := slice_bound d lo in
      let j := slice_bound d hi in
      Ret (mk_ndarray ((j - i) :: sh) (s :: st) (drop (i * s) (buffer a)))
  | _, _ => Raise IndexError
  end.

(** [a.astype(t)] and arithmetic with a scalar act on every element and keep
    the layout. *)
Definition map_elements {A B} (f : A -> B) (a : ndarray A) : ndarray B :=
  mk_ndarray (shape a) (strides a) (f <$> buffer a).

(** [a.tolist()] for a two-dimensional array. *)
Definition tolist2 {A} (a : ndarray A) : outcome (list (list A)) :=
  match shape a with
  | [r; c] =>
      of_option IndexError
        (mapM (fun i => mapM (fun j => getitem a [i; j]) (seq 0 c)) (seq 0 r))
  | _ => Raise (ValueError "not a matrix")
  end.

(** A list of rows makes an array when its rows have one length. *)
Definition rectangular {A} (rows : list (list A)) : bool :=
  match rows with
  | [] => true
  | row :: rest => forallb (fun row' => length row' =? length row) rest
  end.

(** [np.argmax] of a list of rows. NumPy first makes an array of it, which
    fails on rows of different lengths; it then scans the flattened array,
    keeping the first element and replacing it only by a strictly greater
    one, so the first occurrence of the maximum wins. *)
Fixpoint argmax_from (best : Q) (best_ind i : nat) (l : list Q) : nat :=
  match l with
  | [] => best_ind
  | x :: l' =>
      if Qle_bool x best then argmax_from best best_ind (S i) l'
      else argmax_from x i (S i) l'
  end.

Definition argmax (scores : list (list Q)) : outcome nat :=
  if rectangular scores then
    match concat scores with
    | [] => Raise (ValueError "attempt to get argmax of an empty sequence")
    | x :: l => Ret (argmax_from x 0 1 l)
    end
  else Raise (ValueError "inhomogeneous shape").

End np.

(* ===================================================================== *)
(** * The label mapper                                                    *)
(* ===================================================================== *)

Definition get_emnist_mapping : gmap Z string :=
  let ascii_digits := range 48 58 in
  let ascii_uppercase_letters := range 65 (65 + 26) in
  let ascii_lowercase_letters := range 97 (97 + 26) in
  let digits := chr <$> ascii_digits in
  let uppercase_letters := chr <$> ascii_uppercase_letters in
  let lowercase_letters := chr <$> ascii_lowercase_letters in
  dict (zip (range 0 (10 + 2 * 26))
            (digits ++ uppercase_letters ++ lowercase_letters)).

(* ===================================================================== *)
(** * The MAT-file archive and what [scipy.io.loadmat] makes of it        *)
(* ===================================================================== *)

(** A MATLAB value as the archive stores it: a numeric matrix (its entries
    in MATLAB's column-major order) or a 1x1 struct with its fields in
    order. *)
Inductive mat_value : Type :=
| MatNum (rows cols : nat) (data : list Z)
| MatStruct (fields : list mat_value).

(** The Python objects [loadmat] returns: numeric arrays, and object arrays
    or struct records, both indexed by position. *)
Inductive pyobj : Type :=
| PyArray (a : np.ndarray Z)
| PyObjects (items : list pyobj).

(** A numeric matrix comes back as a two-dimensional array laid out as
    MATLAB wrote it (the first index is the fastest); a struct comes back as
    a 1x1 object array holding the record of its fields. A matrix whose data
    does not fill its dimensions is a corrupt file. *)
Fixpoint pyobj_of_mat (v : mat_value) : option pyobj :=
  match v with
  | MatNum r c d =>
      if length d =? r * c
      then Some (PyArray (np.mk_ndarray [r; c] [1; r] d))
      else None
  | MatStruct fields =>
      items ← mapM pyobj_of_mat fields;
      Some (PyObjects [PyObjects [PyObjects items]])
  end.

(** [o[i]]. *)
Definition py_getitem (o : pyobj) (i : nat) : outcome pyobj :=
  match o with
  | PyObjects items => of_option IndexError (items !! i)
  | PyArray a => a' ← np.index0 a i; Ret (PyArray a')
  end.

(** [o[i0][i1]...[ik]]. *)
Fixpoint py_path (o : pyobj) (path : list nat) : outcome pyobj :=
  match path with
  | [] => Ret o
  | i :: path' => o' ← py_getitem o i; py_path o' path'
  end.

(** [o.astype(np.float32)]: only arrays have the method. *)
Definition astype_float32 (o : pyobj) : outcome (np.ndarray Q) :=
  match o with
  | PyArray a => Ret (np.map_elements inject_Z a)
  | PyObjects _ => Raise AttributeError
  end.

(** [a.shape[0]]. *)
Definition shape0 {A} (a : np.ndarray A) : outcome nat :=
  of_option IndexError (np.shape a !! 0).

(* ===================================================================== *)
(** * Files and paths                                                     *)
(* ===================================================================== *)

(** What a file holds: a MAT-file with its variables, a zip archive with its
    members (path inside the archive, content), or anything else. *)
Inductive content : Type :=
| MatFile (vars : list (string * mat_value))
| ZipArchive (members : list (string * content))
| OtherBytes.

Inductive node : Type :=
| Dir
| File (c : content).

(** [os.path.join(a, b)] for a relative [b]. *)
Fixpoint ends_with_slash (s : string) : bool :=
  match s with
  | EmptyString => false
  | String c EmptyString => if decide (c = "/"%char) then true else false
  | String _ s' => ends_with_slash s'
  end.

Definition os_path_join (a b : string) : string :=
  if decide (a = "") then b
  else if ends_with_slash a then a +:+ b
  else a +:+ "/" +:+ b.

(** The part of a path before its last slash, when it has one, and the part
    after it. *)
Fixpoint dirname (s : string) : option string :=
  match s with
  | EmptyString => None
  | String c s' =>
      match dirname s' with
      | Some d => Some (String c d)
      | None => if decide (c = "/"%char) then Some "" else None
      end
  end.

Fixpoint basename (s : string) : string :=
  match s with
  | EmptyString => ""
  | String c s' =>
      match dirname s' with
      | Some _ => basename s'
      | None => if decide (c = "/"%char) then s' else s
      end
  end.

(** A directory may be named with a trailing slash. *)
Definition strip_slash (s : string) : string :=
  if ends_with_slash s then default s (dirname s) else s.

Definition EMNIST_MATLAB_URL : string :=
  "http://www.itl.nist.gov/iaui/vip/cs_links/EMNIST/matlab.zip".
Definition EMNIST_FILENAME : string := "emnist-byclass.mat".

(* ===================================================================== *)
(** * The outside world                                                   *)
(* ===================================================================== *)

(** What is sent to the model service: the ["instances"] field of the JSON
    body of an HTTP POST, or the tensor handed to the binary client. *)
Inductive payload : Type :=
| Instances (rows : list (list Q))
| Tensor (a : np.ndarray Q).

(** What the module puts on the screen with [print] and with [matplotlib].
    The accuracy line carries the two values it formats. The lines of the
    [logging] module are not among the events. *)
Inductive event : Type :=
| ShowImage (img : np.ndarray Q)
| Print (line : string)
| PrintAccuracy (n_examples : nat) (accuracy : Q).

(** The answers of the outside world.
    - [rk_interval max s]: the generator's draw of an integer in [0, max]
      from state [s], and the next state; [seed_state] is the state a seed
      initialises.
    - [wall_clock k]: what the [k]-th call of [time.time()] returns.
    - [post_reply k url rows]: the answer to an HTTP POST that is the [k]-th
      request sent: an exception, or the ["predictions"] field of the JSON
      answer ([None] when the answer has no such field).
    - [execute_reply k url a]: the same for the binary client.
    - [get_reply url]: the body [requests.get] streams. *)
Record environment : Type := {
  rng_state : Type;
  seed_state : Z -> rng_state;
  rk_interval : nat -> rng_state -> nat * rng_state;
  rk_interval_le : forall max s, (rk_interval max s).1 <= max;
  wall_clock : nat -> Q;
  post_reply : nat -> string -> list (list Q) -> exn + option (list (list Q));
  execute_reply : nat -> string -> np.ndarray Q -> exn + list (list Q);
  get_reply : string -> exn + content
}.

Section Program.

Context (env : environment).

(** The state the module reads and changes: the file system (a map from
    paths to nodes), the number of clock readings taken, the state of
    NumPy's global random generator, the requests sent so far, and what
    [print] and the [matplotlib] calls have put on the screen. *)
Record world : Type := mk_world {
  fs : gmap string node;
  ticks : nat;
  rng : rng_state env;
  sent : list (string * payload);
  stdout : list event
}.

(** Computations: a state transformer that ends in an [outcome]. The state
    reached when an exception is raised is kept (what was written to disk
    before the exception stays written). *)
Definition M (A : Type) : Type := world -> outcome A * world.

#[global] Instance M_ret : MRet M := fun A a w => (Ret a, w).

#[global] Instance M_bind : MBind M := fun A B f c w =>
  match c w with
  | (Ret a, w') => f a w'
  | (Raise e, w') => (Raise e, w')
  | (OutOfFuel, w') => (OutOfFuel, w')
  end.

Definition raise {A} (e : exn) : M A := fun w => (Raise e, w).
Definition out_of_fuel {A} : M A := fun w => (OutOfFuel, w).
Definition lift {A} (o : outcome A) : M A := fun w => (o, w).
Definition lift_sum {A} (o : exn + A) : M A :=
  match o with inl e => raise e | inr a => mret a end.

Definition get_fs : M (gmap string node) := fun w => (Ret (fs w), w).
Definition put_fs (f : gmap string node) : M unit := fun w =>
  (Ret tt, mk_world f (ticks w) (rng w) (sent w) (stdout w)).

(** [time.time()]. *)
Definition time_time : M Q := fun w =>
  (Ret (wall_clock env (ticks w)),
   mk_world (fs w) (S (ticks w)) (rng w) (sent w) (stdout w)).

(** [print] and the [matplotlib] calls. *)
Definition emit (ev : event) : M unit := fun w =>
  (Ret tt, mk_world (fs w) (ticks w) (rng w) (sent w) (stdout w ++ [ev])).

(** [requests.post(url, data=json.dumps({'instances': rows})).json()['predictions']]. *)
Definition requests_post_predictions (url : string) (rows : list (list Q))
  : M (list (list Q)) := fun w =>
  let w' := mk_world (fs w) (ticks w) (rng w)
                     (sent w ++ [(url, Instances rows)]) (stdout w) in
  match post_reply env (length (sent w)) url rows with
  | inl e => (Raise e, w')
  | inr None => (Raise KeyError, w')
  | inr (Some predictions) => (Ret predictions, w')
  end.

(** [remote.execute(url, a)]. *)
Definition remote_execute (url : string) (a : np.ndarray Q)
  : M (list (list Q)) := fun w =>
  let w' := mk_world (fs w) (ticks w) (rng w)
                     (sent w ++ [(url, Tensor a)]) (stdout w) in
  match execute_reply env (length (sent w)) url a with
  | inl e => (Raise e, w')
  | inr scores => (Ret scores, w')
  end.

(* --------------------------------------------------------------------- *)
(** ** File system calls                                                  *)
(* --------------------------------------------------------------------- *)

Definition isdir_in (f : gmap string node) (p : string) : bool :=
  if decide (p = "") then false
  else match f !! strip_slash p with Some Dir => true | _ => false end.

Definition isfile_in (f : gmap string node) (p : string) : bool :=
  match f !! p with Some (File _) => true | _ => false end.

Definition os_path_isdir (p : string) : M bool :=
  f ← get_fs; mret (isdir_in f p).

Definition os_path_isfile (p : string) : M bool :=
  f ← get_fs; mret (isfile_in f p).

(** The parent directory of [p] exists (a path without a slash is relative
    to the working directory, which exists). *)
Definition parent_ok (f : gmap string node) (p : string) : bool :=
  match dirname p with
  | Some d => if decide (d = "") then true else isdir_in f d
  | None => true
  end.

Definition os_mkdir (p : string) : M unit :=
  f ← get_fs;
  let p' := strip_slash p in
  if decide (p = "") then raise (FileNotFoundError p)
  else if bool_decide (is_Some (f !! p')) then raise FileExistsError
  else if negb (parent_ok f p') then raise (FileNotFoundError p)
  else put_fs (<[p' := Dir]> f).

(** [with open(p, 'wb') as fp: ... fp.write(chunk)] for the chunks of [c]. *)
Definition write_file (p : string) (c : content) : M unit :=
  f ← get_fs;
  if negb (parent_ok f p) then raise (FileNotFoundError p)
  else match f !! p with
       | Some Dir => raise (FileNotFoundError p)
       | _ => put_fs (<[p := File c]> f)
       end.

(** [zipfile.ZipFile(zip_path, 'r').extractall(target)]: every member is
    written under [target], its directory created with it. *)
Definition extract_member (target : string) (f : gmap string node)
  (m : string * content) : gmap string node :=
  let p := os_path_join target m.1 in
  let f' := match dirname p with
            | Some d => if decide (d = "") then f else <[d := Dir]> f
            | None => f
            end in
  <[p := File m.2]> f'.

Definition extractall (zip_path target : string) : M unit :=
  f ← get_fs;
  match f !! zip_path with
  | Some (File (ZipArchive members)) =>
      put_fs (foldl (extract_member target) f members)
  | Some _ => raise BadZipFile
  | None => raise (FileNotFoundError zip_path)
  end.

Definition os_listdir (p : string) : M (list string) :=
  f ← get_fs;
  if isdir_in f p then
    mret (basename <$>
            filter (fun k => dirname k = Some (strip_slash p))
                   (fst <$> map_to_list f))
  else raise (FileNotFoundError p).

(** [s] without the prefix [p], when it starts with it. *)
Fixpoint strip_prefix (p s : string) : option string :=
  match p, s with
  | EmptyString, _ => Some s
  | String a p', String b s' =>
      if decide (a = b) then strip_prefix p' s' else None
  | _, _ => None
  end.

(** Is [k] the path [p] or a path below it? Then [Some] of what follows
    [p]. *)
Definition below (p k : string) : option string :=
  match strip_prefix p k with
  | Some "" => Some ""
  | Some (String c r) =>
      if decide (c = "/"%char) then Some (String c r) else None
  | None => None
  end.

(** [shutil.move(src, dst)], where [dst] is not an existing directory: [src]
    and everything below it is renamed. *)
Definition shutil_move (src dst : string) : M unit :=
  f ← get_fs;
  if bool_decide (is_Some (f !! src)) then
    put_fs (list_to_map
              ((fun kv : string * node =>
                  match below src kv.1 with
                  | Some r => (dst +:+ r, kv.2)
                  | None => kv
                  end) <$> map_to_list f))
  else raise (FileNotFoundError src).

Definition shutil_rmtree (p : string) : M unit :=
  f ← get_fs;
  if isdir_in f p then
    put_fs (filter (fun kv : string * node => below (strip_slash p) kv.1 = None) f)
  else raise (FileNotFoundError p).

(** [requests.get(url, stream=True)] and the chunks it yields. *)
Definition requests_get (url : string) : M content :=
  lift_sum (get_reply env url).

(** [for x in l: body(x)]. *)
Fixpoint for_each {A} (l : list A) (body : A -> M unit) : M unit :=
  match l with
  | [] => mret tt
  | x :: l' => body x;; for_each l' body
  end.

(* --------------------------------------------------------------------- *)
(** ** [download_emnist]                                                  *)
(* --------------------------------------------------------------------- *)

(** The three [_logger.info] calls of the function are left out. *)
Definition download_emnist (emnist_folder_path : string) : M unit :=
  is_dir ← os_path_isdir emnist_folder_path;
  (if negb is_dir then os_mkdir emnist_folder_path else mret tt);;
  let emnist_matlab_zip_filepath :=
    os_path_join emnist_folder_path "emnist_matlab.zip" in
  req ← requests_get EMNIST_MATLAB_URL;
  write_file emnist_matlab_zip_filepath req;;
  extractall emnist_matlab_zip_filepath emnist_folder_path;;
  let matlab_folder_path := os_path_join emnist_folder_path "matlab" in
  files ← os_listdir matlab_folder_path;
  for_each files (fun matlab_file =>
    shutil_move (os_path_join matlab_folder_path matlab_file)
                (os_path_join emnist_folder_path matlab_file));;
  shutil_rmtree matlab_folder_path.

(* --------------------------------------------------------------------- *)
(** ** [load_emnist]                                                      *)
(* --------------------------------------------------------------------- *)

(** [scipy.io.loadmat(filepath)]: the variables of the MAT-file as a
    dictionary. *)
Definition loadmat_in (f : gmap string node) (filepath : string)
  : outcome (gmap string pyobj) :=
  match f !! filepath with
  | Some (File (MatFile vars)) =>
      match mapM (fun v : string * mat_value =>
                    o ← pyobj_of_mat v.2; Some (v.1, o)) vars with
      | Some l => Ret (list_to_map l)
      | None => Raise (ValueError "corrupt MAT-file")
      end
  | Some (File _) => Raise (ValueError "Unknown mat file type")
  | _ => Raise (FileNotFoundError filepath)
  end.

Definition loadmat (filepath : string) : M (gmap string pyobj) :=
  f ← get_fs; lift (loadmat_in f filepath).

Definition not_found_message (emnist_folder_path : string) : string :=
  "Folder " +:+ emnist_folder_path +:+ " or file " +:+ EMNIST_FILENAME
  +:+ " does not exist and download is deactivated".

(** The images of one split: [bundle[0][0][0].astype(np.float32)], reshaped
    to [(N, 28, 28)] with [order='A']. *)
Definition load_images (dataset : pyobj) (path : list nat)
  : outcome (np.ndarray Q) :=
  o ← py_path dataset path;
  x ← astype_float32 o;
  n ← shape0 x;
  np.reshape x [n; 28; 28] np.order_A.

(** What [load_emnist] returns: [x_train, y_train, x_test, y_test, mapping]. *)
Record emnist : Type := mk_emnist {
  x_train : np.ndarray Q;
  y_train : pyobj;
  x_test : np.ndarray Q;
  y_test : pyobj;
  raw_mapping : pyobj
}.

(** The [_logger.info] call after [loadmat] is left out. *)
Definition load_emnist (emnist_folder_path : string) (download : bool)
  : M emnist :=
  let filepath := os_path_join emnist_folder_path EMNIST_FILENAME in
  is_dir ← os_path_isdir emnist_folder_path;
  is_file ← os_path_isfile filepath;
  (if negb (is_dir && is_file) then
     if download then download_emnist emnist_folder_path
     else raise (FileNotFoundError (not_found_message emnist_folder_path))
   else mret tt);;
  raw_emnist_data ← loadmat filepath;
  dataset ← lift (of_option KeyError (raw_emnist_data !! "dataset"));
  (* load train data *)
  x_train ← lift (load_images dataset [0; 0; 0; 0; 0; 0]);
  y_train ← lift (py_path dataset [0; 0; 0; 0; 0; 1]);
  (* load test data *)
  x_test ← lift (load_images dataset [0; 0; 1; 0; 0; 0]);
  y_test ← lift (py_path dataset [0; 0; 1; 0; 0; 1]);
  (* load mapping from label to chr *)
  mapping ← lift (py_path dataset [0; 0; 2]);
  mret (mk_emnist x_train y_train x_test y_test mapping).

(* --------------------------------------------------------------------- *)
(** ** [show_img]                                                         *)
(* --------------------------------------------------------------------- *)

(** [y[i, j]] for a label array. *)
Definition label_at (y : pyobj) (idx : list nat) : outcome Z :=
  match y with
  | PyArray a => of_option IndexError (np.getitem a idx)
  | PyObjects _ => Raise IndexError
  end.

(** [y[i][j]]. *)
Definition label_item (y : pyobj) (i j : nat) : outcome Z :=
  row ← py_getitem y i;
  cell ← py_getitem row j;
  label_at cell [].

Definition show_img (idx : nat) (x_train : np.ndarray Q) (y_train : pyobj)
  (x_test : np.ndarray Q) (y_test : pyobj) (mapping : gmap Z string)
  (mode : string) : M unit :=
  '(img, label) ←
    (if decide (mode = "train") then
       img ← lift (np.index0 x_train idx);
       l ← lift (label_at y_train [idx; 0]);
       label ← lift (of_option KeyError (mapping !! l));
       mret (img, label)
     else
       img ← lift (np.index0 x_test idx);
       l ← lift (label_at y_test [idx; 0]);
       label ← lift (of_option KeyError (mapping !! l));
       mret (img, label));
  emit (ShowImage img);;
  emit (Print ("Label: " +:+ label)).

(* --------------------------------------------------------------------- *)
(** ** NumPy's global random generator                                    *)
(* --------------------------------------------------------------------- *)

Definition put_rng (s : rng_state env) : M unit := fun w =>
  (Ret tt, mk_world (fs w) (ticks w) s (sent w) (stdout w)).

(** [np.random.seed(seed)]. *)
Definition np_random_seed (seed : Z) : M unit :=
  if ((0 <=? seed) && (seed <? 2 ^ 32))%Z
  then put_rng (seed_state env seed)
  else raise (ValueError "Seed must be between 0 and 2**32 - 1").

(** [x[i], x[j] = x[j], x[i]]. *)
Definition swap (i j : nat) (x : list nat) : list nat :=
  match x !! j, x !! i with
  | Some xj, Some xi => <[j := xi]> (<[i := xj]> x)
  | _, _ => x
  end.

(** [shuffle]: for [i] from [n - 1] down to [1], draw [j] in [0, i] and
    swap the entries at [i] and [j]. *)
Fixpoint shuffle_from (i : nat) (x : list nat) (s : rng_state env)
  : list nat * rng_state env :=
  match i with
  | 0 => (x, s)
  | S i' =>
      let '(j, s') := rk_interval env i s in
      shuffle_from i' (swap i j x) s'
  end.

(** [np.random.permutation(n)]: a shuffled [arange(n)]. *)
Definition np_random_permutation (n : nat) : M (list nat) := fun w =>
  let '(x, s) := shuffle_from (n - 1) (seq 0 n) (rng w) in
  (Ret x, mk_world (fs w) (ticks w) s (sent w) (stdout w)).

(** [np.random.choice(np.arange(pop_size), size, replace=False)]: the first
    [size] entries of a permutation of the population. An empty population
    is refused unless no sample is asked for, and so is a sample larger
    than the population. *)
Definition np_random_choice (pop_size size : nat) : M (list nat) :=
  if (pop_size =? 0) && negb (size =? 0) then
    raise (ValueError "'a' cannot be empty unless no samples are taken")
  else if pop_size <? size then
    raise (ValueError
      "Cannot take a larger sample than population when 'replace=False'")
  else idx ← np_random_permutation pop_size; mret (take size idx).

(* --------------------------------------------------------------------- *)
(** ** [eval_serving_performance]                                         *)
(* --------------------------------------------------------------------- *)

(** [int(x)] for a float: truncation towards zero. *)
Definition int_of_float (x : Q) : Z := Z.quot (Qnum x) (Zpos (Qden x)).

(** [int((stop - start) * 1000000)/1000]. *)
Definition latency (start stop : Q) : Q :=
  (inject_Z (int_of_float ((stop - start) * 1000000)) / 1000)%Q.

(** [a / b] for numbers. *)
Definition truediv (a b : Q) : outcome Q :=
  if Qeq_bool b 0 then Raise ZeroDivisionError else Ret (a / b)%Q.

(** The split both evaluation functions work on. *)
Definition select_split (dataset : string) (data : emnist)
  : np.ndarray Q * pyobj :=
  if decide (dataset = "train") then (x_train data, y_train data)
  else (x_test data, y_test data).

(** The seeded draw of the indices to evaluate. *)
Definition draw_eval_indices (seed : Z) (x_eval : np.ndarray Q)
  (n_examples : nat) : M (list nat) :=
  np_random_seed seed;;
  pop_size ← lift (shape0 x_eval);
  np_random_choice pop_size n_examples.

(** One query: the scores the service returns for a flattened image. *)
Definition query (use_graphpipe : bool) (request_url : string)
  (test_img_flatten : np.ndarray Q) : M (Q * list (list Q)) :=
  if negb use_graphpipe then
    start ← time_time;
    test_img_payload ← lift (np.tolist2 test_img_flatten);
    test_img_softmax_pred ←
      requests_post_predictions request_url test_img_payload;
    mret (start, test_img_softmax_pred)
  else
    start ← time_time;
    test_img_softmax_pred ← remote_execute request_url test_img_flatten;
    mret (start, test_img_softmax_pred).

(** The body of the loop over the drawn indices, for the position [idx] and
    the image index [test_img_idx]; it returns the updated [acc] and
    [durations]. *)
Definition eval_step (n_print_examples : nat) (request_url : string)
  (dataset : string) (use_graphpipe : bool) (data : emnist)
  (mapping : gmap Z string) (x_eval : np.ndarray Q) (y_eval : pyobj)
  (idx test_img_idx : nat) (acc : nat) (durations : list Q)
  : M (nat * list Q) :=
  img ← lift (np.index0 x_eval test_img_idx);
  flat ← lift (np.reshape img [1; 784] np.order_C);
  let test_img_flatten := np.map_elements (fun v => v / 255)%Q flat in
  '(start, test_img_softmax_pred) ←
    query use_graphpipe request_url test_img_flatten;
  stop ← time_time;
  let durations := (durations ++ [latency start stop])%list in
  test_img_class_pred ← lift (np.argmax test_img_softmax_pred);
  label ← lift (label_item y_eval test_img_idx 0);
  let acc :=
    acc + (if (Z.of_nat test_img_class_pred =? label)%Z then 1 else 0) in
  (if idx <? n_print_examples then
     show_img test_img_idx (x_train data) (y_train data)
              (x_test data) (y_test data) mapping dataset;;
     predicted ←
       lift (of_option KeyError (mapping !! Z.of_nat test_img_class_pred));
     emit (Print ("Predicted Label: " +:+ predicted))
   else mret tt);;
  mret (acc, durations).

(** [for idx, test_img_idx in enumerate(eval_img_indices): ...]. *)
Fixpoint eval_loop (n_print_examples : nat) (request_url : string)
  (dataset : string) (use_graphpipe : bool) (data : emnist)
  (mapping : gmap Z string) (x_eval : np.ndarray Q) (y_eval : pyobj)
  (idx : nat) (eval_img_indices : list nat) (acc : nat) (durations : list Q)
  : M (nat * list Q) :=
  match eval_img_indices with
  | [] => mret (acc, durations)
  | test_img_idx :: rest =>
      '(acc, durations) ←
        eval_step n_print_examples request_url dataset use_graphpipe data
                  mapping x_eval y_eval idx test_img_idx acc durations;
      eval_loop n_print_examples request_url dataset use_graphpipe data
                mapping x_eval y_eval (S idx) rest acc durations
  end.

Definition eval_serving_performance (n_examples n_print_examples : nat)
  (request_url : string) (seed : Z) (dataset : string)
  (use_graphpipe : bool) (emnist_folder_path : string) : M (list Q) :=
  data ← load_emnist emnist_folder_path false;
  let mapping := get_emnist_mapping in
  let acc := 0 in
  let durations := [] in
  let '(x_eval, y_eval) := select_split dataset data in
  eval_img_indices ← draw_eval_indices seed x_eval n_examples;
  '(acc, durations) ←
    eval_loop n_print_examples request_url dataset use_graphpipe data
              mapping x_eval y_eval 0 eval_img_indices acc durations;
  accuracy ← lift (truediv (inject_Z (Z.of_nat acc))
                           (inject_Z (Z.of_nat n_examples)));
  emit (PrintAccuracy n_examples accuracy);;
  mret durations.

(* --------------------------------------------------------------------- *)
(** ** [eval_throughput]                                                  *)
(* --------------------------------------------------------------------- *)

(** One request of the throughput loop over HTTP: the batch
    [data[num_reqs:(num_reqs+batch_size)].reshape(-1, 28*28)] is posted and
    the ["predictions"] field of the answer is looked up. *)
Definition post_batch (request_url : string) (data : np.ndarray Q)
  (batch_size num_reqs : Z) : M unit :=
  piece ← lift (np.slice0 data num_reqs (num_reqs + batch_size));
  batch ← lift (np.reshape_infer piece [28 * 28]);
  test_img_payload ← lift (np.tolist2 batch);
  requests_post_predictions request_url test_img_payload;;
  mret tt.

(** One request of the throughput loop over the binary client. *)
Definition execute_batch (request_url : string) (data : np.ndarray Q)
  (batch_size num_reqs : Z) : M unit :=
  piece ← lift (np.slice0 data num_reqs (num_reqs + batch_size));
  remote_execute request_url piece;;
  mret tt.

(** [while time.time() <= end_time: request(num_reqs); num_reqs += batch_size],
    run for at most [fuel] tests of the loop condition. *)
Fixpoint throughput_loop (fuel : nat) (request : Z -> M unit) (end_time : Q)
  (batch_size num_reqs : Z) : M Z :=
  match fuel with
  | 0 => out_of_fuel
  | S fuel' =>
      now ← time_time;
      if Qle_bool now end_time then
        request num_reqs;;
        throughput_loop fuel' request end_time batch_size
                        (num_reqs + batch_size)%Z
      else mret num_reqs
  end.

(** The two [_logger.info] calls, before the loop and before the return,
    are left out. *)
Definition eval_throughput (fuel : nat) (duration : Q)
  (request_url : string) (batch_size : Z) (dataset : string)
  (use_graphpipe : bool) (emnist_folder_path : string) : M (Z * Q) :=
  loaded ← load_emnist emnist_folder_path false;
  let data :=
    if decide (dataset = "train") then x_train loaded else x_test loaded in
  data ← lift (np.reshape_infer data [1; 28 * 28]);
  let data := np.map_elements (fun v => v / 255)%Q data in
  let num_reqs := 0%Z in
  num_reqs ←
    (if negb use_graphpipe then
       now ← time_time;
       let end_time := (now + duration)%Q in
       throughput_loop fuel (post_batch request_url data batch_size)
                       end_time batch_size num_reqs
     else
       now ← time_time;
       let end_time := (now + duration)%Q in
       throughput_loop fuel (execute_batch request_url data batch_size)
                       end_time batch_size num_reqs);
  reqs_per_second ← lift (truediv (inject_Z num_reqs) duration);
  mret (num_reqs, reqs_per_second).

End Program.

Arguments fs {env} _.
Arguments ticks {env} _.
Arguments rng {env} _.
Arguments sent {env} _.
Arguments stdout {env} _.
Arguments mk_world {env} fs ticks rng sent stdout.
Arguments raise {env A} e _.
Arguments out_of_fuel {env A} _.
Arguments lift {env A} o _.
Arguments lift_sum {env A} o _.
Arguments get_fs {env} _.
Arguments put_fs {env} f _.
Arguments put_rng {env} s _.
Arguments time_time {env} _.
Arguments emit {env} ev _.
Arguments requests_post_predictions {env} url rows _.
Arguments remote_execute {env} url a _.
Arguments os_path_isdir {env} p _.
Arguments os_path_isfile {env} p _.
Arguments os_mkdir {env} p _.
Arguments write_file {env} p c _.
Arguments extractall {env} zip_path target _.
Arguments os_listdir {env} p _.
Arguments shutil_move {env} src dst _.
Arguments shutil_rmtree {env} p _.
Arguments requests_get {env} url _.
Arguments for_each {env A} l body _.
Arguments download_emnist {env} emnist_folder_path _.
Arguments loadmat {env} filepath _.
Arguments load_emnist {env} emnist_folder_path download _.
Arguments show_img {env} idx x_train y_train x_test y_test mapping mode _.
Arguments np_random_seed {env} seed _.
Arguments shuffle_from {env} i x s.
Arguments np_random_permutation {env} n _.
Arguments np_random_choice {env} pop_size size _.
Arguments draw_eval_indices {env} seed x_eval n_examples _.
Arguments query {env} use_graphpipe request_url test_img_flatten _.
Arguments eval_step {env} n_print_examples request_url dataset use_graphpipe
  data mapping x_eval y_eval idx test_img_idx acc durations _.
Arguments eval_loop {env} n_print_examples request_url dataset use_graphpipe
  data mapping x_eval y_eval idx eval_img_indices acc durations _.
Arguments eval_serving_performance {env} n_examples n_print_examples
  request_url seed dataset use_graphpipe emnist_folder_path _.
Arguments post_batch {env} request_url data batch_size num_reqs _.
Arguments execute_batch {env} request_url data batch_size num_reqs _.
Arguments throughput_loop {env} fuel request end_time batch_size num_reqs _.
Arguments eval_throughput {env} fuel duration request_url batch_size dataset
  use_graphpipe emnist_folder_path _.

(* ===================================================================== *)
(** * Vocabulary of the specification                                     *)
(* ===================================================================== *)

(** The character the label mapper assigns to a class index: the digits,
    then the upper-case letters, then the lower-case letters. *)
Definition label_char (k : Z) : option string :=
  if (k <? 0)%Z then None
  else if (k <? 10)%Z then Some (chr (48 + k))
  else if (k <? 36)%Z then Some (chr (65 + (k - 10)))
  else if (k <? 62)%Z then Some (chr (97 + (k - 36)))
  else None.

(** What [load_emnist] extracts from the dictionary [loadmat] returns. *)
Definition read_emnist (raw : gmap string pyobj) : outcome emnist :=
  dataset ← of_option KeyError (raw !! "dataset");
  x_train ← load_images dataset [0; 0; 0; 0; 0; 0];
  y_train ← py_path dataset [0; 0; 0; 0; 0; 1];
  x_test ← load_images dataset [0; 0; 1; 0; 0; 0];
  y_test ← py_path dataset [0; 0; 1; 0; 0; 1];
  mapping ← py_path dataset [0; 0; 2];
  Ret (mk_emnist x_train y_train x_test y_test mapping).

Definition read_archive (f : gmap string node) (filepath : string)
  : outcome emnist :=
  raw ← loadmat_in f filepath; read_emnist raw.

Definition archive_present (f : gmap string node) (folder : string) : bool :=
  isdir_in f folder && isfile_in f (os_path_join folder EMNIST_FILENAME).

(** The indices the seeded draw yields: they depend on the seed, on the
    number of images of the split and on the number asked for, and on
    nothing else. *)
Definition drawn_indices (env : environment) (seed : Z) (x_eval : np.ndarray Q)
  (n_examples : nat) : outcome (list nat) :=
  if ((0 <=? seed) && (seed <? 2 ^ 32))%Z then
    pop_size ← shape0 x_eval;
    if (pop_size =? 0) && negb (n_examples =? 0) then
      Raise (ValueError "'a' cannot be empty unless no samples are taken")
    else if pop_size <? n_examples then
      Raise (ValueError
        "Cannot take a larger sample than population when 'replace=False'")
    else Ret (take n_examples
                (shuffle_from (pop_size - 1) (seq 0 pop_size)
                              (seed_state env seed)).1)
  else Raise (ValueError "Seed must be between 0 and 2**32 - 1").

(** An outcome that is a value or an exception. *)
Definition answers {A} (o : outcome A) : Prop := o <> OutOfFuel.

(** The start of [eval_serving_performance]: load the data, select the
    split, seed the generator and draw the indices. *)
Definition sampled_indices {env : environment} (folder dataset : string)
  (seed : Z) (n_examples : nat) (w : world env) : outcome (list nat) :=
  ((data ← load_emnist folder false;
    draw_eval_indices seed (select_split dataset data).1 n_examples) w).1.

(** The number of examples a request carries. *)
Definition examples_in (p : payload) : nat :=
  match p with
  | Instances rows => length rows
  | Tensor a => default 0 (np.shape a !! 0)
  end.

Definition total_examples (ps : list (string * payload)) : nat :=
  sum_list ((fun p => examples_in p.2) <$> ps).

(** The number of rows of [data[n:(n+b)]] when [data] has [N] rows. *)
Definition batch_rows (N : nat) (b n : Z) : nat :=
  slice_bound N (n + b) - slice_bound N n.

(** The scores the service returns to the [k]-th request, the one that
    carries the flattened image [flat]. *)
Definition reply_scores (env : environment) (use_graphpipe : bool)
  (url : string) (k : nat) (flat : np.ndarray Q) : outcome (list (list Q)) :=
  if negb use_graphpipe then
    rows ← np.tolist2 flat;
    match post_reply env k url rows with
    | inl e => Raise e
    | inr None => Raise KeyError
    | inr (Some predictions) => Ret predictions
    end
  else
    match execute_reply env k url flat with
    | inl e => Raise e
    | inr scores => Ret scores
    end.

(** [x_eval[i].reshape(1, 784) / 255]. *)
Definition flatten_image (x_eval : np.ndarray Q) (i : nat)
  : outcome (np.ndarray Q) :=
  img ← np.index0 x_eval i;
  flat ← np.reshape img [1; 784] np.order_C;
  Ret (np.map_elements (fun v => v / 255)%Q flat).

(** The predicted class and the ground-truth label of the sample with image
    index [i] whose request is the [k]-th one sent. *)
Definition sample_result (env : environment) (use_graphpipe : bool)
  (url : string) (x_eval : np.ndarray Q) (y_eval : pyobj) (k i : nat)
  : outcome (nat * Z) :=
  flat ← flatten_image x_eval i;
  scores ← reply_scores env use_graphpipe url k flat;
  pred ← np.argmax scores;
  label ← label_item y_eval i 0;
  Ret (pred, label).

Definition is_hit (env : environment) (use_graphpipe : bool) (url : string)
  (x_eval : np.ndarray Q) (y_eval : pyobj) (k i : nat) : bool :=
  match sample_result env use_graphpipe url x_eval y_eval k i with
  | Ret (pred, label) => (Z.of_nat pred =? label)%Z
  | _ => false
  end.

(** The number of samples, among those with image indices [inds] sent as the
    requests [k0], [k0 + 1], ..., whose predicted class is the label. *)
Definition hits (env : environment) (use_graphpipe : bool) (url : string)
  (x_eval : np.ndarray Q) (y_eval : pyobj) (k0 : nat) (inds : list nat) : nat :=
  length (filter (fun ki => is_hit env use_graphpipe url x_eval y_eval
                                   ki.1 ki.2 = true)
                 (zip (seq k0 (length inds)) inds)).

(** The latency recorded for the sample at position [i] of a run that starts
    when [t0] clock readings have been taken. *)
Definition recorded_latency (env : environment) (t0 i : nat) : Q :=
  latency (wall_clock env (t0 + 2 * i)) (wall_clock env (t0 + 2 * i + 1)).

(** What [loadmat] makes of the values of an EMNIST archive: a numeric
    matrix (stored first index fastest) and a struct. *)
Definition matrix {A} (rows cols : nat) (data : list A) : np.ndarray A :=
  np.mk_ndarray [rows; cols] [1; rows] data.

Definition struct (fields : list pyobj) : pyobj :=
  PyObjects [PyObjects [PyObjects fields]].

(** The object under the key ["dataset"]: a train bundle and a test bundle,
    each with an images matrix of 784 columns first and the labels second,
    then the mapping table. *)
Definition emnist_dataset
  (n_train : nat) (train_pixels : list Z) (train_labels : pyobj)
  (train_rest : list pyobj)
  (n_test : nat) (test_pixels : list Z) (test_labels : pyobj)
  (test_rest : list pyobj) (mapping : pyobj) (rest : list pyobj) : pyobj :=
  struct (struct (PyArray (matrix n_train 784 train_pixels)
                    :: train_labels :: train_rest)
            :: struct (PyArray (matrix n_test 784 test_pixels)
                         :: test_labels :: test_rest)
            :: mapping :: rest).

(** Pixel [k] of image [n] in the flat storage of a split of [N] images. *)
Definition flat_pixel {A} (N : nat) (data : list A) (n k : nat) : option A :=
  data !! (n + N * k).

(** The images array [load_emnist] builds from a split of [N] images. *)
Definition images (N : nat) (pixels : list Z) : np.ndarray Q :=
  np.mk_ndarray [N; 28; 28]
    (np.fresh_strides (if 2 <=? N then np.order_F else np.order_C)
                      [N; 28; 28])
    (inject_Z <$> pixels).

(** The world after one more request was sent. *)
Definition log_request {env : environment} (w : world env)
  (r : string * payload) : world env :=
  mk_world (fs w) (ticks w) (rng w) (sent w ++ [r]) (stdout w).

(** The contract of [load_emnist] as the specification words it: the error
    when the expected file is absent and download is disallowed, and the
    data in every other case. *)
Definition load_emnist_as_specified {env : environment} (folder : string)
  (download : bool) (w : world env) : Prop :=
  if negb (isfile_in (fs w) (os_path_join folder EMNIST_FILENAME))
     && negb download
  then load_emnist folder download w
       = (Raise (FileNotFoundError (not_found_message folder)), w)
  else exists data w', load_emnist folder download w = (Ret data, w').

(** The latency as the specification words it: floor(elapsed * 10^6) / 1000. *)
Definition latency_as_specified (start stop : Q) : Q :=
  (inject_Z (Qfloor ((stop - start) * 1000000)) / 1000)%Q.

(* ===================================================================== *)
(** * Vocabulary of the further properties                                *)
(* ===================================================================== *)

(** An array with a stride for every dimension whose every index within the
    shape reads an element of the buffer. *)
Definition readable {A} (a : np.ndarray A) : Prop :=
  length (np.strides a) = length (np.shape a)
  /\ forall idx, np.in_bounds (np.shape a) idx = true ->
                 is_Some (np.getitem a idx).

(** The model service answers the request that is the [k]-th one sent,
    whatever it carries. *)
Definition answered (env : environment) (use_graphpipe : bool)
  (url : string) (k : nat) : Prop :=
  if use_graphpipe
  then forall a, exists scores, execute_reply env k url a = inr scores
  else forall rows, exists scores, post_reply env k url rows = inr (Some scores).

Definition service_answers (env : environment) (use_graphpipe : bool)
  (url : string) : Prop :=
  forall k, answered env use_graphpipe url k.

(** Scores that [np.argmax] turns into a class: rows of one length, with at
    least one and at most 62 scores in all. *)
Definition class_scores (scores : list (list Q)) : Prop :=
  np.rectangular scores = true /\ 0 < length (concat scores) <= 62.

(** It answers the [k]-th request with such scores. *)
Definition classified (env : environment) (use_graphpipe : bool)
  (url : string) (k : nat) : Prop :=
  if use_graphpipe
  then forall a, exists scores,
         execute_reply env k url a = inr scores /\ class_scores scores
  else forall rows, exists scores,
         post_reply env k url rows = inr (Some scores)
         /\ class_scores scores.

Definition service_classifies (env : environment) (use_graphpipe : bool)
  (url : string) : Prop :=
  forall k, classified env use_graphpipe url k.

(** The [k]-th request fails with the exception [e]: the client raises it,
    or, over HTTP, the answer has no ["predictions"] field and the lookup
    raises [KeyError]. *)
Definition request_fails (env : environment) (use_graphpipe : bool)
  (url : string) (k : nat) (e : exn) : Prop :=
  if use_graphpipe
  then forall a, execute_reply env k url a = inl e
  else forall rows,
         post_reply env k url rows = inl e
         \/ (post_reply env k url rows = inr None /\ e = KeyError).

(** Scores that [np.argmax] does not take: rows of different lengths, or no
    score at all. *)
Definition unclassifiable (scores : list (list Q)) : Prop :=
  np.rectangular scores = false \/ concat scores = [].

(** The [k]-th request is answered, with such scores. *)
Definition answered_unclassifiably (env : environment) (use_graphpipe : bool)
  (url : string) (k : nat) : Prop :=
  if use_graphpipe
  then forall a, exists scores,
         execute_reply env k url a = inr scores /\ unclassifiable scores
  else forall rows, exists scores,
         post_reply env k url rows = inr (Some scores)
         /\ unclassifiable scores.

(** What one query of the evaluator sends for a flattened image. *)
Definition request_payload (use_graphpipe : bool) (flat : np.ndarray Q)
  : outcome payload :=
  if use_graphpipe then Ret (Tensor flat)
  else rows ← np.tolist2 flat; Ret (Instances rows).


(** The number of hits among the results of the samples, each the class
    predicted and the label found: a hit has the two equal. *)
Definition count_hits (results : list (nat * Z)) : nat :=
  length (filter (fun r : nat * Z => Z.of_nat r.1 = r.2) results).

(** What the sample with image index [ki.2], whose request is the [ki.1]-th
    one sent, went through: the flattened image, the scores the service
    returned for it, the class [np.argmax] made of them and the label read
    at [y_eval[ki.2][0]]. *)
Definition evaluated (env : environment) (g : bool) (url : string)
  (x : np.ndarray Q) (y : pyobj) (ki : nat * nat) (r : nat * Z) : Prop :=
  exists flat scores,
    flatten_image x ki.2 = Ret flat
    /\ reply_scores env g url ki.1 flat = Ret scores
    /\ np.argmax scores = Ret r.1
    /\ label_item y ki.2 0 = Ret r.2.

(** Entry [k] of the example at position [m] of a request: of row [m] of the
    instances, of [a[m, k]] for a tensor of shape (rows, 784) and of
    [a[m, 0, k]] for one of shape (rows, 1, 784). *)
Definition payload_entry (p : payload) (m k : nat) : option Q :=
  match p with
  | Instances rows => rows !! m ≫= fun row => row !! k
  | Tensor a =>
      match np.shape a with
      | [_; _; _] => np.getitem a [m; 0; k]
      | _ => np.getitem a [m; k]
      end
  end.

(** What the evaluator shows and prints for one of the first
    [n_print_examples] samples, the one with image index [i] whose request
    is the [k]-th sent: the image, the character of its label, and the
    character of the predicted class. *)
Definition printed_sample (env : environment) (use_graphpipe : bool)
  (url : string) (x_eval : np.ndarray Q) (y_eval : pyobj) (k i : nat)
  : outcome (list event) :=
  img ← np.index0 x_eval i;
  l ← label_at y_eval [i; 0];
  label ← of_option KeyError (get_emnist_mapping !! l);
  result ← sample_result env use_graphpipe url x_eval y_eval k i;
  predicted ← of_option KeyError (get_emnist_mapping !! Z.of_nat result.1);
  Ret [ShowImage img; Print ("Label: " +:+ label);
       Print ("Predicted Label: " +:+ predicted)].

(** The names of the files of a downloaded archive: plain file names other
    than those the download itself uses. *)
Definition plain_name (n : string) : Prop :=
  dirname n = None /\ n <> "" /\ n <> "matlab" /\ n <> "emnist_matlab.zip".

(** The paths [download_emnist] works with under the folder [base]: the
    folder the archive unpacks to, the downloaded archive, a file of the
    unpacked folder, and the place it is moved to. *)
Definition matlab_dir (base : string) : string := base +:+ "/matlab".
Definition zip_file_path (base : string) : string :=
  base +:+ "/emnist_matlab.zip".
Definition matlab_path (base n : string) : string :=
  base +:+ "/matlab/" +:+ n.
Definition base_path (base n : string) : string := base +:+ "/" +:+ n.

(** The kinds of path the download deals with. *)
Inductive known_path (base : string) (names : list string) (k : string)
  : Prop :=
| known_outside : below base k = None -> known_path base names k
| known_base : k = base -> known_path base names k
| known_zip : k = zip_file_path base -> known_path base names k
| known_dir : k = matlab_dir base -> known_path base names k
| known_matlab (n : string) :
    n ∈ names -> k = matlab_path base n -> known_path base names k
| known_moved (n : string) :
    n ∈ names -> k = base_path base n -> known_path base names k.

(** The file system after the files [l] have been unpacked below the folder,
    and after the files named [L] have been moved up from there. *)
Definition unpacked (folder : string) (f : gmap string node)
  (l : list (string * content)) : gmap string node :=
  foldl (fun f nc =>
           <[matlab_path (strip_slash folder) nc.1 := File nc.2]>
             (<[matlab_dir (strip_slash folder) := Dir]> f)) f l.

Definition moved (folder : string) (f : gmap string node) (L : list string)
  : gmap string node :=
  foldl (fun f n =>
           match f !! matlab_path (strip_slash folder) n with
           | Some v => <[base_path (strip_slash folder) n := v]>
                         (delete (matlab_path (strip_slash folder) n) f)
           | None => f
           end) f L.

(* ===================================================================== *)
(** * Example worlds                                                      *)
(* ===================================================================== *)

(** A generator that counts: the draw in [0, max] is the state modulo
    [max + 1], and the state moves on by one. *)
Definition counter_interval (max s : nat) : nat * nat := (s mod S max, S s).

Lemma counter_interval_le (max s : nat) : (counter_interval max s).1 <= max.
Proof. cbn. pose proof (Nat.mod_upper_bound s (S max)). lia. Qed.

(** An environment with the counting generator, a given clock and given
    answers of the model service and of the download server. *)
Definition make_env (clock : nat -> Q)
  (post : nat -> string -> list (list Q) -> exn + option (list (list Q)))
  (execute : nat -> string -> np.ndarray Q -> exn + list (list Q))
  (get : string -> exn + content) : environment :=
  {| rng_state := nat;
     seed_state := Z.to_nat;
     rk_interval := counter_interval;
     rk_interval_le := counter_interval_le;
     wall_clock := clock;
     post_reply := post;
     execute_reply := execute;
     get_reply := get |}.

(** A split of [n] images whose flat storage holds the values 0, 1, 2, ...
    (modulo 256) in storage order, with the given labels. *)
Definition example_pixels (n : nat) : list Z :=
  (fun p => Z.of_nat (p mod 256)) <$> seq 0 (n * 784).

Definition example_bundle (n : nat) (labels : list Z) : mat_value :=
  MatStruct [MatNum n 784 (example_pixels n); MatNum n 1 labels].

(** An archive with one training image and three test images. *)
Definition example_archive : content :=
  MatFile [("dataset",
            MatStruct [example_bundle 1 [3]%Z;
                       example_bundle 3 [1; 0; 1]%Z;
                       MatNum 2 2 [0; 1; 48; 49]%Z])].

(** An archive with one training image and one test image. *)
Definition small_archive : content :=
  MatFile [("dataset",
            MatStruct [example_bundle 1 [3]%Z;
                       example_bundle 1 [1]%Z;
                       MatNum 2 2 [0; 1; 48; 49]%Z])].

(** An archive with two training images whose test split holds a single
    image. *)
Definition single_test_archive : content :=
  MatFile [("dataset",
            MatStruct [example_bundle 2 [3; 7]%Z;
                       example_bundle 1 [1]%Z;
                       MatNum 2 2 [0; 1; 48; 49]%Z])].

Definition folder_with (c : content) : gmap string node :=
  {[ "emnist_data" := Dir; "emnist_data/emnist-byclass.mat" := File c ]}.

(** A service that scores class 1 and class 2 equally, above class 0; a
    clock that advances a third of a second per reading; a download server
    that serves the small archive zipped in the folder [matlab]. *)
Definition example_env : environment :=
  make_env (fun k => inject_Z (Z.of_nat k) * (1 # 3))%Q
           (fun _ _ _ => inr (Some [[1 # 10; 9 # 10; 9 # 10]%Q]))
           (fun _ _ _ => inr [[1 # 10; 9 # 10; 9 # 10]%Q])
           (fun _ => inr (ZipArchive
                            [("matlab/emnist-byclass.mat", small_archive)])).

(** The same with the network down and a clock that is set back by a
    microsecond and a half between its first two readings. *)
Definition backward_clock (k : nat) : Q :=
  match k with
  | 0 => 10000015 # 10000000
  | _ => 1
  end.

Definition offline_env : environment :=
  make_env backward_clock
           (fun _ _ _ => inr (Some [[1 # 10; 9 # 10; 9 # 10]%Q]))
           (fun _ _ _ => inr [[1 # 10; 9 # 10; 9 # 10]%Q])
           (fun _ => inl ConnectionError).

Definition initial_world (env : environment) (s : rng_state env)
  (f : gmap string node) : world env :=
  mk_world f 0 s [] [].

Definition example_world : world example_env :=
  initial_world example_env 0 (folder_with example_archive).

Definition small_world : world example_env :=
  initial_world example_env 0 (folder_with small_archive).

Definition single_test_world : world example_env :=
  initial_world example_env 0 (folder_with single_test_archive).

Definition empty_world : world example_env :=
  initial_world example_env 0 ∅.

Definition offline_world : world offline_env :=
  initial_world offline_env 0 (folder_with small_archive).

Definition offline_empty_world : world offline_env :=
  initial_world offline_env 0 ∅.


(** What the loader returns for an archive of the examples. *)
Definition example_data_of (n_train : nat) (train_labels : list Z)
  (n_test : nat) (test_labels : list Z) : emnist :=
  mk_emnist (images n_train (example_pixels n_train))
            (PyArray (matrix n_train 1 train_labels))
            (images n_test (example_pixels n_test))
            (PyArray (matrix n_test 1 test_labels))
            (PyArray (matrix 2 2 [0; 1; 48; 49]%Z)).

Definition example_data : emnist := example_data_of 1 [3]%Z 3 [1; 0; 1]%Z.
Definition small_data : emnist := example_data_of 1 [3]%Z 1 [1]%Z.

(** A service that answers the first request only: over HTTP the later
    answers have no ["predictions"] field, and the binary client raises. *)
Definition flaky_env : environment :=
  make_env (fun k => inject_Z (Z.of_nat k) * (1 # 3))%Q
           (fun k _ _ => if k =? 0
                         then inr (Some [[1 # 10; 9 # 10; 9 # 10]%Q])
                         else inr None)
           (fun k _ _ => if k =? 0
                         then inr [[1 # 10; 9 # 10; 9 # 10]%Q]
                         else inl ConnectionError)
           (fun _ => inl ConnectionError).

Definition flaky_world : world flaky_env :=
  initial_world flaky_env 0 (folder_with example_archive).

(** A service whose answers have rows of different lengths. *)
Definition ragged_env : environment :=
  make_env (fun k => inject_Z (Z.of_nat k) * (1 # 3))%Q
           (fun _ _ _ => inr (Some [[1 # 10; 9 # 10]; [9 # 10]]%Q))
           (fun _ _ _ => inr [[1 # 10; 9 # 10]; [9 # 10]]%Q)
           (fun _ => inl ConnectionError).

Definition ragged_world : world ragged_env :=
  initial_world ragged_env 0 (folder_with example_archive).

(** An archive whose training images have two columns instead of 784. *)
Definition narrow_archive : content :=
  MatFile [("dataset",
            MatStruct [MatStruct [MatNum 1 2 [0; 1]%Z; MatNum 1 1 [3]%Z];
                       example_bundle 1 [1]%Z;
                       MatNum 2 2 [0; 1; 48; 49]%Z])].

Definition narrow_world : world example_env :=
  initial_world example_env 0 (folder_with narrow_archive).

(** A download server that answers with a body that is no zip archive, and
    a folder that exists but is empty. *)
Definition error_page_env : environment :=
  make_env (fun k => inject_Z (Z.of_nat k) * (1 # 3))%Q
           (fun _ _ _ => inr (Some [[1 # 10; 9 # 10; 9 # 10]%Q]))
           (fun _ _ _ => inr [[1 # 10; 9 # 10; 9 # 10]%Q])
           (fun _ => inr OtherBytes).

Definition error_page_world : world error_page_env :=
  initial_world error_page_env 0 {[ "emnist_data" := Dir ]}.

(* ===================================================================== *)
(** * Properties                                                          *)
(* ===================================================================== *)

(** ** The label mapper *)

Lemma elem_of_range (a b k : Z) : k ∈ range a b ↔ (a ≤ k < b)%Z.
Proof.
  unfold range. rewrite list_elem_of_fmap. split.
  - intros (i & -> & Hi). apply elem_of_seq in Hi. lia.
  - intros H. exists (Z.to_nat (k - a)). split; [lia|].
    apply elem_of_seq. lia.
Qed.

Lemma chr_inj (a b : Z) :
  (0 ≤ a < 256)%Z → (0 ≤ b < 256)%Z → chr a = chr b → a = b.
Proof.
  intros Ha Hb H. unfold chr in H. injection H as H.
  apply (f_equal N_of_ascii) in H.
  rewrite !N_ascii_embedding in H by lia. lia.
Qed.

Lemma mapping_lookup (k : Z) : get_emnist_mapping !! k = label_char k.
Proof.
  destruct (decide (0 ≤ k < 62)%Z) as [Hk|Hk].
  - assert (Hall : Forall (fun k => get_emnist_mapping !! k = label_char k)
                     (range 0 62)).
    { apply (bool_decide_unpack _). vm_compute. reflexivity. }
    rewrite Forall_forall in Hall. apply Hall, elem_of_range, Hk.
  - assert (Hdom : dom get_emnist_mapping = list_to_set (range 0 62)).
    { vm_compute. reflexivity. }
    assert (Hn : get_emnist_mapping !! k = None).
    { apply not_elem_of_dom. rewrite Hdom, elem_of_list_to_set, elem_of_range.
      exact Hk. }
    rewrite Hn. unfold label_char.
    repeat case_match; try reflexivity; lia.
Qed.

(** C3. The label mapper is a constant: a dictionary with exactly the 62
    keys 0..61, no character assigned twice, that maps the indices to the
    characters '0'-'9', 'A'-'Z', 'a'-'z' in that order; in particular 0 to
    '0', 9 to '9', 10 to 'A', 35 to 'Z', 36 to 'a' and 61 to 'z'. *)
Theorem label_mapper_contract :
  size get_emnist_mapping = 62
  ∧ (∀ k : Z, is_Some (get_emnist_mapping !! k) ↔ (0 ≤ k < 62)%Z)
  ∧ (∀ (i j : Z) (c : string),
        get_emnist_mapping !! i = Some c → get_emnist_mapping !! j = Some c →
        i = j)
  ∧ (∀ k : Z, (0 ≤ k < 10)%Z → get_emnist_mapping !! k = Some (chr (48 + k)))
  ∧ (∀ k : Z, (10 ≤ k < 36)%Z →
        get_emnist_mapping !! k = Some (chr (65 + (k - 10))))
  ∧ (∀ k : Z, (36 ≤ k < 62)%Z →
        get_emnist_mapping !! k = Some (chr (97 + (k - 36))))
  ∧ get_emnist_mapping !! 0%Z = Some "0"
  ∧ get_emnist_mapping !! 9%Z = Some "9"
  ∧ get_emnist_mapping !! 10%Z = Some "A"
  ∧ get_emnist_mapping !! 35%Z = Some "Z"
  ∧ get_emnist_mapping !! 36%Z = Some "a"
  ∧ get_emnist_mapping !! 61%Z = Some "z".
Proof.
  split; [vm_compute; reflexivity|].
  split.
  { intros k. rewrite mapping_lookup. unfold label_char.
    repeat case_match; split; intros Hx;
      try lia; try (by eexists); by destruct Hx. }
  split.
  { intros i j c. rewrite !mapping_lookup. unfold label_char.
    repeat case_match; intros Hi Hj; try discriminate;
      match type of Hi with Some (chr ?a) = _ =>
        match type of Hj with Some (chr ?b) = _ =>
          assert (Hc : chr a = chr b) by congruence;
          apply chr_inj in Hc; lia
        end
      end. }
  repeat split; try (vm_compute; reflexivity);
    intros k Hk; rewrite mapping_lookup; unfold label_char;
    repeat case_match; try lia; reflexivity.
Qed.

Section Properties.

Context {env : environment}.

Lemma bind_run {A B} (c : M env A) (k : A -> M env B) (w : world env) :
  (c ≫= k) w =
  match c w with
  | (Ret a, w') => k a w'
  | (Raise e, w') => (Raise e, w')
  | (OutOfFuel, w') => (OutOfFuel, w')
  end.
Proof. reflexivity. Qed.

Lemma outcome_bind_ret_inv {A B} (o : outcome A) (k : A -> outcome B) (b : B) :
  o ≫= k = Ret b -> exists a, o = Ret a /\ k a = Ret b.
Proof. destruct o; intros H; try discriminate. eauto. Qed.

Lemma lift_bind_run {A B} (o : outcome A) (k : A -> M env B) (w : world env) :
  (lift o ≫= k) w =
  match o with
  | Ret a => k a w
  | Raise e => (Raise e, w)
  | OutOfFuel => (OutOfFuel, w)
  end.
Proof. rewrite bind_run. unfold lift. destruct o; reflexivity. Qed.

Lemma read_archive_run (filepath : string) (w : world env) :
  (raw_emnist_data ← loadmat filepath;
   dataset ← lift (of_option KeyError (raw_emnist_data !! "dataset"));
   x_train ← lift (load_images dataset [0; 0; 0; 0; 0; 0]);
   y_train ← lift (py_path dataset [0; 0; 0; 0; 0; 1]);
   x_test ← lift (load_images dataset [0; 0; 1; 0; 0; 0]);
   y_test ← lift (py_path dataset [0; 0; 1; 0; 0; 1]);
   mapping ← lift (py_path dataset [0; 0; 2]);
   mret (mk_emnist x_train y_train x_test y_test mapping)) w
  = (read_archive (fs w) filepath, w).
Proof.
  unfold read_archive, read_emnist.
  rewrite bind_run.
  change (loadmat filepath w) with (loadmat_in (fs w) filepath, w).
  destruct (loadmat_in (fs w) filepath) as [raw|e|]; [|reflexivity..].
  cbn [mbind outcome_bind].
  repeat (rewrite lift_bind_run;
          match goal with
          | |- context [match ?o with Ret _ => _ | Raise _ => _ | OutOfFuel => _ end] =>
              destruct o; cbn [mbind outcome_bind]; [|reflexivity..]
          end).
  reflexivity.
Qed.

Lemma load_emnist_run (folder : string) (download : bool) (w : world env) :
  load_emnist folder download w =
  let filepath := os_path_join folder EMNIST_FILENAME in
  if archive_present (fs w) folder then (read_archive (fs w) filepath, w)
  else if download then
    match download_emnist folder w with
    | (Ret _, w') => (read_archive (fs w') filepath, w')
    | (Raise e, w') => (Raise e, w')
    | (OutOfFuel, w') => (OutOfFuel, w')
    end
  else (Raise (FileNotFoundError (not_found_message folder)), w).
Proof.
  unfold load_emnist, archive_present, os_path_isdir, os_path_isfile.
  cbn zeta.
  rewrite bind_run. rewrite bind_run. cbn [get_fs]. 
  change ((mret (isdir_in (fs w) folder) : M env bool) w)
    with (Ret (isdir_in (fs w) folder), w). cbn iota beta.
  rewrite bind_run. rewrite bind_run. cbn [get_fs].
  change ((mret (isfile_in (fs w) (os_path_join folder EMNIST_FILENAME)) : M env bool) w)
    with (Ret (isfile_in (fs w) (os_path_join folder EMNIST_FILENAME)), w).
  cbn iota beta.
  rewrite bind_run.
  destruct (isdir_in (fs w) folder && isfile_in (fs w) (os_path_join folder EMNIST_FILENAME)).
  - cbn [negb]. change ((mret tt : M env unit) w) with (@Ret unit tt, w).
    cbn iota beta. apply read_archive_run.
  - cbn [negb]. destruct download.
    + destruct (download_emnist folder w) as [[[]|e|] w']; try reflexivity.
      apply read_archive_run.
    + reflexivity.
Qed.

(** ** Code without the [while] loop always answers *)

Lemma answers_bind {A B} (o : outcome A) (k : A -> outcome B) :
  answers o -> (forall a, answers (k a)) -> answers (o ≫= k).
Proof. destruct o; intros Ho Hk; [apply Hk | discriminate | by destruct Ho]. Qed.

Lemma answers_of_option {A} (e : exn) (o : option A) : answers (of_option e o).
Proof. destruct o; discriminate. Qed.

Lemma answers_index0 {A} (a : np.ndarray A) (i : nat) : answers (np.index0 a i).
Proof. unfold np.index0. repeat case_match; discriminate. Qed.

Lemma answers_reshape {A} (a : np.ndarray A) (sh : list nat) (o : np.order) :
  answers (np.reshape a sh o).
Proof. unfold np.reshape. repeat case_match; discriminate. Qed.

Lemma answers_py_getitem (o : pyobj) (i : nat) : answers (py_getitem o i).
Proof.
  destruct o; simpl; [|apply answers_of_option].
  apply answers_bind; [apply answers_index0 | discriminate].
Qed.

Lemma answers_py_path (path : list nat) (o : pyobj) : answers (py_path o path).
Proof.
  revert o. induction path as [|i path IH]; intros o; simpl; [discriminate|].
  apply answers_bind; [apply answers_py_getitem | auto].
Qed.

Lemma answers_load_images (o : pyobj) (path : list nat) :
  answers (load_images o path).
Proof.
  unfold load_images.
  apply answers_bind; [apply answers_py_path | intros o'].
  apply answers_bind; [destruct o'; discriminate | intros x].
  apply answers_bind; [apply answers_of_option | intros n].
  apply answers_reshape.
Qed.

Lemma answers_read_archive (f : gmap string node) (filepath : string) :
  answers (read_archive f filepath).
Proof.
  unfold read_archive, read_emnist.
  apply answers_bind.
  { unfold loadmat_in. repeat case_match; discriminate. }
  intros raw.
  repeat (apply answers_bind;
          [first [apply answers_of_option | apply answers_load_images
                 | apply answers_py_path] | intros ?]).
  discriminate.
Qed.

(** Without the permission to download, [load_emnist] changes nothing. *)
Lemma load_emnist_offline (folder : string) (w : world env) :
  load_emnist folder false w =
  (if archive_present (fs w) folder
   then read_archive (fs w) (os_path_join folder EMNIST_FILENAME)
   else Raise (FileNotFoundError (not_found_message folder)), w).
Proof.
  rewrite load_emnist_run. cbn zeta.
  destruct (archive_present (fs w) folder); reflexivity.
Qed.

Lemma draw_eval_indices_run (seed : Z) (x_eval : np.ndarray Q) (n : nat)
  (w : world env) :
  exists s, draw_eval_indices seed x_eval n w
            = (drawn_indices env seed x_eval n,
               mk_world (fs w) (ticks w) s (sent w) (stdout w)).
Proof.
  unfold draw_eval_indices, drawn_indices, np_random_seed.
  rewrite bind_run.
  destruct ((0 <=? seed) && (seed <? 2 ^ 32))%Z.
  - cbn [put_rng]. rewrite lift_bind_run.
    destruct (shape0 x_eval) as [N|e|]; cbn [mbind outcome_bind];
      [|eexists; reflexivity..].
    unfold np_random_choice.
    destruct ((N =? 0) && negb (n =? 0)); [eexists; reflexivity|].
    destruct (N <? n); [eexists; reflexivity|].
    rewrite bind_run. unfold np_random_permutation. cbn [rng].
    destruct (shuffle_from (N - 1) (seq 0 N) (seed_state env seed)) as [p s].
    eexists; reflexivity.
  - exists (rng w). destruct w; reflexivity.
Qed.

(** ** The shuffle yields a permutation *)

Lemma swap_lookup (i j k : nat) (x : list nat) :
  i < length x -> j < length x ->
  swap i j x !! k =
  x !! (if decide (k = j) then i else if decide (k = i) then j else k).
Proof.
  intros Hi Hj. unfold swap.
  destruct (lookup_lt_is_Some_2 x j Hj) as [xj Hxj].
  destruct (lookup_lt_is_Some_2 x i Hi) as [xi Hxi].
  rewrite Hxj, Hxi.
  destruct (decide (k = j)) as [->|Hkj].
  - rewrite list_lookup_insert_eq by (rewrite length_insert; lia). by rewrite Hxi.
  - rewrite list_lookup_insert_ne by done.
    destruct (decide (k = i)) as [->|Hki].
    + rewrite list_lookup_insert_eq by lia. by rewrite Hxj.
    + by rewrite list_lookup_insert_ne.
Qed.

Lemma swap_length (i j : nat) (x : list nat) : length (swap i j x) = length x.
Proof. unfold swap. repeat case_match; rewrite ?length_insert; reflexivity. Qed.

Lemma swap_Permutation (i j : nat) (x : list nat) :
  i < length x -> j < length x -> swap i j x ≡ₚ x.
Proof.
  intros Hi Hj. apply Permutation_inj. split; [apply swap_length|].
  exists (fun k => if decide (k = j) then i
                   else if decide (k = i) then j else k).
  split; [|intros k; by apply swap_lookup].
  intros a b. repeat case_decide; lia.
Qed.

Lemma shuffle_from_Permutation (i : nat) (x : list nat) (s : rng_state env) :
  i < length x \/ i = 0 -> (shuffle_from i x s).1 ≡ₚ x.
Proof.
  revert x s. induction i as [|i IH]; intros x s Hi; [reflexivity|].
  simpl. pose proof (rk_interval_le env (S i) s) as Hj.
  destruct (rk_interval env (S i) s) as [j s']. simpl in Hj.
  rewrite IH by (rewrite swap_length; lia).
  apply swap_Permutation; lia.
Qed.

Lemma drawn_indices_spec (seed : Z) (x_eval : np.ndarray Q) (n : nat)
  (inds : list nat) :
  drawn_indices env seed x_eval n = Ret inds ->
  exists N, shape0 x_eval = Ret N /\ length inds = n /\ NoDup inds
            /\ forall i, i ∈ inds -> i < N.
Proof.
  unfold drawn_indices. destruct (_ && _)%bool; [|discriminate].
  destruct (shape0 x_eval) as [N|e|]; cbn [mbind outcome_bind];
    [|discriminate..].
  destruct ((N =? 0) && negb (n =? 0)); [discriminate|].
  destruct (N <? n) eqn:HNn; [discriminate|].
  intros [= <-]. exists N.
  apply Nat.ltb_ge in HNn.
  pose proof (shuffle_from_Permutation (N - 1) (seq 0 N) (seed_state env seed))
    as Hp.
  rewrite length_seq in Hp. specialize (Hp ltac:(lia)).
  split; [reflexivity|]. split.
  { rewrite length_take, (Permutation_length Hp), length_seq. lia. }
  split.
  { eapply sublist_NoDup; [|apply sublist_take].
    rewrite Hp. apply NoDup_seq. }
  intros i Hi. apply (subseteq_take n) in Hi. rewrite Hp in Hi.
  apply elem_of_seq in Hi. lia.
Qed.

Lemma sampled_indices_run (folder dataset : string) (seed : Z) (n : nat)
  (w : world env) :
  sampled_indices folder dataset seed n w =
  (data ← (if archive_present (fs w) folder
           then read_archive (fs w) (os_path_join folder EMNIST_FILENAME)
           else Raise (FileNotFoundError (not_found_message folder)));
   drawn_indices env seed (select_split dataset data).1 n).
Proof.
  unfold sampled_indices. rewrite bind_run, load_emnist_offline.
  destruct (if archive_present (fs w) folder then _ else _) as [data|e|];
    [|reflexivity..].
  destruct (draw_eval_indices_run seed (select_split dataset data).1 n w)
    as [s ->].
  reflexivity.
Qed.


(** ** The dataset argument *)






(** ** No examples *)

(** C8. With [n_examples = 0] the evaluator never returns: it raises. When
    the data loads, the seed is valid and the split is not empty, the
    exception is the division by zero of the accuracy computation, no
    request was sent and nothing was printed. *)
Theorem zero_examples_raises (n_print_examples : nat) (request_url : string)
  (seed : Z) (dataset : string) (use_graphpipe : bool)
  (emnist_folder_path : string) (w : world env) :
  let run := eval_serving_performance 0 n_print_examples request_url seed
               dataset use_graphpipe emnist_folder_path w in
  (exists e, run.1 = Raise e)
  /\ (forall data N,
        load_emnist emnist_folder_path false w = (Ret data, w) ->
        shape0 (select_split dataset data).1 = Ret N -> 0 < N ->
        (0 <= seed < 2 ^ 32)%Z ->
        run.1 = Raise ZeroDivisionError
        /\ sent run.2 = sent w /\ stdout run.2 = stdout w).
Proof.
  cbn zeta. unfold eval_serving_performance.
  rewrite bind_run, load_emnist_offline.
  set (r := if archive_present (fs w) emnist_folder_path then _ else _).
  assert (Hr : answers r).
  { subst r. destruct (archive_present _ _);
      [apply answers_read_archive | discriminate]. }
  destruct r as [data|e|]; [| |by destruct Hr].
  2:{ split; [by eexists|]. intros data N [=]. }
  destruct (select_split dataset data) as [x_eval y_eval] eqn:Hsel.
  rewrite bind_run.
  destruct (draw_eval_indices_run seed x_eval 0 w) as [s ->].
  unfold drawn_indices.
  destruct ((0 <=? seed) && (seed <? 2 ^ 32))%Z eqn:Hseed.
  2:{ split; [by eexists|]. intros data' N _ _ _ Hs.
      apply andb_false_iff in Hseed as [H|H];
        [apply Z.leb_gt in H | apply Z.ltb_ge in H]; lia. }
  destruct (shape0 x_eval) as [N|e|] eqn:HN; cbn [mbind outcome_bind].
  2:{ split; [by eexists|]. intros data' N [= <-]. rewrite Hsel. simpl.
      rewrite HN. discriminate. }
  2:{ unfold shape0 in HN. destruct (np.shape x_eval !! 0); discriminate. }
  destruct (N =? 0) eqn:HN0.
  { split; [by eexists|]. intros data' N' [= <-]. rewrite Hsel. simpl.
    rewrite HN. intros [= <-] HN'. apply Nat.eqb_eq in HN0. lia. }
  cbn [Nat.ltb Nat.leb take]. split; [by eexists|].
  intros _ _ _ _ _ _. auto.
Qed.

(** ** The throughput loop *)


Lemma infer_dim_rows (r c : nat) :
  c <> 0 -> np.infer_dim (r * (1 * (c * 1))) [c] = Ret r.
Proof.
  intros Hc. unfold np.infer_dim. cbn [np.size foldr].
  rewrite !Nat.mul_1_l, !Nat.mul_1_r.
  rewrite Nat.Div0.mod_mul, Nat.div_mul by done.
  destruct c; [done | reflexivity].
Qed.

Lemma tolist2_length {A} (a : np.ndarray A) (rows : list (list A)) (r c : nat) :
  np.shape a = [r; c] -> np.tolist2 a = Ret rows -> length rows = r.
Proof.
  unfold np.tolist2. intros ->. destruct (mapM _ _) as [l|] eqn:Hl; [|done].
  intros [= <-]. apply length_mapM in Hl. by rewrite length_seq in Hl.
Qed.

Lemma reshape_shape {A} (a b : np.ndarray A) (sh : list nat) (o : np.order) :
  np.reshape a sh o = Ret b -> np.shape b = sh.
Proof. unfold np.reshape. repeat case_match; intros [= <-]; done. Qed.

Lemma post_batch_ret (url : string) (data : np.ndarray Q) (N : nat)
  (b n : Z) (w w' : world env) :
  np.shape data = [N; 1; 28 * 28] ->
  post_batch url data b n w = (Ret tt, w') ->
  exists p, examples_in p = batch_rows N b n /\ w' = log_request w (url, p).
Proof.
  intros Hsh. unfold post_batch, np.slice0. rewrite Hsh.
  destruct (np.strides data) as [|s st]; [discriminate|].
  rewrite lift_bind_run, lift_bind_run.
  unfold np.reshape_infer. cbn [np.shape np.size foldr].
  rewrite infer_dim_rows by done. cbn [mbind outcome_bind].
  destruct (np.reshape _ _ _) as [batch|e|] eqn:Hb; [|discriminate..].
  apply reshape_shape in Hb.
  rewrite lift_bind_run.
  destruct (np.tolist2 batch) as [rows|e|] eqn:Hrows; [|discriminate..].
  apply (tolist2_length _ _ _ _ Hb) in Hrows.
  rewrite bind_run. unfold requests_post_predictions.
  destruct (post_reply env _ _ _) as [e|[pred|]]; [discriminate| |discriminate].
  intros [= <-]. exists (Instances rows). split; [exact Hrows | reflexivity].
Qed.

Lemma execute_batch_ret (url : string) (data : np.ndarray Q) (N : nat)
  (sh : list nat) (b n : Z) (w w' : world env) :
  np.shape data = N :: sh ->
  execute_batch url data b n w = (Ret tt, w') ->
  exists p, examples_in p = batch_rows N b n /\ w' = log_request w (url, p).
Proof.
  intros Hsh. unfold execute_batch, np.slice0. rewrite Hsh.
  destruct (np.strides data) as [|s st]; [discriminate|].
  rewrite lift_bind_run, bind_run. unfold remote_execute.
  destruct (execute_reply env _ _ _) as [e|scores]; [discriminate|].
  intros [= <-]. eexists. split; [|reflexivity]. reflexivity.
Qed.

Lemma throughput_loop_ret (request : Z -> M env unit) (url : string)
  (cnt : Z -> nat) (end_time : Q) (b : Z) :
  (forall n w w', request n w = (Ret tt, w') ->
     exists p, examples_in p = cnt n /\ w' = log_request w (url, p)) ->
  forall fuel n w n' w',
    throughput_loop fuel request end_time b n w = (Ret n', w') ->
    exists (k : nat) (ps : list (string * payload)),
      n' = (n + Z.of_nat k * b)%Z /\ k < fuel
      /\ (forall i, i < k ->
             Qle_bool (wall_clock env (ticks w + i)) end_time = true)
      /\ Qle_bool (wall_clock env (ticks w + k)) end_time = false
      /\ length ps = k
      /\ (forall i p, ps !! i = Some p ->
             p.1 = url /\ examples_in p.2 = cnt (n + Z.of_nat i * b)%Z)
      /\ w' = mk_world (fs w) (ticks w + k + 1) (rng w) (sent w ++ ps)
                       (stdout w).
Proof.
  intros Hreq. induction fuel as [|fuel IH]; intros n w n' w'; [discriminate|].
  cbn [throughput_loop]. rewrite bind_run. cbn [time_time].
  destruct (Qle_bool (wall_clock env (ticks w)) end_time) eqn:Hle.
  - rewrite bind_run.
    destruct (request n _) as [[[]|e|] w1] eqn:Hr; [|discriminate..].
    apply Hreq in Hr as (p & Hp & ->).
    intros H. apply IH in H as (k & ps & -> & Hk & Hin & Hout & Hlen & Hps & ->).
    cbn [log_request fs ticks rng sent stdout] in *.
    exists (S k), ((url, p) :: ps). split_and!.
    + lia.
    + lia.
    + intros [|i] Hi; [by rewrite Nat.add_0_r|].
      specialize (Hin i ltac:(lia)).
      by replace (ticks w + S i) with (S (ticks w) + i) by lia.
    + by replace (ticks w + S k) with (S (ticks w) + k) by lia.
    + simpl. by rewrite Hlen.
    + intros [|i] q H; simpl in H.
      * injection H as <-. simpl. rewrite Hp. split; [done|]. f_equal. lia.
      * apply Hps in H as [-> ->]. split; [done|]. f_equal. lia.
    + f_equal; [lia|]. by rewrite <- app_assoc.
  - intros [= <- <-]. exists 0, []. split_and!.
    + lia.
    + lia.
    + intros i Hi. lia.
    + by rewrite Nat.add_0_r.
    + done.
    + intros i p H. done.
    + rewrite app_nil_r. f_equal. lia.
Qed.

(** The loop returns once the clock has passed the end timestamp, given fuel
    for the readings taken and a service that answers. *)
Lemma throughput_loop_returns (request : Z -> M env unit) (end_time : Q)
  (b : Z) (k : nat) :
  (forall n w, exists w', request n w = (Ret tt, w') /\ ticks w' = ticks w) ->
  forall fuel n w,
    k < fuel ->
    (forall i, i < k ->
       Qle_bool (wall_clock env (ticks w + i)) end_time = true) ->
    Qle_bool (wall_clock env (ticks w + k)) end_time = false ->
    exists w', throughput_loop fuel request end_time b n w
               = (Ret (n + Z.of_nat k * b)%Z, w').
Proof.
  intros Hreq. induction k as [|k IH]; intros fuel n w Hk Hin Hout;
    (destruct fuel as [|fuel]; [lia|]); cbn [throughput_loop];
    rewrite bind_run; cbn [time_time].
  - rewrite Nat.add_0_r in Hout. rewrite Hout.
    replace (n + Z.of_nat 0 * b)%Z with n by lia. eexists. reflexivity.
  - pose proof (Hin 0 ltac:(lia)) as H0. rewrite Nat.add_0_r in H0.
    rewrite H0, bind_run.
    destruct (Hreq n (mk_world (fs w) (S (ticks w)) (rng w) (sent w)
                               (stdout w))) as (w1 & -> & Ht).
    cbn [ticks] in Ht.
    destruct (IH fuel (n + b)%Z w1) as [w' ->].
    + lia.
    + intros i Hi. rewrite Ht.
      replace (S (ticks w) + i) with (ticks w + S i) by lia.
      apply Hin. lia.
    + rewrite Ht. by replace (S (ticks w) + k) with (ticks w + S k) by lia.
    + replace (n + Z.of_nat (S k) * b)%Z with (n + b + Z.of_nat k * b)%Z
        by lia.
      eexists. reflexivity.
Qed.

Lemma load_images_shape (o : pyobj) (path : list nat) (x : np.ndarray Q) :
  load_images o path = Ret x -> exists n, np.shape x = [n; 28; 28].
Proof.
  unfold load_images. intros H.
  apply outcome_bind_ret_inv in H as (o' & _ & H).
  apply outcome_bind_ret_inv in H as (x0 & _ & H).
  apply outcome_bind_ret_inv in H as (n & _ & H).
  apply reshape_shape in H. eauto.
Qed.

Lemma read_archive_shapes (f : gmap string node) (filepath : string)
  (data : emnist) :
  read_archive f filepath = Ret data ->
  exists n_train n_test,
    np.shape (x_train data) = [n_train; 28; 28]
    /\ np.shape (x_test data) = [n_test; 28; 28].
Proof.
  unfold read_archive, read_emnist. intros H.
  apply outcome_bind_ret_inv in H as (raw & _ & H).
  apply outcome_bind_ret_inv in H as (dataset & _ & H).
  apply outcome_bind_ret_inv in H as (xtr & Hxtr & H).
  apply outcome_bind_ret_inv in H as (ytr & _ & H).
  apply outcome_bind_ret_inv in H as (xte & Hxte & H).
  apply outcome_bind_ret_inv in H as (yte & _ & H).
  apply outcome_bind_ret_inv in H as (mp & _ & H).
  injection H as <-. cbn [x_train x_test].
  apply load_images_shape in Hxtr as [n1 ?], Hxte as [n2 ?]. eauto.
Qed.

Lemma infer_dim_images (N : nat) :
  np.infer_dim (np.size [N; 28; 28]) [1; 28 * 28] = Ret N.
Proof.
  unfold np.infer_dim.
  change (np.size [N; 28; 28]) with (N * 784).
  change (np.size [1; 28 * 28]) with 784.
  rewrite Nat.Div0.mod_mul, Nat.div_mul by done. reflexivity.
Qed.

Lemma throughput_tail_ret (request : Z -> M env unit) (url : string)
  (cnt : Z -> nat) (fuel : nat) (duration : Q) (b : Z) (w w' : world env)
  (num_reqs : Z) (rps : Q) :
  (forall n w w', request n w = (Ret tt, w') ->
     exists p, examples_in p = cnt n /\ w' = log_request w (url, p)) ->
  (num_reqs ← (now ← time_time;
               throughput_loop fuel request (now + duration)%Q b 0%Z);
   reqs_per_second ← lift (truediv (inject_Z num_reqs) duration);
   mret (num_reqs, reqs_per_second)) w = (Ret (num_reqs, rps), w') ->
  exists (k : nat) (ps : list (string * payload)),
    num_reqs = (Z.of_nat k * b)%Z /\ k < fuel
    /\ truediv (inject_Z num_reqs) duration = Ret rps
    /\ (forall i, i < k ->
           Qle_bool (wall_clock env (ticks w + 1 + i))
                    (wall_clock env (ticks w) + duration) = true)
    /\ Qle_bool (wall_clock env (ticks w + 1 + k))
                (wall_clock env (ticks w) + duration) = false
    /\ length ps = k
    /\ (forall i p, ps !! i = Some p ->
           p.1 = url /\ examples_in p.2 = cnt (Z.of_nat i * b)%Z)
    /\ w' = mk_world (fs w) (ticks w + k + 2) (rng w) (sent w ++ ps)
                     (stdout w).
Proof.
  intros Hreq. rewrite bind_run, bind_run. cbn [time_time].
  destruct (throughput_loop _ _ _ _ _ _) as [[n|e|] w1] eqn:Hl;
    [|discriminate..].
  eapply throughput_loop_ret in Hl as
    (k & ps & -> & Hk & Hin & Hout & Hlen & Hps & ->); [|exact Hreq].
  cbn [fs ticks rng sent stdout] in *.
  rewrite lift_bind_run.
  destruct (truediv _ duration) as [q|e|] eqn:Hq; [|discriminate..].
  intros [= <- <- <-].
  exists k, ps. split_and!.
  - lia.
  - exact Hk.
  - rewrite <- Hq. f_equal.
  - intros i Hi. specialize (Hin i Hi).
    by replace (ticks w + 1 + i) with (S (ticks w) + i) by lia.
  - by replace (ticks w + 1 + k) with (S (ticks w) + k) by lia.
  - exact Hlen.
  - intros i p Hp. apply Hps in Hp as [-> ->]. split; [done|]. f_equal.
  - f_equal. lia.
Qed.

Lemma eval_throughput_ret (fuel : nat) (duration : Q) (url : string) (b : Z)
  (dataset : string) (g : bool) (folder : string) (w w' : world env)
  (num_reqs : Z) (rps : Q) :
  eval_throughput fuel duration url b dataset g folder w
  = (Ret (num_reqs, rps), w') ->
  exists (data : emnist) (N k : nat) (ps : list (string * payload)),
    load_emnist folder false w = (Ret data, w)
    /\ np.shape (if decide (dataset = "train") then x_train data
                 else x_test data) = [N; 28; 28]
    /\ num_reqs = (Z.of_nat k * b)%Z /\ k < fuel
    /\ truediv (inject_Z num_reqs) duration = Ret rps
    /\ (forall i, i < k ->
           Qle_bool (wall_clock env (ticks w + 1 + i))
                    (wall_clock env (ticks w) + duration) = true)
    /\ Qle_bool (wall_clock env (ticks w + 1 + k))
                (wall_clock env (ticks w) + duration) = false
    /\ length ps = k
    /\ (forall i p, ps !! i = Some p ->
           p.1 = url /\ examples_in p.2 = batch_rows N b (Z.of_nat i * b))
    /\ w' = mk_world (fs w) (ticks w + k + 2) (rng w) (sent w ++ ps)
                     (stdout w).
Proof.
  unfold eval_throughput. rewrite bind_run, load_emnist_offline.
  destruct (if archive_present (fs w) folder then _ else _)
    as [data|e|] eqn:Hr; [|discriminate..].
  assert (Hsh : exists N, np.shape (if decide (dataset = "train")
                  then x_train data else x_test data) = [N; 28; 28]).
  { destruct (archive_present (fs w) folder); [|discriminate].
    apply read_archive_shapes in Hr as (n1 & n2 & H1 & H2).
    destruct (decide (dataset = "train")); eauto. }
  destruct Hsh as [N Hsh].
  rewrite lift_bind_run. unfold np.reshape_infer.
  rewrite Hsh, infer_dim_images. cbn [mbind outcome_bind].
  destruct (np.reshape _ [N; 1; 28 * 28] np.order_C) as [d|e|] eqn:Hd;
    [|discriminate..].
  apply reshape_shape in Hd.
  set (data' := np.map_elements _ d).
  assert (Hsh' : np.shape data' = [N; 1; 28 * 28]) by exact Hd.
  intros H. exists data, N.
  destruct g; cbn [negb] in H;
    eapply (throughput_tail_ret _ url (batch_rows N b)) in H
      as (k & ps & H); try (exists k, ps; split; [reflexivity|];
                            split; [exact Hsh | exact H]).
  - intros n w0 w0'. by apply execute_batch_ret with (sh := [1; 28 * 28]).
  - intros n w0 w0'. by apply post_batch_ret.
Qed.

(** ** The evaluation loop *)

Lemma show_img_ret (idx : nat) (xtr : np.ndarray Q) (ytr : pyobj)
  (xte : np.ndarray Q) (yte : pyobj) (mapping : gmap Z string) (mode : string)
  (w w' : world env) :
  show_img idx xtr ytr xte yte mapping mode w = (Ret tt, w') ->
  exists out, w' = mk_world (fs w) (ticks w) (rng w) (sent w) (stdout w ++ out).
Proof.
  unfold show_img. rewrite bind_run.
  destruct (decide (mode = "train")).
  - repeat (rewrite lift_bind_run;
      match goal with
      | |- context [match ?o with Ret _ => _ | Raise _ => _ | OutOfFuel => _ end] =>
          destruct o; [|discriminate..]
      end).
    intros [= <-]. eexists [_; _]. cbn. by rewrite <- app_assoc.
  - repeat (rewrite lift_bind_run;
      match goal with
      | |- context [match ?o with Ret _ => _ | Raise _ => _ | OutOfFuel => _ end] =>
          destruct o; [|discriminate..]
      end).
    intros [= <-]. eexists [_; _]. cbn. by rewrite <- app_assoc.
Qed.

Lemma query_ret (g : bool) (url : string) (flat : np.ndarray Q)
  (w w' : world env) (start : Q) (scores : list (list Q)) :
  query g url flat w = (Ret (start, scores), w') ->
  start = wall_clock env (ticks w)
  /\ reply_scores env g url (length (sent w)) flat = Ret scores
  /\ exists p, w' = mk_world (fs w) (S (ticks w)) (rng w)
                             (sent w ++ [(url, p)]) (stdout w).
Proof.
  unfold query, reply_scores. destruct g; cbn [negb].
  - rewrite bind_run. cbn [time_time]. rewrite bind_run.
    unfold remote_execute. cbn [sent fs ticks rng stdout].
    destruct (execute_reply env _ _ _) as [e|sc]; [discriminate|].
    intros [= <- <- <-]. eauto.
  - rewrite bind_run. cbn [time_time]. rewrite lift_bind_run.
    destruct (np.tolist2 flat) as [rows|e|]; [|discriminate..].
    rewrite bind_run. unfold requests_post_predictions.
    cbn [sent fs ticks rng stdout mbind outcome_bind].
    destruct (post_reply env _ _ _) as [e|[sc|]]; [discriminate| |discriminate].
    intros [= <- <- <-]. eauto.
Qed.

Lemma eval_step_ret (n_print : nat) (url dataset : string) (g : bool)
  (data : emnist) (mapping : gmap Z string) (x : np.ndarray Q) (y : pyobj)
  (idx i acc acc' : nat) (ds ds' : list Q) (w w' : world env) :
  eval_step n_print url dataset g data mapping x y idx i acc ds w
  = (Ret (acc', ds'), w') ->
  exists (p : payload) (out : list event),
    acc' = acc + (if is_hit env g url x y (length (sent w)) i then 1 else 0)
    /\ ds' = (ds ++ [latency (wall_clock env (ticks w))
                             (wall_clock env (S (ticks w)))])%list
    /\ w' = mk_world (fs w) (S (S (ticks w))) (rng w)
                     (sent w ++ [(url, p)]) (stdout w ++ out).
Proof.
  unfold eval_step, is_hit, sample_result, flatten_image.
  rewrite lift_bind_run.
  destruct (np.index0 x i) as [img|e|]; [|discriminate..].
  rewrite lift_bind_run. cbn [mbind outcome_bind].
  destruct (np.reshape img [1; 784] np.order_C) as [flat|e|]; [|discriminate..].
  cbn [mbind outcome_bind].
  rewrite bind_run.
  destruct (query g url _ w) as [[[start scores]|e|] w1] eqn:Hq;
    [|discriminate..].
  apply query_ret in Hq as (-> & -> & p & ->).
  cbn [mbind outcome_bind].
  rewrite bind_run. cbn [time_time fs ticks rng sent stdout].
  rewrite lift_bind_run.
  destruct (np.argmax scores) as [pred|e|]; [|discriminate..].
  rewrite lift_bind_run. cbn [mbind outcome_bind].
  destruct (label_item y i 0) as [label|e|]; [|discriminate..].
  cbn [mbind outcome_bind].
  rewrite bind_run.
  destruct (idx <? n_print).
  - rewrite bind_run.
    destruct (show_img _ _ _ _ _ _ _ _) as [[[]|e|] w2] eqn:Hs;
      [|discriminate..].
    apply show_img_ret in Hs as [out ->].
    cbn [fs ticks rng sent stdout].
    rewrite lift_bind_run.
    destruct (of_option KeyError _) as [c|e|]; [|discriminate..].
    intros [= <- <- <-]. exists p, (out ++ [Print ("Predicted Label: " +:+ c)])%list.
    cbn. by rewrite <- app_assoc.
  - intros [= <- <- <-]. exists p, []. cbn. by rewrite app_nil_r.
Qed.

Lemma hits_cons (g : bool) (url : string) (x : np.ndarray Q) (y : pyobj)
  (k0 i : nat) (inds : list nat) :
  hits env g url x y k0 (i :: inds)
  = (if is_hit env g url x y k0 i then 1 else 0)
    + hits env g url x y (S k0) inds.
Proof.
  unfold hits. cbn [length seq zip zip_with].
  rewrite filter_cons. cbn [fst snd].
  destruct (is_hit env g url x y k0 i); case_decide; done.
Qed.

Lemma eval_loop_ret (n_print : nat) (url dataset : string) (g : bool)
  (data : emnist) (mapping : gmap Z string) (x : np.ndarray Q) (y : pyobj)
  (inds : list nat) :
  forall (idx acc acc' : nat) (ds ds' : list Q) (w w' : world env),
    eval_loop n_print url dataset g data mapping x y idx inds acc ds w
    = (Ret (acc', ds'), w') ->
    exists (ps : list (string * payload)) (out : list event),
      length ps = length inds
      /\ acc' = acc + hits env g url x y (length (sent w)) inds
      /\ ds' = (ds ++ (recorded_latency env (ticks w)
                         <$> seq 0 (length inds)))%list
      /\ w' = mk_world (fs w) (ticks w + 2 * length inds) (rng w)
                       (sent w ++ ps) (stdout w ++ out).
Proof.
  induction inds as [|i inds IH]; intros idx acc acc' ds ds' w w'.
  - intros [= <- <- <-]. exists [], []. cbn.
    rewrite !app_nil_r, !Nat.add_0_r. by destruct w.
  - cbn [eval_loop]. rewrite bind_run.
    destruct (eval_step _ _ _ _ _ _ _ _ _ _ _ _ w) as [[[acc1 ds1]|e|] w1]
      eqn:Hs; [|discriminate..].
    apply eval_step_ret in Hs as (p & out & -> & -> & ->).
    intros H. apply IH in H as (ps & out' & Hlen & -> & -> & ->).
    cbn [fs ticks rng sent stdout].
    exists ((url, p) :: ps), (out ++ out')%list. split_and!.
    + cbn. by rewrite Hlen.
    + rewrite hits_cons, length_app. cbn [length].
      replace (length (sent w) + 1) with (S (length (sent w))) by lia. lia.
    + rewrite <- app_assoc. f_equal. cbn [length seq fmap list_fmap].
      unfold recorded_latency at 2.
      rewrite Nat.mul_0_r, Nat.add_0_r.
      replace (ticks w + 1) with (S (ticks w)) by lia.
      f_equal. rewrite <- fmap_S_seq, <- list_fmap_compose.
      apply list_fmap_ext. intros _ j _. unfold recorded_latency. cbn.
      f_equal; f_equal; lia.
    + f_equal; [cbn [length]; lia | by rewrite <- app_assoc
               | by rewrite <- app_assoc].
Qed.

Lemma truediv_ret (a b q : Q) :
  truediv a b = Ret q -> ~ (b == 0)%Q /\ q = (a / b)%Q.
Proof.
  unfold truediv. destruct (Qeq_bool b 0) eqn:Hb; [discriminate|].
  intros [= <-]. split; [by apply Qeq_bool_neq | reflexivity].
Qed.

Lemma eval_serving_performance_ret (n n_print : nat) (url : string)
  (seed : Z) (dataset : string) (g : bool) (folder : string)
  (w w' : world env) (ds : list Q) :
  eval_serving_performance n n_print url seed dataset g folder w
  = (Ret ds, w') ->
  exists (data : emnist) (inds : list nat) (ps : list (string * payload))
         (out : list event) (s : rng_state env),
    load_emnist folder false w = (Ret data, w)
    /\ sampled_indices folder dataset seed n w = Ret inds
    /\ length inds = n /\ 0 < n
    /\ ds = recorded_latency env (ticks w) <$> seq 0 n
    /\ length ps = n
    /\ w' = mk_world (fs w) (ticks w + 2 * n) s (sent w ++ ps)
          (stdout w ++ out ++
           [PrintAccuracy n
              (inject_Z (Z.of_nat
                 (hits env g url (select_split dataset data).1
                       (select_split dataset data).2 (length (sent w)) inds))
               / inject_Z (Z.of_nat n))%Q]).
Proof.
  unfold eval_serving_performance. rewrite bind_run.
  pose proof (sampled_indices_run folder dataset seed n w) as Hsam.
  rewrite load_emnist_offline in *.
  destruct (if archive_present (fs w) folder then _ else _)
    as [data|e|] eqn:Hr; [|discriminate..].
  cbn [mbind outcome_bind] in Hsam.
  destruct (select_split dataset data) as [x y] eqn:Hsel.
  cbn [fst snd] in *.
  rewrite bind_run.
  destruct (draw_eval_indices_run seed x n w) as [s ->].
  destruct (drawn_indices env seed x n) as [inds|e|] eqn:Hd; [|discriminate..].
  pose proof Hd as Hd'.
  apply drawn_indices_spec in Hd' as (N & _ & Hlen & _ & _).
  rewrite bind_run.
  destruct (eval_loop _ _ _ _ _ _ _ _ _ _ _ _ _) as [[[acc ds1]|e|] w1]
    eqn:Hl; [|discriminate..].
  apply eval_loop_ret in Hl as (ps & out & Hps & -> & -> & ->).
  cbn [fs ticks rng sent stdout].
  rewrite lift_bind_run.
  destruct (truediv _ _) as [q|e|] eqn:Hq; [|discriminate..].
  apply truediv_ret in Hq as [Hn ->].
  intros [= <- <-].
  exists data, inds, ps, out, s. rewrite Hlen in *. split_and!; try done.
  - destruct (decide (n = 0)) as [->|]; [|lia]. by destruct Hn.
  - rewrite Hsel. f_equal. symmetry. apply app_assoc.
Qed.

(** ** The class predicted *)

Lemma argmax_from_spec (l pre : list Q) (best : Q) (bi : nat) :
  pre !! bi = Some best ->
  (forall j x, pre !! j = Some x -> (x <= best)%Q) ->
  (forall j x, j < bi -> pre !! j = Some x -> (x < best)%Q) ->
  exists m,
    (pre ++ l) !! np.argmax_from best bi (length pre) l = Some m
    /\ (forall j x, (pre ++ l) !! j = Some x -> (x <= m)%Q)
    /\ (forall j x, j < np.argmax_from best bi (length pre) l ->
                    (pre ++ l) !! j = Some x -> (x < m)%Q).
Proof.
  revert pre best bi. induction l as [|x l IH]; intros pre best bi Hb Hle Hlt.
  - cbn. rewrite app_nil_r. eauto.
  - cbn [np.argmax_from].
    replace (pre ++ x :: l) with ((pre ++ [x]) ++ l) by by rewrite <- app_assoc.
    replace (S (length pre)) with (length (pre ++ [x]))
      by (rewrite length_app; cbn; lia).
    destruct (Qle_bool x best) eqn:Hx.
    + apply Qle_bool_iff in Hx. apply IH.
      * rewrite lookup_app_l; [done|]. by eapply lookup_lt_Some.
      * intros j z Hj. apply lookup_app_Some in Hj as [Hj|[_ Hj]]; [eauto|].
        apply list_lookup_singleton_Some in Hj as [_ <-]. done.
      * intros j z Hjb Hj. apply lookup_app_Some in Hj as [Hj|[Hge _]]; [eauto|].
        apply lookup_lt_Some in Hb. lia.
    + assert (best < x)%Q as Hbx.
      { apply Qnot_le_lt. intros H. apply Qle_bool_iff in H. congruence. }
      apply IH.
      * rewrite lookup_app_r by lia. by rewrite Nat.sub_diag.
      * intros j z Hj. apply lookup_app_Some in Hj as [Hj|[_ Hj]].
        -- apply Qlt_le_weak. eapply Qle_lt_trans; [eauto | done].
        -- apply list_lookup_singleton_Some in Hj as [_ <-]. apply Qle_refl.
      * intros j z Hjb Hj. apply lookup_app_Some in Hj as [Hj|[Hge _]]; [|lia].
        eapply Qle_lt_trans; [eauto | done].
Qed.

Lemma argmax_spec (scores : list (list Q)) (c : nat) :
  np.argmax scores = Ret c ->
  exists m,
    concat scores !! c = Some m
    /\ (forall j x, concat scores !! j = Some x -> (x <= m)%Q)
    /\ (forall j x, j < c -> concat scores !! j = Some x -> (x < m)%Q).
Proof.
  unfold np.argmax. destruct (np.rectangular scores); [|discriminate].
  destruct (concat scores) as [|x l]; [discriminate|].
  intros [= <-].
  apply (argmax_from_spec l [x] x 0).
  - reflexivity.
  - intros j z Hj. apply list_lookup_singleton_Some in Hj as [_ <-].
    apply Qle_refl.
  - intros j z Hj. lia.
Qed.

(** ** The latency recorded *)

Lemma int_of_float_floor (x : Q) : (0 <= x)%Q -> int_of_float x = Qfloor x.
Proof.
  destruct x as [n d]. unfold int_of_float, Qfloor, Qle. cbn.
  intros Hn. apply Z.quot_div_nonneg; lia.
Qed.

Lemma latency_floor (start stop : Q) :
  (start <= stop)%Q ->
  (latency start stop
   == inject_Z (Qfloor ((stop - start) * 1000000)) / 1000)%Q.
Proof.
  intros H. unfold latency. rewrite int_of_float_floor; [reflexivity|].
  apply Qmult_le_0_compat; [|done].
  by apply (proj1 (Qle_minus_iff start stop)).
Qed.

Lemma latency_bounds (start stop : Q) :
  (start <= stop)%Q ->
  (latency start stop <= (stop - start) * 1000)%Q
  /\ ((stop - start) * 1000 < latency start stop + 1 / 1000)%Q.
Proof.
  intros H. rewrite (latency_floor _ _ H).
  set (e := ((stop - start) * 1000000)%Q).
  pose proof (Qfloor_le e) as H1. pose proof (Qlt_floor e) as H2.
  rewrite inject_Z_plus in H2. subst e.
  set (f := inject_Z (Qfloor ((stop - start) * 1000000))) in *.
  change (inject_Z 1) with 1%Q in H2.
  unfold Qdiv. change (/ 1000)%Q with (1 # 1000)%Q.
  split; lra.
Qed.

(** C7 (as amended). Every latency the evaluator records is computed from
    the two clock readings around the request: the elapsed seconds times
    10^6, truncated towards zero by [int], divided by 1000. When the clock
    did not go backwards between the two readings this is
    floor(elapsed * 10^6) / 1000, which lies at most a microsecond below the
    elapsed milliseconds: a truncation, not a rounding. *)
Theorem latency_is_truncated_microseconds (n_examples n_print_examples : nat)
  (request_url : string) (seed : Z) (dataset : string) (use_graphpipe : bool)
  (emnist_folder_path : string) (w w' : world env) (durations : list Q) :
  eval_serving_performance n_examples n_print_examples request_url seed
    dataset use_graphpipe emnist_folder_path w = (Ret durations, w') ->
  length durations = n_examples
  /\ forall i, i < n_examples ->
       let start := wall_clock env (ticks w + 2 * i) in
       let stop := wall_clock env (ticks w + 2 * i + 1) in
       let elapsed_us := ((stop - start) * 1000000)%Q in
       durations !! i
       = Some (inject_Z (Z.quot (Qnum elapsed_us) (Zpos (Qden elapsed_us)))
               / 1000)%Q
       /\ ((start <= stop)%Q ->
           forall d, durations !! i = Some d ->
             (d == inject_Z (Qfloor elapsed_us) / 1000)%Q
             /\ (d <= (stop - start) * 1000)%Q
             /\ ((stop - start) * 1000 < d + 1 / 1000)%Q).
Proof.
  intros H.
  apply eval_serving_performance_ret in H
    as (data & inds & ps & out & s & _ & _ & _ & _ & -> & _).
  split; [by rewrite length_fmap, length_seq|].
  intros i Hi. cbn zeta.
  assert (Hd : (recorded_latency env (ticks w) <$> seq 0 n_examples) !! i
               = Some (recorded_latency env (ticks w) i)).
  { rewrite list_lookup_fmap, lookup_seq_lt by done. reflexivity. }
  split; [exact Hd|].
  intros Hle d Hd'. rewrite Hd in Hd'. injection Hd' as <-.
  unfold recorded_latency. split; [by apply latency_floor|].
  by apply latency_bounds.
Qed.


(** C4. In a run of [eval_throughput] that returns, the loop ran for exactly
    the clock readings that were at most the end timestamp (the first
    reading plus the duration), it sent one request and added [batch_size]
    to the counter in each iteration, and the rate returned is the counter
    divided by the duration. *)
Theorem throughput_counter_and_rate (fuel : nat) (duration : Q)
  (request_url : string) (batch_size : Z) (dataset : string)
  (use_graphpipe : bool) (emnist_folder_path : string) (w w' : world env)
  (num_reqs : Z) (reqs_per_second : Q) :
  eval_throughput fuel duration request_url batch_size dataset use_graphpipe
    emnist_folder_path w = (Ret (num_reqs, reqs_per_second), w') ->
  exists iterations : nat,
    let end_time := (wall_clock env (ticks w) + duration)%Q in
    (forall i, i < iterations ->
       (wall_clock env (ticks w + 1 + i) <= end_time)%Q)
    /\ (end_time < wall_clock env (ticks w + 1 + iterations))%Q
    /\ length (sent w') = length (sent w) + iterations
    /\ num_reqs = (Z.of_nat iterations * batch_size)%Z
    /\ ~ (duration == 0)%Q
    /\ reqs_per_second = (inject_Z num_reqs / duration)%Q.
Proof.
  intros H.
  apply eval_throughput_ret in H
    as (data & N & k & ps & _ & _ & Hn & _ & Hq & Hin & Hout & Hlen & _ & ->).
  apply truediv_ret in Hq as [Hd Hq].
  exists k. cbn zeta. split_and!; try done.
  - intros i Hi. by apply Qle_bool_iff, Hin.
  - apply Qnot_le_lt. intros Hle. apply Qle_bool_iff in Hle. congruence.
  - cbn [sent]. rewrite length_app. lia.
Qed.

Lemma slice_bound_nonneg (N : nat) (m : Z) :
  (0 <= m)%Z -> slice_bound N m = Nat.min (Z.to_nat m) N.
Proof. intros H. unfold slice_bound. destruct (Z.ltb_spec m 0); [lia|done]. Qed.

Lemma total_examples_telescope (N : nat) (b : Z) (ps : list (string * payload)) :
  (0 <= b)%Z ->
  forall n : Z, (0 <= n)%Z ->
    (forall i p, ps !! i = Some p ->
       examples_in p.2 = batch_rows N b (n + Z.of_nat i * b)) ->
    total_examples ps
    = slice_bound N (n + Z.of_nat (length ps) * b) - slice_bound N n.
Proof.
  intros Hb. induction ps as [|p ps IH]; intros n Hn Hps.
  - unfold total_examples. cbn [length fmap list_fmap sum_list sum_list_with].
    replace (n + Z.of_nat 0 * b)%Z with n by lia. lia.
  - unfold total_examples in *. cbn [fmap list_fmap sum_list sum_list_with].
    rewrite (Hps 0 p eq_refl), (IH (n + b)%Z) by 
      (try lia; intros i q Hq; rewrite (Hps (S i) q Hq); f_equal; lia).
    unfold batch_rows.
    replace (n + Z.of_nat 0 * b + b)%Z with (n + b)%Z by lia.
    replace (n + Z.of_nat 0 * b)%Z with n by lia.
    replace (n + b + Z.of_nat (length ps) * b)%Z
      with (n + Z.of_nat (length (p :: ps)) * b)%Z by (cbn [length]; lia).
    assert (0 <= Z.of_nat (length ps) * b)%Z
      by (apply Z.mul_nonneg_nonneg; lia).
    replace (Z.of_nat (length (p :: ps)) * b)%Z
      with (Z.of_nat (length ps) * b + b)%Z by (cbn [length]; lia).
    rewrite !slice_bound_nonneg by lia. unfold id. lia.
Qed.

(** What [eval_throughput] sends: one request per iteration, the [i]-th
    carrying the rows [i * batch_size] to [(i + 1) * batch_size] of the
    split, cut to the rows that exist. For a non-negative batch size the
    examples sent add up to the counter capped at the size of the split. *)
Lemma throughput_requests (fuel : nat) (duration : Q) (url : string) (b : Z)
  (dataset : string) (g : bool) (folder : string) (w w' : world env)
  (num_reqs : Z) (rps : Q) :
  eval_throughput fuel duration url b dataset g folder w
  = (Ret (num_reqs, rps), w') ->
  exists (data : emnist) (N k : nat) (ps : list (string * payload)),
    load_emnist folder false w = (Ret data, w)
    /\ np.shape (if decide (dataset = "train") then x_train data
                 else x_test data) = [N; 28; 28]
    /\ num_reqs = (Z.of_nat k * b)%Z
    /\ sent w' = sent w ++ ps /\ length ps = k
    /\ (forall i p, ps !! i = Some p ->
           examples_in p.2 = batch_rows N b (Z.of_nat i * b))
    /\ ((0 <= b)%Z -> total_examples ps = Nat.min (Z.to_nat num_reqs) N).
Proof.
  intros H.
  apply eval_throughput_ret in H
    as (data & N & k & ps & Hload & Hsh & -> & _ & _ & _ & _ & Hlen & Hps & ->).
  exists data, N, k, ps. split_and!; try done.
  - intros i p Hp. by apply Hps in Hp as [_ ?].
  - intros Hb.
    rewrite (total_examples_telescope N b ps Hb 0%Z) by
      (try lia; intros i p Hp; by apply Hps in Hp as [_ ?]).
    rewrite Hlen, !slice_bound_nonneg by lia. cbn. lia.
Qed.

(** ** Reshaping the images of a split *)

Lemma bind_blocks_length {A B} (f : A -> list B) (n : nat) (l : list A) :
  (forall x, length (f x) = n) -> length (l ≫= f) = length l * n.
Proof.
  intros Hf. induction l as [|x l IH]; [reflexivity|].
  rewrite bind_cons, length_app, Hf, IH. cbn [length]. lia.
Qed.

Lemma bind_blocks_lookup {A B} (f : A -> list B) (n : nat) (l : list A)
  (q r : nat) :
  (forall x, length (f x) = n) -> r < n ->
  (l ≫= f) !! (q * n + r) = l !! q ≫= fun x => f x !! r.
Proof.
  intros Hf Hr. revert q. induction l as [|x l IH]; intros q.
  - by rewrite !lookup_nil.
  - rewrite bind_cons. destruct q as [|q].
    + cbn [Nat.mul Nat.add lookup list_lookup mbind option_bind].
      apply lookup_app_l. by rewrite Hf.
    + rewrite lookup_app_r by (rewrite Hf; lia).
      rewrite Hf. replace (S q * n + r - n) with (q * n + r) by lia.
      apply IH.
Qed.

Lemma f_indices_matrix_lookup (N C q r : nat) :
  q < C -> r < N -> np.f_indices [N; C] !! (q * N + r) = Some [r; q].
Proof.
  intros Hq Hr. cbn [np.f_indices].
  rewrite (bind_blocks_lookup _ N) by (done || intros; by rewrite length_fmap, length_seq).
  rewrite bind_singleton.
  rewrite list_lookup_fmap, lookup_seq_lt by done. cbn.
  rewrite list_lookup_fmap, lookup_seq_lt by done. reflexivity.
Qed.

Lemma f_indices_matrix_length (N C : nat) :
  length (np.f_indices [N; C]) = C * N.
Proof.
  cbn [np.f_indices].
  rewrite (bind_blocks_length _ N) by (intros; by rewrite length_fmap, length_seq).
  by rewrite bind_singleton, length_fmap, length_seq.
Qed.

(** Read first index fastest, a matrix stored first index fastest gives its
    buffer. *)
Lemma ravel_F_matrix {A} (N C : nat) (d : list A) :
  length d = N * C -> np.ravel np.order_F (matrix N C d) = Some d.
Proof.
  intros Hd. unfold np.ravel. apply mapM_Some.
  apply Forall2_same_length_lookup_2.
  { cbn [np.indices matrix np.shape]. rewrite f_indices_matrix_length. lia. }
  cbn [np.indices matrix np.shape]. intros i idx y Hidx Hy.
  assert (Hi : i < N * C) by (rewrite <- Hd; by eapply lookup_lt_Some).
  assert (HN : N <> 0) by lia.
  pose proof (Nat.div_mod_eq i N) as Hdm.
  pose proof (Nat.mod_upper_bound i N HN) as Hr.
  assert (Hq : i / N < C).
  { apply Nat.Div0.div_lt_upper_bound. lia. }
  replace i with (i / N * N + i mod N) in Hidx by lia.
  rewrite f_indices_matrix_lookup in Hidx by done. injection Hidx as <-.
  unfold np.getitem. cbn [matrix np.shape np.strides np.buffer np.in_bounds
                          np.offset].
  replace (i mod N <? N) with true by (symmetry; by apply Nat.ltb_lt).
  replace (i / N <? C) with true by (symmetry; by apply Nat.ltb_lt).
  cbn [andb]. rewrite <- Hy. f_equal. lia.
Qed.

Lemma c_indices_row_lookup (C q : nat) :
  q < C -> np.c_indices [1; C] !! q = Some [0; q].
Proof.
  intros Hq. cbn [np.c_indices seq]. rewrite bind_singleton.
  rewrite list_lookup_fmap.
  replace q with (q * 1 + 0) at 1 by lia.
  rewrite (bind_blocks_lookup _ 1) by (done || lia).
  rewrite lookup_seq_lt by done. reflexivity.
Qed.

Lemma c_indices_row_length (C : nat) : length (np.c_indices [1; C]) = C.
Proof.
  cbn [np.c_indices seq]. rewrite bind_singleton, length_fmap.
  rewrite (bind_blocks_length _ 1) by done. rewrite length_seq. lia.
Qed.

(** A matrix of a single row gives its buffer in C order as well. *)
Lemma ravel_C_row {A} (C : nat) (d : list A) :
  length d = C -> np.ravel np.order_C (matrix 1 C d) = Some d.
Proof.
  intros Hd. unfold np.ravel. apply mapM_Some.
  apply Forall2_same_length_lookup_2.
  { cbn [np.indices matrix np.shape]. rewrite c_indices_row_length. lia. }
  cbn [np.indices matrix np.shape]. intros i idx y Hidx Hy.
  assert (Hi : i < C) by (rewrite <- Hd; by eapply lookup_lt_Some).
  rewrite c_indices_row_lookup in Hidx by done. injection Hidx as <-.
  unfold np.getitem. cbn [matrix np.shape np.strides np.buffer np.in_bounds
                          np.offset].
  replace (i <? C) with true by (symmetry; by apply Nat.ltb_lt).
  cbn. rewrite <- Hy. f_equal. lia.
Qed.

(** A matrix of 784 columns counts as Fortran ordered exactly when it has
    two rows or more: with one row, or none, it is C contiguous too. *)
Lemma isfortran_matrix {A} (N : nat) (d : list A) :
  np.isfortran (matrix N 784 d) = (2 <=? N).
Proof.
  destruct N as [|[|N]]; [reflexivity..|].
  unfold np.isfortran, np.f_contiguous, np.c_contiguous, np.has_empty_dim.
  cbn [matrix np.shape np.strides zip zip_with reverse rev_append existsb
       np.contiguous_walk Nat.eqb orb andb negb Nat.leb].
  change (reverse [(S (S N), 1); (784, S (S N))])
    with [(784, S (S N)); (S (S N), 1)].
  cbn [np.contiguous_walk Nat.eqb orb andb negb Nat.leb].
  rewrite Nat.mul_1_l, Nat.eqb_refl. reflexivity.
Qed.

Lemma reshape_images (N : nat) (pixels : list Z) :
  length pixels = N * 784 ->
  np.reshape (np.map_elements inject_Z (matrix N 784 pixels)) [N; 28; 28]
             np.order_A
  = Ret (images N pixels).
Proof.
  intros Hd. unfold np.reshape.
  change (np.map_elements inject_Z (matrix N 784 pixels))
    with (matrix N 784 (inject_Z <$> pixels)).
  replace (np.size [N; 28; 28] =? np.size (np.shape (matrix N 784 (inject_Z <$> pixels))))
    with true by (symmetry; apply Nat.eqb_eq; cbn [np.size foldr matrix np.shape]; lia).
  unfold np.resolve_order. rewrite isfortran_matrix.
  assert (Hlen : length (inject_Z <$> pixels) = N * 784)
    by by rewrite length_fmap.
  destruct N as [|[|N]].
  - destruct pixels; [reflexivity | discriminate].
  - cbn [Nat.leb]. rewrite ravel_C_row by lia. reflexivity.
  - cbn [Nat.leb]. rewrite ravel_F_matrix by lia. reflexivity.
Qed.

Lemma load_images_matrix (o : pyobj) (path : list nat) (N : nat)
  (pixels : list Z) :
  py_path o path = Ret (PyArray (matrix N 784 pixels)) ->
  length pixels = N * 784 ->
  load_images o path = Ret (images N pixels).
Proof.
  intros Hp Hd. unfold load_images. rewrite Hp.
  cbn [mbind outcome_bind astype_float32 shape0 np.map_elements matrix
       np.shape lookup list_lookup of_option].
  by apply reshape_images.
Qed.

(** In a split of two images or more, the pixel at row [r] and column [c] of
    image [n] is pixel [r + 28 * c] of its flat storage: the column-major
    reading. *)
Lemma images_column_major (N : nat) (pixels : list Z) (n r c : nat) :
  2 <= N -> n < N -> r < 28 -> c < 28 ->
  np.getitem (images N pixels) [n; r; c]
  = flat_pixel N (inject_Z <$> pixels) n (r + 28 * c).
Proof.
  intros HN Hn Hr Hc. unfold np.getitem, images, flat_pixel.
  replace (2 <=? N) with true by (symmetry; by apply Nat.leb_le).
  cbn [np.shape np.strides np.buffer np.in_bounds np.fresh_strides
       np.f_strides np.f_strides_from np.offset].
  replace (n <? N) with true by (symmetry; by apply Nat.ltb_lt).
  replace (r <? 28) with true by (symmetry; by apply Nat.ltb_lt).
  replace (c <? 28) with true by (symmetry; by apply Nat.ltb_lt).
  cbn [andb]. f_equal. lia.
Qed.

(** In a split of a single image it is pixel [28 * r + c]: the row-major
    reading, the transpose of the other. *)
Lemma images_single_row_major (pixels : list Z) (r c : nat) :
  r < 28 -> c < 28 ->
  np.getitem (images 1 pixels) [0; r; c]
  = flat_pixel 1 (inject_Z <$> pixels) 0 (28 * r + c).
Proof.
  intros Hr Hc. unfold np.getitem, images, flat_pixel.
  cbn [Nat.leb np.shape np.strides np.buffer np.in_bounds np.fresh_strides
       np.c_strides np.offset].
  replace (r <? 28) with true by (symmetry; by apply Nat.ltb_lt).
  replace (c <? 28) with true by (symmetry; by apply Nat.ltb_lt).
  change (0 <? 1) with true. cbn [andb]. f_equal.
  change (np.size [28; 28]) with 784. change (np.size [28]) with 28.
  change (np.size []) with 1. lia.
Qed.

Lemma read_emnist_layout (raw : gmap string pyobj)
  (n_train : nat) (train_pixels : list Z) (train_labels : pyobj)
  (train_rest : list pyobj)
  (n_test : nat) (test_pixels : list Z) (test_labels : pyobj)
  (test_rest : list pyobj) (mapping : pyobj) (rest : list pyobj) :
  raw !! "dataset"
  = Some (emnist_dataset n_train train_pixels train_labels train_rest
                         n_test test_pixels test_labels test_rest
                         mapping rest) ->
  length train_pixels = n_train * 784 ->
  length test_pixels = n_test * 784 ->
  read_emnist raw
  = Ret (mk_emnist (images n_train train_pixels) train_labels
                   (images n_test test_pixels) test_labels mapping).
Proof.
  intros Hraw Htr Hte. unfold read_emnist. rewrite Hraw.
  cbn [of_option mbind outcome_bind].
  set (ds := emnist_dataset _ _ _ _ _ _ _ _ _ _).
  rewrite (load_images_matrix ds [0; 0; 0; 0; 0; 0] n_train train_pixels
             eq_refl Htr).
  cbn [mbind outcome_bind].
  rewrite (load_images_matrix ds [0; 0; 1; 0; 0; 0] n_test test_pixels
             eq_refl Hte).
  reflexivity.
Qed.

(** X1. A split of two images or more is reshaped in column-major order:
    the array [load_emnist] builds from its images matrix has the shape
    (N, 28, 28) and holds, at row [r] and column [c] of image [n], pixel
    [r + 28 * c] of the flat storage of that image. *)
Theorem splits_of_two_or_more_are_column_major (o : pyobj) (path : list nat)
  (N : nat) (pixels : list Z) (n r c : nat) :
  py_path o path = Ret (PyArray (matrix N 784 pixels)) ->
  length pixels = N * 784 ->
  2 <= N -> n < N -> r < 28 -> c < 28 ->
  exists x,
    load_images o path = Ret x
    /\ np.shape x = [N; 28; 28]
    /\ np.getitem x [n; r; c]
       = flat_pixel N (inject_Z <$> pixels) n (r + 28 * c).
Proof.
  intros Hp Hd HN Hn Hr Hc. exists (images N pixels). split_and!.
  - by apply load_images_matrix.
  - reflexivity.
  - by apply images_column_major.
Qed.

(** ** The loader *)

(** C2 (as amended). When the folder or the expected file is absent and
    download is disallowed, [load_emnist] raises the not-found error, whose
    message names the folder and the file name, and leaves the world as it
    was. When both are present it reads the archive and changes nothing.
    When they are absent and download is allowed it runs the acquisition
    first, whose exception propagates, and then reads the archive. Reading
    an archive with the EMNIST layout returns the images of both splits in
    shape (N, 28, 28), their labels and the raw mapping table. *)
Theorem load_emnist_contract (emnist_folder_path : string) (download : bool)
  (w : world env) :
  let filepath := os_path_join emnist_folder_path EMNIST_FILENAME in
  (archive_present (fs w) emnist_folder_path = false -> download = false ->
   load_emnist emnist_folder_path download w
   = (Raise (FileNotFoundError
               ("Folder " +:+ emnist_folder_path +:+
                " or file emnist-byclass.mat does not exist and download is deactivated")),
      w))
  /\ (archive_present (fs w) emnist_folder_path = true ->
      load_emnist emnist_folder_path download w
      = (read_archive (fs w) filepath, w))
  /\ (archive_present (fs w) emnist_folder_path = false -> download = true ->
      load_emnist emnist_folder_path download w
      = match download_emnist emnist_folder_path w with
        | (Ret _, w') => (read_archive (fs w') filepath, w')
        | (Raise e, w') => (Raise e, w')
        | (OutOfFuel, w') => (OutOfFuel, w')
        end)
  /\ (forall (f : gmap string node) (raw : gmap string pyobj)
             n_train train_pixels train_labels train_rest
             n_test test_pixels test_labels test_rest mapping rest,
        loadmat_in f filepath = Ret raw ->
        raw !! "dataset"
        = Some (emnist_dataset n_train train_pixels train_labels train_rest
                               n_test test_pixels test_labels test_rest
                               mapping rest) ->
        length train_pixels = n_train * 784 ->
        length test_pixels = n_test * 784 ->
        exists x_train x_test,
          read_archive f filepath
          = Ret (mk_emnist x_train train_labels x_test test_labels mapping)
          /\ np.shape x_train = [n_train; 28; 28]
          /\ np.shape x_test = [n_test; 28; 28]).
Proof.
  cbn zeta. split_and!.
  - intros Hp ->. rewrite load_emnist_run. cbn zeta. by rewrite Hp.
  - intros Hp. rewrite load_emnist_run. cbn zeta. by rewrite Hp.
  - intros Hp ->. rewrite load_emnist_run. cbn zeta. by rewrite Hp.
  - intros f raw n_train train_pixels train_labels train_rest
           n_test test_pixels test_labels test_rest mapping rest
           Hraw Hds Htr Hte.
    exists (images n_train train_pixels), (images n_test test_pixels).
    unfold read_archive. rewrite Hraw. cbn [mbind outcome_bind].
    by rewrite (read_emnist_layout _ _ _ _ _ _ _ _ _ _ _ Hds Htr Hte).
Qed.

End Properties.

(* ===================================================================== *)
(** * Further properties of the module                                    *)
(* ===================================================================== *)

(** ** Arrays whose every index reads *)

Lemma c_indices_length (sh : list nat) :
  length (np.c_indices sh) = np.size sh.
Proof.
  induction sh as [|d sh IH]; [reflexivity|]. cbn [np.c_indices].
  rewrite (bind_blocks_length _ (np.size sh))
    by (intros; by rewrite length_fmap).
  by rewrite length_seq.
Qed.

Lemma f_indices_length (sh : list nat) :
  length (np.f_indices sh) = np.size sh.
Proof.
  induction sh as [|d sh IH]; [reflexivity|]. cbn [np.f_indices].
  rewrite (bind_blocks_length _ d)
    by (intros; by rewrite length_fmap, length_seq).
  rewrite IH. apply Nat.mul_comm.
Qed.

Lemma indices_length (o : np.order) (sh : list nat) :
  length (np.indices o sh) = np.size sh.
Proof. destruct o; [apply c_indices_length | apply f_indices_length
                   | apply c_indices_length]. Qed.

Lemma c_indices_in_bounds (sh idx : list nat) :
  idx ∈ np.c_indices sh -> np.in_bounds sh idx = true.
Proof.
  revert idx. induction sh as [|d sh IH]; intros idx.
  - cbn. by intros ->%list_elem_of_singleton.
  - cbn [np.c_indices]. intros (i & Hidx & Hi)%list_elem_of_bind.
    apply list_elem_of_fmap in Hidx as (tl & -> & Htl).
    apply elem_of_seq in Hi. cbn [np.in_bounds]. rewrite (IH _ Htl).
    rewrite andb_true_r. apply Nat.ltb_lt. lia.
Qed.

Lemma f_indices_in_bounds (sh idx : list nat) :
  idx ∈ np.f_indices sh -> np.in_bounds sh idx = true.
Proof.
  revert idx. induction sh as [|d sh IH]; intros idx.
  - cbn. by intros ->%list_elem_of_singleton.
  - cbn [np.f_indices]. intros (tl & Hidx & Htl)%list_elem_of_bind.
    apply list_elem_of_fmap in Hidx as (i & -> & Hi).
    apply elem_of_seq in Hi. cbn [np.in_bounds]. rewrite (IH _ Htl).
    rewrite andb_true_r. apply Nat.ltb_lt. lia.
Qed.

Lemma indices_in_bounds (o : np.order) (sh idx : list nat) :
  idx ∈ np.indices o sh -> np.in_bounds sh idx = true.
Proof. destruct o; [apply c_indices_in_bounds | apply f_indices_in_bounds
                   | apply c_indices_in_bounds]. Qed.

Lemma offset_c_strides (sh idx : list nat) :
  np.in_bounds sh idx = true -> np.offset (np.c_strides sh) idx < np.size sh.
Proof.
  revert idx. induction sh as [|d sh IH]; intros [|i idx];
    cbn [np.in_bounds]; try done.
  - intros _. cbn. lia.
  - intros [Hi Hidx]%andb_true_iff. apply Nat.ltb_lt in Hi.
    specialize (IH _ Hidx). cbn [np.c_strides np.offset].
    change (np.size (d :: sh)) with (d * np.size sh). nia.
Qed.

Lemma offset_f_strides (sd : nat) (sh idx : list nat) :
  np.in_bounds sh idx = true ->
  np.offset (np.f_strides_from sd sh) idx + sd <= sd * np.size sh.
Proof.
  revert sd idx. induction sh as [|d sh IH]; intros sd [|i idx];
    cbn [np.in_bounds]; try done.
  - intros _. cbn. lia.
  - intros [Hi Hidx]%andb_true_iff. apply Nat.ltb_lt in Hi.
    specialize (IH (sd * d) _ Hidx). cbn [np.f_strides_from np.offset].
    change (np.size (d :: sh)) with (d * np.size sh). nia.
Qed.

Lemma c_strides_length (sh : list nat) :
  length (np.c_strides sh) = length sh.
Proof.
  induction sh as [|d sh IH]; [reflexivity|].
  cbn [np.c_strides length]. by rewrite IH.
Qed.

Lemma f_strides_from_length (sd : nat) (sh : list nat) :
  length (np.f_strides_from sd sh) = length sh.
Proof.
  revert sd. induction sh as [|d sh IH]; intros sd; [reflexivity|].
  cbn [np.f_strides_from length]. by rewrite IH.
Qed.

Lemma fresh_strides_length (o : np.order) (sh : list nat) :
  length (np.fresh_strides o sh) = length sh.
Proof.
  destruct o; [apply c_strides_length | apply f_strides_from_length
              | apply c_strides_length].
Qed.

(** A freshly laid out array whose buffer fills its shape. *)
Lemma fresh_readable {A} (o : np.order) (sh : list nat) (l : list A) :
  length l = np.size sh ->
  readable (np.mk_ndarray sh (np.fresh_strides o sh) l).
Proof.
  intros Hl. split; [apply fresh_strides_length|].
  intros idx Hidx. unfold np.getitem. cbn [np.shape np.strides np.buffer] in *.
  rewrite Hidx. apply lookup_lt_is_Some. rewrite Hl.
  destruct o; cbn [np.fresh_strides].
  - by apply offset_c_strides.
  - pose proof (offset_f_strides 1 sh idx Hidx). unfold np.f_strides. lia.
  - by apply offset_c_strides.
Qed.

Lemma ravel_readable {A} (o : np.order) (a : np.ndarray A) :
  readable a -> exists l, np.ravel o a = Some l /\ length l = np.size (np.shape a).
Proof.
  intros [_ Ha]. unfold np.ravel.
  destruct (mapM (np.getitem a) (np.indices o (np.shape a))) as [l|] eqn:Hl.
  - exists l. split; [done|]. apply length_mapM in Hl.
    by rewrite <- Hl, indices_length.
  - exfalso. apply eq_None_not_Some in Hl. apply Hl, mapM_is_Some.
    apply Forall_forall. intros idx Hidx.
    by apply Ha, (indices_in_bounds o).
Qed.

(** What a [reshape] returns fills its shape, whatever was reshaped. *)
Lemma reshape_ret_readable {A} (a b : np.ndarray A) (sh : list nat)
  (o : np.order) :
  np.reshape a sh o = Ret b -> np.shape b = sh /\ readable b.
Proof.
  unfold np.reshape. destruct (np.size sh =? np.size (np.shape a)) eqn:Hs;
    [|discriminate].
  apply Nat.eqb_eq in Hs.
  destruct (np.ravel _ a) as [l|] eqn:Hl; [|discriminate].
  intros [= <-]. split; [reflexivity|]. apply fresh_readable.
  apply length_mapM in Hl. by rewrite <- Hl, indices_length.
Qed.

(** An array whose every index reads can be reshaped to any shape of its
    size. *)
Lemma reshape_readable {A} (a : np.ndarray A) (sh : list nat) (o : np.order) :
  readable a -> np.size sh = np.size (np.shape a) ->
  exists b, np.reshape a sh o = Ret b /\ np.shape b = sh /\ readable b.
Proof.
  intros Ha Hs. unfold np.reshape.
  replace (np.size sh =? np.size (np.shape a)) with true
    by (symmetry; by apply Nat.eqb_eq).
  destruct (ravel_readable (np.resolve_order o a) a Ha) as (l & -> & Hl).
  eexists. split; [reflexivity|]. split; [reflexivity|].
  apply fresh_readable. by rewrite Hl.
Qed.

Lemma getitem_index0 {A} (a b : np.ndarray A) (i : nat) (idx : list nat) :
  np.index0 a i = Ret b -> np.getitem b idx = np.getitem a (i :: idx).
Proof.
  unfold np.index0, np.getitem.
  destruct (np.shape a) as [|d sh]; [discriminate|].
  destruct (np.strides a) as [|s st]; [discriminate|].
  destruct (i <? d) eqn:Hi; [|discriminate].
  intros [= <-]. cbn [np.shape np.strides np.buffer np.in_bounds np.offset].
  rewrite Hi. cbn [andb]. by rewrite lookup_drop.
Qed.

(** [a[i]] of an array whose every index reads, for [i] within the first
    dimension. *)
Lemma index0_readable {A} (a : np.ndarray A) (d i : nat) (sh : list nat) :
  readable a -> np.shape a = d :: sh -> i < d ->
  exists b, np.index0 a i = Ret b /\ np.shape b = sh /\ readable b.
Proof.
  intros [Hst Ha] Hsh Hi. unfold np.index0. rewrite Hsh in *.
  destruct (np.strides a) as [|s st] eqn:Hs; [discriminate|].
  replace (i <? d) with true by (symmetry; by apply Nat.ltb_lt).
  eexists. split; [reflexivity|]. split; [reflexivity|].
  split; [cbn in *; lia|].
  intros idx Hidx. cbn [np.shape] in Hidx.
  specialize (Ha (i :: idx)). cbn [np.in_bounds] in Ha.
  rewrite Hidx in Ha.
  replace (i <? d) with true in Ha by (symmetry; by apply Nat.ltb_lt).
  specialize (Ha eq_refl). unfold np.getitem in *.
  rewrite Hsh, Hs in Ha. cbn [np.in_bounds np.offset] in Ha.
  rewrite Hidx in Ha.
  replace (i <? d) with true in Ha by (symmetry; by apply Nat.ltb_lt).
  cbn [np.shape np.strides np.buffer andb] in *. rewrite Hidx.
  by rewrite lookup_drop.
Qed.

Lemma slice_bound_le (N : nat) (i : Z) : slice_bound N i <= N.
Proof. unfold slice_bound. destruct (Z.ltb_spec i 0); lia. Qed.

(** [a[lo:hi]] of such an array, and where its elements come from. *)
Lemma slice0_readable {A} (a : np.ndarray A) (d : nat) (sh : list nat)
  (lo hi : Z) :
  readable a -> np.shape a = d :: sh ->
  exists b,
    np.slice0 a lo hi = Ret b
    /\ np.shape b = (slice_bound d hi - slice_bound d lo) :: sh
    /\ readable b
    /\ forall m idx, m < slice_bound d hi - slice_bound d lo ->
         np.getitem b (m :: idx) = np.getitem a ((slice_bound d lo + m) :: idx).
Proof.
  intros [Hst Ha] Hsh. unfold np.slice0. rewrite Hsh in *.
  destruct (np.strides a) as [|s st] eqn:Hs; [discriminate|].
  eexists. split; [reflexivity|]. split; [reflexivity|].
  pose proof (slice_bound_le d hi) as Hhi.
  assert (Hget : forall m idx, m < slice_bound d hi - slice_bound d lo ->
    np.getitem
      (np.mk_ndarray ((slice_bound d hi - slice_bound d lo) :: sh) (s :: st)
         (drop (slice_bound d lo * s) (np.buffer a))) (m :: idx)
    = np.getitem a ((slice_bound d lo + m) :: idx)).
  { intros m idx Hm. unfold np.getitem. rewrite Hsh, Hs.
    cbn [np.shape np.strides np.buffer np.in_bounds np.offset].
    replace (m <? slice_bound d hi - slice_bound d lo) with true
      by (symmetry; by apply Nat.ltb_lt).
    replace (slice_bound d lo + m <? d) with true
      by (symmetry; apply Nat.ltb_lt; lia).
    cbn [andb]. rewrite lookup_drop.
    destruct (np.in_bounds sh idx); [|reflexivity]. f_equal. lia. }
  split; [|exact Hget].
  split; [cbn in *; lia|].
  intros [|m idx]; cbn [np.shape np.in_bounds]; [done|].
  intros [Hm Hidx]%andb_true_iff. apply Nat.ltb_lt in Hm.
  rewrite Hget by done. apply Ha. cbn [np.in_bounds]. rewrite Hidx.
  by replace (slice_bound d lo + m <? d) with true
    by (symmetry; apply Nat.ltb_lt; lia).
Qed.

Lemma getitem_map_elements {A B} (f : A -> B) (a : np.ndarray A)
  (idx : list nat) :
  np.getitem (np.map_elements f a) idx = f <$> np.getitem a idx.
Proof.
  unfold np.getitem, np.map_elements. cbn [np.shape np.strides np.buffer].
  destruct (np.in_bounds (np.shape a) idx); [|reflexivity].
  apply list_lookup_fmap.
Qed.

Lemma map_elements_readable {A B} (f : A -> B) (a : np.ndarray A) :
  readable a -> readable (np.map_elements f a).
Proof.
  intros [Hst Ha]. split; [exact Hst|]. intros idx Hidx.
  rewrite getitem_map_elements. apply fmap_is_Some. by apply Ha.
Qed.

(** [a.tolist()] of a matrix whose every index reads: the rows, with the
    elements at their indices. *)
Lemma tolist2_readable {A} (a : np.ndarray A) (r c : nat) :
  readable a -> np.shape a = [r; c] ->
  exists rows,
    np.tolist2 a = Ret rows /\ length rows = r
    /\ forall i j, i < r -> j < c ->
         rows !! i ≫= (fun row => row !! j) = np.getitem a [i; j].
Proof.
  intros [_ Ha] Hsh. unfold np.tolist2. rewrite Hsh.
  destruct (mapM _ (seq 0 r)) as [rows|] eqn:Hrows.
  - exists rows. split; [reflexivity|].
    pose proof (length_mapM _ _ _ Hrows) as Hlen. rewrite length_seq in Hlen.
    split; [done|]. intros i j Hi Hj.
    apply mapM_Some in Hrows.
    destruct (lookup_lt_is_Some_2 rows i ltac:(lia)) as [row Hrow].
    pose proof (Forall2_lookup_lr _ _ _ i i row Hrows
                  (lookup_seq_lt 0 r i Hi) Hrow) as Hr.
    cbn beta in Hr. rewrite Hrow. cbn [mbind option_bind].
    apply mapM_Some in Hr.
    destruct (row !! j) as [v|] eqn:Hv.
    + symmetry.
      exact (Forall2_lookup_lr _ _ _ j j v Hr (lookup_seq_lt 0 c j Hj) Hv).
    + apply lookup_ge_None in Hv.
      apply Forall2_length in Hr. rewrite length_seq in Hr. lia.
  - exfalso. apply eq_None_not_Some in Hrows. apply Hrows, mapM_is_Some.
    apply Forall_forall. intros i Hi. apply elem_of_seq in Hi.
    apply mapM_is_Some, Forall_forall. intros j Hj. apply elem_of_seq in Hj.
    apply Ha. rewrite Hsh. cbn [np.in_bounds].
    replace (i <? r) with true by (symmetry; apply Nat.ltb_lt; lia).
    by replace (j <? c) with true by (symmetry; apply Nat.ltb_lt; lia).
Qed.

(** The elements a [ravel] in C order gives, by position. *)
Lemma ravel_C_lookup {A} (a : np.ndarray A) (l : list A) (k : nat)
  (idx : list nat) :
  np.ravel np.order_C a = Some l ->
  np.c_indices (np.shape a) !! k = Some idx ->
  l !! k = np.getitem a idx.
Proof.
  unfold np.ravel. cbn [np.indices]. intros Hl Hidx.
  apply mapM_Some in Hl.
  destruct (Forall2_lookup_l _ _ _ k idx Hl Hidx) as (v & Hv & Hget).
  by rewrite Hv, Hget.
Qed.

Lemma c_indices_matrix_lookup (R C r c : nat) :
  r < R -> c < C -> np.c_indices [R; C] !! (r * C + c) = Some [r; c].
Proof.
  intros Hr Hc. cbn [np.c_indices].
  assert (Hrow : forall i : nat,
    length (cons i <$> (seq 0 C ≫= fun j => cons j <$> [[]])) = C).
  { intros i. rewrite length_fmap, (bind_blocks_length _ 1) by done.
    rewrite length_seq. lia. }
  rewrite (bind_blocks_lookup _ C) by done.
  rewrite lookup_seq_lt by done. cbn [mbind option_bind].
  rewrite list_lookup_fmap.
  replace c with (c * 1 + 0) at 1 by lia.
  rewrite (bind_blocks_lookup _ 1) by (done || lia).
  rewrite lookup_seq_lt by done. reflexivity.
Qed.

Lemma c_indices_cons_lookup (d : nat) (sh : list nat) (i j : nat) :
  i < d -> j < np.size sh ->
  np.c_indices (d :: sh) !! (i * np.size sh + j)
  = cons i <$> np.c_indices sh !! j.
Proof.
  intros Hi Hj. cbn [np.c_indices].
  rewrite (bind_blocks_lookup _ (np.size sh))
    by (done || intros; by rewrite length_fmap, c_indices_length).
  rewrite lookup_seq_lt by done. cbn [mbind option_bind].
  apply list_lookup_fmap.
Qed.

Lemma c_indices_images_lookup (N n r c : nat) :
  n < N -> r < 28 -> c < 28 ->
  np.c_indices [N; 28; 28] !! (n * 784 + (r * 28 + c)) = Some [n; r; c].
Proof.
  intros Hn Hr Hc.
  change 784 with (np.size [28; 28]).
  rewrite c_indices_cons_lookup
    by (done || change (np.size [28; 28]) with 784; lia).
  by rewrite c_indices_matrix_lookup.
Qed.

Lemma c_indices_rows_lookup (M m k : nat) :
  m < M -> k < 784 ->
  np.c_indices [M; 1; 784] !! (m * 784 + k) = Some [m; 0; k].
Proof.
  intros Hm Hk.
  change (m * 784 + k) with (m * np.size [1; 784] + k).
  rewrite c_indices_cons_lookup by done.
  by rewrite c_indices_row_lookup.
Qed.

Section FurtherProperties.

Context {env : environment}.

(** ** [show_img] *)

Lemma show_img_run (idx : nat) (xtr : np.ndarray Q) (ytr : pyobj)
  (xte : np.ndarray Q) (yte : pyobj) (mapping : gmap Z string) (mode : string)
  (w : world env) :
  show_img idx xtr ytr xte yte mapping mode w =
  let x := if decide (mode = "train") then xtr else xte in
  let y := if decide (mode = "train") then ytr else yte in
  match (img ← np.index0 x idx;
         l ← label_at y [idx; 0];
         label ← of_option KeyError (mapping !! l);
         Ret (img, label)) with
  | Ret (img, label) =>
      (Ret tt, mk_world (fs w) (ticks w) (rng w) (sent w)
                        (stdout w ++ [ShowImage img; Print ("Label: " +:+ label)]))
  | Raise e => (Raise e, w)
  | OutOfFuel => (OutOfFuel, w)
  end.
Proof.
  unfold show_img. cbn zeta. rewrite bind_run.
  destruct (decide (mode = "train")) as [Hm|Hm].
  - rewrite lift_bind_run.
    destruct (np.index0 xtr idx) as [img|e|]; cbn [mbind outcome_bind];
      [|reflexivity..].
    rewrite lift_bind_run.
    destruct (label_at ytr [idx; 0]) as [l|e|]; cbn [mbind outcome_bind];
      [|reflexivity..].
    rewrite lift_bind_run.
    destruct (mapping !! l) as [c|]; cbn [of_option mbind outcome_bind];
      [|reflexivity].
    cbn. rewrite bind_run. unfold emit. cbn [fs ticks rng sent stdout].
    by rewrite <- app_assoc.
  - rewrite lift_bind_run.
    destruct (np.index0 xte idx) as [img|e|]; cbn [mbind outcome_bind];
      [|reflexivity..].
    rewrite lift_bind_run.
    destruct (label_at yte [idx; 0]) as [l|e|]; cbn [mbind outcome_bind];
      [|reflexivity..].
    rewrite lift_bind_run.
    destruct (mapping !! l) as [c|]; cbn [of_option mbind outcome_bind];
      [|reflexivity].
    cbn. rewrite bind_run. unfold emit. cbn [fs ticks rng sent stdout].
    by rewrite <- app_assoc.
Qed.

Lemma index0_out_of_range {A} (a : np.ndarray A) (N i : nat) :
  shape0 a = Ret N -> N <= i -> np.index0 a i = Raise IndexError.
Proof.
  unfold shape0, np.index0. destruct (np.shape a) as [|d sh]; [discriminate|].
  intros [= ->] Hi. destruct (np.strides a); [reflexivity|].
  by replace (i <? N) with false by (symmetry; apply Nat.ltb_ge; lia).
Qed.

(** X2. [show_img] with the label mapper: when the image index is within
    the selected split and its label is one of the 62 classes, the image is
    shown and then the line "Label: c" is printed, with [c] the character of
    the label, and nothing else changes; an index past the end of the split
    raises [IndexError] and a label outside 0..61 raises [KeyError], and a
    call that raises has shown and printed nothing. *)
Theorem show_img_prints_or_raises (idx : nat) (x_train : np.ndarray Q)
  (y_train : pyobj) (x_test : np.ndarray Q) (y_test : pyobj) (mode : string)
  (w : world env) :
  let x := if decide (mode = "train") then x_train else x_test in
  let y := if decide (mode = "train") then y_train else y_test in
  let run := show_img idx x_train y_train x_test y_test get_emnist_mapping
               mode w in
  (forall img l c,
     np.index0 x idx = Ret img -> label_at y [idx; 0] = Ret l ->
     label_char l = Some c ->
     run = (Ret tt,
            mk_world (fs w) (ticks w) (rng w) (sent w)
              (stdout w ++ [ShowImage img; Print ("Label: " +:+ c)])))
  /\ (forall N, shape0 x = Ret N -> N <= idx -> run = (Raise IndexError, w))
  /\ (forall img l,
        np.index0 x idx = Ret img -> label_at y [idx; 0] = Ret l ->
        ~ (0 <= l < 62)%Z -> run = (Raise KeyError, w))
  /\ (forall e, run.1 = Raise e -> run.2 = w).
Proof.
  cbn zeta. rewrite show_img_run. cbn zeta.
  set (x := if decide (mode = "train") then x_train else x_test).
  set (y := if decide (mode = "train") then y_train else y_test).
  split_and!.
  - intros img l c -> -> Hc. cbn [mbind outcome_bind].
    by rewrite mapping_lookup, Hc.
  - intros N HN Hi. by rewrite (index0_out_of_range _ _ _ HN Hi).
  - intros img l -> -> Hl. cbn [mbind outcome_bind]. rewrite mapping_lookup.
    replace (label_char l) with (@None string); [reflexivity|].
    unfold label_char. repeat case_match; try reflexivity; lia.
  - intros e.
    destruct (np.index0 x idx) as [img| |]; cbn [mbind outcome_bind]; [|done..].
    destruct (label_at y [idx; 0]) as [l| |]; cbn [mbind outcome_bind];
      [|done..].
    destruct (get_emnist_mapping !! l); cbn; [discriminate | done].
Qed.

(** ** The checks of the sampling *)

Lemma seed_valid (seed : Z) :
  (0 <= seed < 2 ^ 32)%Z -> ((0 <=? seed) && (seed <? 2 ^ 32))%Z = true.
Proof.
  intros H. apply andb_true_iff. split; [apply Z.leb_le | apply Z.ltb_lt]; lia.
Qed.

Lemma seed_invalid (seed : Z) :
  ~ (0 <= seed < 2 ^ 32)%Z -> ((0 <=? seed) && (seed <? 2 ^ 32))%Z = false.
Proof.
  intros H. apply andb_false_iff.
  destruct (Z.leb_spec 0 seed); [right; apply Z.ltb_ge; lia | by left].
Qed.

(** X3. When the data has loaded, [eval_serving_performance] refuses a seed
    outside 0..2^32-1 and a sample larger than the split with [ValueError]
    before any request is sent, any clock reading is taken or anything is
    printed; in the second case the global generator has already been
    re-seeded. *)
Theorem sample_request_is_checked_before_any_query (n_examples
  n_print_examples : nat) (request_url : string) (seed : Z) (dataset : string)
  (use_graphpipe : bool) (emnist_folder_path : string) (w : world env)
  (data : emnist) (N : nat) :
  load_emnist emnist_folder_path false w = (Ret data, w) ->
  shape0 (select_split dataset data).1 = Ret N ->
  let run := eval_serving_performance n_examples n_print_examples request_url
               seed dataset use_graphpipe emnist_folder_path w in
  (~ (0 <= seed < 2 ^ 32)%Z ->
   run = (Raise (ValueError "Seed must be between 0 and 2**32 - 1"), w))
  /\ ((0 <= seed < 2 ^ 32)%Z -> 0 < N -> N < n_examples ->
      run = (Raise (ValueError
               "Cannot take a larger sample than population when 'replace=False'"),
             mk_world (fs w) (ticks w) (seed_state env seed) (sent w)
                      (stdout w))).
Proof.
  intros Hload HN. cbn zeta. unfold eval_serving_performance.
  rewrite bind_run, Hload.
  destruct (select_split dataset data) as [x y]. cbn [fst] in HN.
  rewrite bind_run. unfold draw_eval_indices, np_random_seed.
  rewrite bind_run. split.
  - intros Hs. rewrite (seed_invalid _ Hs). by destruct w.
  - intros Hs HN0 Hn. rewrite (seed_valid _ Hs). cbn [put_rng].
    rewrite lift_bind_run, HN. unfold np_random_choice.
    replace (N =? 0) with false by (symmetry; apply Nat.eqb_neq; lia).
    replace (N <? n_examples) with true by (symmetry; apply Nat.ltb_lt; lia).
    reflexivity.
Qed.

Lemma sampled_indices_of_load (folder dataset : string) (seed : Z) (n : nat)
  (w : world env) (data : emnist) :
  load_emnist folder false w = (Ret data, w) ->
  sampled_indices folder dataset seed n w
  = drawn_indices env seed (select_split dataset data).1 n.
Proof.
  intros Hload. unfold sampled_indices. rewrite bind_run, Hload.
  by destruct (draw_eval_indices_run seed (select_split dataset data).1 n w)
    as [s ->].
Qed.


(** ** What the loader returns can be read at every index *)

Lemma load_images_readable (o : pyobj) (path : list nat) (x : np.ndarray Q) :
  load_images o path = Ret x ->
  exists n, np.shape x = [n; 28; 28] /\ readable x.
Proof.
  unfold load_images. intros H.
  apply outcome_bind_ret_inv in H as (o' & _ & H).
  apply outcome_bind_ret_inv in H as (x0 & _ & H).
  apply outcome_bind_ret_inv in H as (n & _ & H).
  apply reshape_ret_readable in H. eauto.
Qed.

Lemma load_emnist_readable (folder : string) (w : world env) (data : emnist)
  (dataset : string) :
  load_emnist folder false w = (Ret data, w) ->
  exists N, np.shape (select_split dataset data).1 = [N; 28; 28]
            /\ readable (select_split dataset data).1.
Proof.
  rewrite load_emnist_offline. intros [= H].
  destruct (archive_present (fs w) folder); [|discriminate].
  unfold read_archive, read_emnist in H.
  apply outcome_bind_ret_inv in H as (raw & _ & H).
  apply outcome_bind_ret_inv in H as (ds & _ & H).
  apply outcome_bind_ret_inv in H as (xtr & Hxtr & H).
  apply outcome_bind_ret_inv in H as (ytr & _ & H).
  apply outcome_bind_ret_inv in H as (xte & Hxte & H).
  apply outcome_bind_ret_inv in H as (yte & _ & H).
  apply outcome_bind_ret_inv in H as (mp & _ & H).
  injection H as <-. unfold select_split.
  destruct (decide (dataset = "train")); cbn [fst x_train x_test];
    by eapply load_images_readable.
Qed.

Lemma select_split_fst (dataset : string) (data : emnist) :
  (select_split dataset data).1
  = if decide (dataset = "train") then x_train data else x_test data.
Proof. unfold select_split. by destruct (decide _). Qed.

(** ** The image a query carries *)

Lemma flatten_image_pixels (x flat : np.ndarray Q) (N i : nat) :
  np.shape x = [N; 28; 28] ->
  flatten_image x i = Ret flat ->
  np.shape flat = [1; 784] /\ readable flat
  /\ forall r c, r < 28 -> c < 28 ->
       np.getitem flat [0; 28 * r + c]
       = (fun v => v / 255)%Q <$> np.getitem x [i; r; c].
Proof.
  intros Hsh. unfold flatten_image. intros H.
  apply outcome_bind_ret_inv in H as (img & Himg & H).
  apply outcome_bind_ret_inv in H as (flat0 & Hflat & H).
  injection H as <-.
  pose proof (reshape_ret_readable _ _ _ _ Hflat) as [Hfsh Hfr].
  split; [exact Hfsh|]. split; [by apply map_elements_readable|].
  intros r c Hr Hc. rewrite getitem_map_elements. f_equal.
  rewrite <- (getitem_index0 _ _ _ _ Himg).
  assert (Hish : np.shape img = [28; 28]).
  { unfold np.index0 in Himg. rewrite Hsh in Himg.
    destruct (np.strides x); [discriminate|].
    destruct (i <? N); [|discriminate]. by injection Himg as <-. }
  unfold np.reshape in Hflat. rewrite Hish in Hflat.
  change (np.size [1; 784] =? np.size [28; 28]) with true in Hflat.
  cbn [np.resolve_order] in Hflat.
  destruct (np.ravel np.order_C img) as [l|] eqn:Hl; [|discriminate].
  injection Hflat as <-.
  unfold np.getitem at 1.
  cbn [np.shape np.strides np.buffer np.in_bounds np.fresh_strides
       np.c_strides np.offset].
  change (0 <? 1) with true.
  replace (28 * r + c <? 784) with true by (symmetry; apply Nat.ltb_lt; lia).
  cbn [andb]. change (np.size [784]) with 784. change (np.size []) with 1.
  replace (0 * 784 + ((28 * r + c) * 1 + 0)) with (r * 28 + c) by lia.
  apply (ravel_C_lookup _ _ _ _ Hl). rewrite Hish.
  by apply c_indices_matrix_lookup.
Qed.

Lemma request_payload_pixels (g : bool) (flat : np.ndarray Q) (p : payload) :
  np.shape flat = [1; 784] -> readable flat ->
  request_payload g flat = Ret p ->
  examples_in p = 1
  /\ forall k, k < 784 -> payload_entry p 0 k = np.getitem flat [0; k].
Proof.
  intros Hsh Hr. unfold request_payload. destruct g.
  - intros [= <-]. cbn [examples_in payload_entry]. by rewrite Hsh.
  - destruct (tolist2_readable flat 1 784 Hr Hsh) as (rows & -> & Hlen & Hrows).
    cbn [mbind outcome_bind]. intros [= <-]. cbn [examples_in payload_entry].
    split; [exact Hlen|]. intros k Hk. apply Hrows; lia.
Qed.

Lemma query_request (g : bool) (url : string) (flat : np.ndarray Q)
  (w w' : world env) (start : Q) (scores : list (list Q)) :
  query g url flat w = (Ret (start, scores), w') ->
  exists p, request_payload g flat = Ret p
            /\ w' = mk_world (fs w) (S (ticks w)) (rng w)
                             (sent w ++ [(url, p)]) (stdout w).
Proof.
  unfold query, request_payload. destruct g; cbn [negb].
  - rewrite bind_run. cbn [time_time]. rewrite bind_run.
    unfold remote_execute. cbn [sent fs ticks rng stdout].
    destruct (execute_reply env _ _ _) as [e|sc]; [discriminate|].
    intros [= <- <- <-]. eauto.
  - rewrite bind_run. cbn [time_time]. rewrite lift_bind_run.
    destruct (np.tolist2 flat) as [rows|e|]; [|discriminate..].
    rewrite bind_run. unfold requests_post_predictions.
    cbn [sent fs ticks rng stdout mbind outcome_bind].
    destruct (post_reply env _ _ _) as [e|[sc|]]; [discriminate| |discriminate].
    intros [= <- <- <-]. eauto.
Qed.

Lemma eval_step_request (n_print : nat) (url dataset : string) (g : bool)
  (data : emnist) (mapping : gmap Z string) (x : np.ndarray Q) (y : pyobj)
  (idx i acc acc' : nat) (ds ds' : list Q) (w w' : world env) :
  eval_step n_print url dataset g data mapping x y idx i acc ds w
  = (Ret (acc', ds'), w') ->
  exists flat p,
    flatten_image x i = Ret flat /\ request_payload g flat = Ret p
    /\ sent w' = sent w ++ [(url, p)].
Proof.
  unfold eval_step, flatten_image.
  rewrite lift_bind_run.
  destruct (np.index0 x i) as [img|e|]; [|discriminate..].
  rewrite lift_bind_run. cbn [mbind outcome_bind].
  destruct (np.reshape img [1; 784] np.order_C) as [flat|e|]; [|discriminate..].
  cbn [mbind outcome_bind].
  rewrite bind_run.
  destruct (query g url _ w) as [[[start scores]|e|] w1] eqn:Hq;
    [|discriminate..].
  apply query_request in Hq as (p & Hp & ->).
  rewrite bind_run. cbn [time_time fs ticks rng sent stdout].
  rewrite lift_bind_run.
  destruct (np.argmax scores) as [pred|e|]; [|discriminate..].
  rewrite lift_bind_run.
  destruct (label_item y i 0) as [label|e|]; [|discriminate..].
  rewrite bind_run.
  destruct (idx <? n_print).
  - rewrite bind_run.
    destruct (show_img _ _ _ _ _ _ _ _) as [[[]|e|] w2] eqn:Hs;
      [|discriminate..].
    apply show_img_ret in Hs as [out ->].
    cbn [fs ticks rng sent stdout].
    rewrite lift_bind_run.
    destruct (of_option KeyError _) as [c|e|]; [|discriminate..].
    intros [= <- <- <-]. eauto.
  - intros [= <- <- <-]. eauto.
Qed.

Lemma eval_loop_requests (n_print : nat) (url dataset : string) (g : bool)
  (data : emnist) (mapping : gmap Z string) (x : np.ndarray Q) (y : pyobj)
  (inds : list nat) :
  forall (idx acc acc' : nat) (ds ds' : list Q) (w w' : world env),
    eval_loop n_print url dataset g data mapping x y idx inds acc ds w
    = (Ret (acc', ds'), w') ->
    exists ps,
      sent w' = sent w ++ ps
      /\ Forall2 (fun i (p : string * payload) =>
                    p.1 = url
                    /\ exists flat, flatten_image x i = Ret flat
                                    /\ request_payload g flat = Ret p.2)
                 inds ps.
Proof.
  induction inds as [|i inds IH]; intros idx acc acc' ds ds' w w'.
  - intros [= <- <- <-]. exists []. by rewrite app_nil_r.
  - cbn [eval_loop]. rewrite bind_run.
    destruct (eval_step _ _ _ _ _ _ _ _ _ _ _ _ w) as [[[acc1 ds1]|e|] w1]
      eqn:Hs; [|discriminate..].
    apply eval_step_request in Hs as (flat & p & Hflat & Hp & Hsent).
    intros H. apply IH in H as (ps & Hsent' & Hps).
    exists ((url, p) :: ps). split.
    + by rewrite Hsent', Hsent, <- app_assoc.
    + constructor; [|exact Hps]. split; [reflexivity|]. eauto.
Qed.

Lemma draw_eval_indices_state (seed : Z) (x_eval : np.ndarray Q) (n : nat)
  (inds : list nat) (w : world env) :
  drawn_indices env seed x_eval n = Ret inds ->
  exists N,
    shape0 x_eval = Ret N
    /\ draw_eval_indices seed x_eval n w
       = (Ret inds,
          mk_world (fs w) (ticks w)
            (shuffle_from (N - 1) (seq 0 N) (seed_state env seed)).2
            (sent w) (stdout w)).
Proof.
  unfold draw_eval_indices, drawn_indices, np_random_seed.
  rewrite bind_run.
  destruct ((0 <=? seed) && (seed <? 2 ^ 32))%Z; [|discriminate].
  cbn [put_rng]. rewrite lift_bind_run.
  destruct (shape0 x_eval) as [N|e|]; cbn [mbind outcome_bind];
    [|discriminate..].
  unfold np_random_choice.
  destruct ((N =? 0) && negb (n =? 0)); [discriminate|].
  destruct (N <? n); [discriminate|].
  intros [= <-]. exists N. split; [reflexivity|].
  rewrite bind_run. unfold np_random_permutation. cbn [rng].
  by destruct (shuffle_from (N - 1) (seq 0 N) (seed_state env seed)) as [p s].
Qed.

Lemma hits_le (g : bool) (url : string) (x : np.ndarray Q) (y : pyobj)
  (k0 : nat) (inds : list nat) :
  hits env g url x y k0 inds <= length inds.
Proof.
  unfold hits. etrans; [apply length_filter|].
  rewrite length_zip, length_seq. lia.
Qed.

Lemma eval_serving_performance_world (n n_print : nat) (url : string)
  (seed : Z) (dataset : string) (g : bool) (folder : string)
  (w w' : world env) (ds : list Q) :
  eval_serving_performance n n_print url seed dataset g folder w
  = (Ret ds, w') ->
  exists (data : emnist) (N : nat) (inds : list nat)
         (ps : list (string * payload)) (out : list event) (acc : nat),
    load_emnist folder false w = (Ret data, w)
    /\ np.shape (select_split dataset data).1 = [N; 28; 28]
    /\ sampled_indices folder dataset seed n w = Ret inds
    /\ length inds = n /\ 0 < n /\ acc <= n
    /\ Forall2 (fun i (p : string * payload) =>
                  p.1 = url
                  /\ exists flat,
                       flatten_image (select_split dataset data).1 i = Ret flat
                       /\ request_payload g flat = Ret p.2)
               inds ps
    /\ w' = mk_world (fs w) (ticks w + 2 * n)
              (shuffle_from (N - 1) (seq 0 N) (seed_state env seed)).2
              (sent w ++ ps)
              (stdout w ++ out ++
               [PrintAccuracy n (inject_Z (Z.of_nat acc)
                                 / inject_Z (Z.of_nat n))%Q]).
Proof.
  intros Hrun. pose proof Hrun as Hrun'.
  apply eval_serving_performance_ret in Hrun'
    as (data & inds & ps & out & s & Hload & Hsam & Hlen & Hn & _ & Hps & ->).
  destruct (load_emnist_readable folder w data dataset Hload)
    as (N & Hsh & _).
  rewrite (sampled_indices_of_load _ _ _ _ _ _ Hload) in Hsam.
  exists data, N, inds, ps, out,
    (hits env g url (select_split dataset data).1
          (select_split dataset data).2 (length (sent w)) inds).
  split_and!; try done.
  - by rewrite (sampled_indices_of_load _ _ _ _ _ _ Hload).
  - rewrite <- Hlen. apply hits_le.
  - revert Hrun. unfold eval_serving_performance. rewrite bind_run, Hload.
    destruct (select_split dataset data) as [x y]. cbn [fst snd] in *.
    rewrite bind_run.
    destruct (draw_eval_indices_state seed x n inds w Hsam) as (N' & HN' & ->).
    rewrite bind_run.
    destruct (eval_loop _ _ _ _ _ _ _ _ _ _ _ _ _) as [[[acc ds1]|e|] w1]
      eqn:Hl; [|discriminate..].
    apply eval_loop_requests in Hl as (ps' & Hsent & Hreq).
    rewrite lift_bind_run.
    destruct (truediv _ _) as [q|e|]; [|discriminate..].
    intros [= _ _ _ _ Hw _].
    rewrite Hsent in Hw. cbn [sent] in Hw.
    apply app_inv_head in Hw. by subst ps'.
  - f_equal. revert Hrun. unfold eval_serving_performance.
    rewrite bind_run, Hload.
    destruct (select_split dataset data) as [x y] eqn:Hsel. cbn [fst snd] in *.
    rewrite bind_run.
    destruct (draw_eval_indices_state seed x n inds w Hsam) as (N' & HN' & ->).
    assert (N' = N) as ->.
    { unfold shape0 in HN'. rewrite Hsh in HN'. by injection HN'. }
    rewrite bind_run.
    destruct (eval_loop _ _ _ _ _ _ _ _ _ _ _ _ _) as [[[acc ds1]|e|] w1]
      eqn:Hl; [|discriminate..].
    apply eval_loop_ret in Hl as (ps' & out' & _ & _ & _ & ->).
    rewrite lift_bind_run.
    destruct (truediv _ _) as [q|e|]; [|discriminate..].
    intros Hw. apply (f_equal snd) in Hw. apply (f_equal rng) in Hw.
    symmetry. exact Hw.
Qed.

(** ** The images the evaluator evaluates *)




(** X5. In a run of the evaluator that returns, the [i]-th request goes to
    [request_url] and carries exactly one example, the image drawn at
    position [i] flattened row by row and scaled: entry [28 * r + c] is the
    pixel at row [r] and column [c] of that image divided by 255. *)
Theorem evaluator_sends_the_sampled_images (n_examples n_print_examples : nat)
  (request_url : string) (seed : Z) (dataset : string) (use_graphpipe : bool)
  (emnist_folder_path : string) (w w' : world env) (durations : list Q) :
  eval_serving_performance n_examples n_print_examples request_url seed
    dataset use_graphpipe emnist_folder_path w = (Ret durations, w') ->
  exists (data : emnist) (inds : list nat) (requests : list (string * payload)),
    load_emnist emnist_folder_path false w = (Ret data, w)
    /\ sampled_indices emnist_folder_path dataset seed n_examples w = Ret inds
    /\ sent w' = sent w ++ requests
    /\ length requests = n_examples
    /\ forall i idx p,
         inds !! i = Some idx -> requests !! i = Some p ->
         p.1 = request_url /\ examples_in p.2 = 1
         /\ forall r c, r < 28 -> c < 28 ->
              payload_entry p.2 0 (28 * r + c)
              = (fun v => v / 255)%Q
                  <$> np.getitem (select_split dataset data).1 [idx; r; c].
Proof.
  intros H.
  apply eval_serving_performance_world in H
    as (data & N & inds & ps & out & acc & Hload & Hsh & Hsam & Hlen & _ & _
        & Hps & ->).
  exists data, inds, ps. split_and!; try done.
  - apply Forall2_length in Hps. lia.
  - intros i idx p Hidx Hp.
    destruct (Forall2_lookup_lr _ _ _ _ _ _ Hps Hidx Hp)
      as (Hurl & flat & Hflat & Hpay).
    destruct (flatten_image_pixels _ _ _ _ Hsh Hflat) as (Hfsh & Hfr & Hpix).
    destruct (request_payload_pixels _ _ _ Hfsh Hfr Hpay) as [Hone Hpp].
    split_and!; try done.
    intros r c Hr Hc. rewrite Hpp by lia. by apply Hpix.
Qed.

Lemma ratio_in_unit_interval (a n : nat) :
  0 < n -> a <= n ->
  (0 <= inject_Z (Z.of_nat a) / inject_Z (Z.of_nat n) <= 1)%Q.
Proof.
  intros Hn Ha.
  assert (Hn' : (0 < inject_Z (Z.of_nat n))%Q).
  { change 0%Q with (inject_Z 0). rewrite <- Zlt_Qlt. lia. }
  split.
  - apply Qle_shift_div_l; [done|]. rewrite Qmult_0_l.
    change 0%Q with (inject_Z 0). rewrite <- Zle_Qle. lia.
  - apply Qle_shift_div_r; [done|]. rewrite Qmult_1_l.
    rewrite <- Zle_Qle. lia.
Qed.

(** X6. A run of the evaluator that returns has left the file system as it
    was, has read the clock twice per example, and leaves the global random
    generator in the state that seeding with [seed] and shuffling the
    indices of the split gives, whatever its state was before; what it
    printed ends with the accuracy line, and the accuracy lies between 0
    and 1. *)
Theorem evaluator_effects (n_examples n_print_examples : nat)
  (request_url : string) (seed : Z) (dataset : string) (use_graphpipe : bool)
  (emnist_folder_path : string) (w w' : world env) (durations : list Q) :
  eval_serving_performance n_examples n_print_examples request_url seed
    dataset use_graphpipe emnist_folder_path w = (Ret durations, w') ->
  fs w' = fs w
  /\ ticks w' = ticks w + 2 * n_examples
  /\ (exists (data : emnist) (N : nat),
        load_emnist emnist_folder_path false w = (Ret data, w)
        /\ np.shape (select_split dataset data).1 = [N; 28; 28]
        /\ rng w' = (shuffle_from (N - 1) (seq 0 N) (seed_state env seed)).2)
  /\ (exists (out : list event) (accuracy : Q),
        stdout w' = stdout w ++ out ++ [PrintAccuracy n_examples accuracy]
        /\ (0 <= accuracy <= 1)%Q).
Proof.
  intros H.
  apply eval_serving_performance_world in H
    as (data & N & inds & ps & out & acc & Hload & Hsh & Hsam & Hlen & Hn
        & Hacc & Hps & ->).
  cbn [fs ticks rng stdout]. split_and!; try done.
  - by exists data, N.
  - eexists out, _. split; [reflexivity|]. by apply ratio_in_unit_interval.
Qed.

(** ** The accuracy printed *)

Lemma label_item_matrix_inv (N : nat) (labels : list Z) (i : nat) (l : Z) :
  label_item (PyArray (matrix N 1 labels)) i 0 = Ret l -> labels !! i = Some l.
Proof.
  unfold label_item, py_getitem, np.index0.
  cbn [matrix np.shape np.strides np.buffer].
  destruct (i <? N); [|discriminate].
  cbn [mbind outcome_bind np.shape np.strides np.buffer Nat.ltb Nat.leb
       label_at]. unfold np.getitem.
  cbn [np.shape np.strides np.buffer np.in_bounds np.offset of_option].
  rewrite Nat.mul_0_l, drop_0, lookup_drop, Nat.mul_1_r, Nat.add_0_r.
  destruct (labels !! i); [by intros [= ->] | discriminate].
Qed.

Lemma eval_step_sample (n_print : nat) (url dataset : string) (g : bool)
  (data : emnist) (mapping : gmap Z string) (x : np.ndarray Q) (y : pyobj)
  (idx i acc acc' : nat) (ds ds' : list Q) (w w' : world env) :
  eval_step n_print url dataset g data mapping x y idx i acc ds w
  = (Ret (acc', ds'), w') ->
  exists r,
    evaluated env g url x y (length (sent w), i) r
    /\ is_hit env g url x y (length (sent w)) i
       = bool_decide (Z.of_nat r.1 = r.2).
Proof.
  unfold eval_step, evaluated, is_hit, sample_result, flatten_image.
  cbn [fst snd].
  rewrite lift_bind_run.
  destruct (np.index0 x i) as [img|e|]; [|discriminate..].
  rewrite lift_bind_run. cbn [mbind outcome_bind].
  destruct (np.reshape img [1; 784] np.order_C) as [flat|e|]; [|discriminate..].
  cbn [mbind outcome_bind].
  rewrite bind_run.
  destruct (query g url _ w) as [[[start scores]|e|] w1] eqn:Hq;
    [|discriminate..].
  apply query_ret in Hq as (-> & Hq & p & ->). rewrite Hq.
  cbn [mbind outcome_bind].
  rewrite bind_run. cbn [time_time fs ticks rng sent stdout].
  rewrite lift_bind_run.
  destruct (np.argmax scores) as [pred|e|] eqn:Hpred; [|discriminate..].
  rewrite lift_bind_run. cbn [mbind outcome_bind].
  destruct (label_item y i 0) as [label|e|] eqn:Hlab; [|discriminate..].
  intros _. exists (pred, label). cbn [fst snd mbind outcome_bind].
  split; [by eexists _, scores|].
  destruct (Z.eqb_spec (Z.of_nat pred) label) as [Heq|Hne].
  - by rewrite bool_decide_eq_true_2.
  - by rewrite bool_decide_eq_false_2.
Qed.

Lemma eval_loop_samples (n_print : nat) (url dataset : string) (g : bool)
  (data : emnist) (mapping : gmap Z string) (x : np.ndarray Q) (y : pyobj)
  (inds : list nat) :
  forall (idx acc acc' : nat) (ds ds' : list Q) (w w' : world env),
    eval_loop n_print url dataset g data mapping x y idx inds acc ds w
    = (Ret (acc', ds'), w') ->
    exists results : list (nat * Z),
      Forall2 (evaluated env g url x y)
              (zip (seq (length (sent w)) (length inds)) inds) results
      /\ hits env g url x y (length (sent w)) inds = count_hits results.
Proof.
  induction inds as [|i inds IH]; intros idx acc acc' ds ds' w w'.
  - intros _. exists []. split; [constructor | reflexivity].
  - cbn [eval_loop]. rewrite bind_run.
    destruct (eval_step _ _ _ _ _ _ _ _ _ _ _ _ w) as [[[acc1 ds1]|e|] w1]
      eqn:Hs; [|discriminate..].
    pose proof Hs as Hs'.
    apply eval_step_sample in Hs' as (r & Hr & Hhit).
    apply eval_step_ret in Hs as (p & out & _ & _ & ->).
    intros H. apply IH in H as (results & Hres & Hhits).
    cbn [sent] in Hres, Hhits. rewrite length_app in Hres, Hhits.
    cbn [length] in Hres, Hhits.
    replace (length (sent w) + 1) with (S (length (sent w))) in * by lia.
    exists (r :: results). split.
    + cbn [length seq zip_with]. constructor; [exact Hr | exact Hres].
    + rewrite hits_cons, Hhits, Hhit. unfold count_hits.
      rewrite filter_cons.
      destruct (decide (Z.of_nat r.1 = r.2)) as [Heq|Hne].
      * by rewrite bool_decide_eq_true_2.
      * by rewrite bool_decide_eq_false_2.
Qed.

Lemma eval_serving_performance_samples (n n_print : nat) (url : string)
  (seed : Z) (dataset : string) (g : bool) (folder : string)
  (w w' : world env) (ds : list Q) (data : emnist) :
  load_emnist folder false w = (Ret data, w) ->
  eval_serving_performance n n_print url seed dataset g folder w
  = (Ret ds, w') ->
  exists (inds : list nat) (results : list (nat * Z)),
    sampled_indices folder dataset seed n w = Ret inds
    /\ length inds = n /\ 0 < n
    /\ Forall2 (evaluated env g url (select_split dataset data).1
                  (select_split dataset data).2)
               (zip (seq (length (sent w)) n) inds) results
    /\ last (stdout w')
       = Some (PrintAccuracy n (inject_Z (Z.of_nat (count_hits results))
                                / inject_Z (Z.of_nat n))%Q).
Proof.
  intros Hload Hrun. pose proof Hrun as Hrun'.
  apply eval_serving_performance_ret in Hrun'
    as (data' & inds & ps & out & s & Hload' & Hsam & Hlen & Hn & _ & _ & ->).
  assert (data' = data) as -> by congruence.
  exists inds.
  revert Hrun. unfold eval_serving_performance. rewrite bind_run, Hload.
  pose proof Hsam as Hsam'.
  rewrite (sampled_indices_of_load _ _ _ _ _ _ Hload) in Hsam'.
  rewrite (surjective_pairing (select_split dataset data)).
  rewrite bind_run.
  destruct (draw_eval_indices_state seed _ n inds w Hsam') as (N & HN & ->).
  rewrite bind_run.
  destruct (eval_loop _ _ _ _ _ _ _ _ _ _ _ _ _) as [[[acc ds1]|e|] w1]
    eqn:Hl; [|discriminate..].
  apply eval_loop_samples in Hl as (results & Hres & Hhits).
  cbn [sent] in Hres, Hhits. intros _.
  exists results. rewrite Hlen in Hres. split_and!; try done.
  cbn [stdout fst snd]. rewrite !app_assoc, last_snoc. by rewrite Hhits.
Qed.

(** C6. The class predicted from the scores is the index of their maximum,
    the lowest such index when the maximum occurs more than once; and the
    accuracy a returning run prints is the number of samples whose predicted
    class is the ground-truth label, divided by [n_examples]. For the sample
    at position [i] the predicted class is [np.argmax] of the scores the
    service returned to the [i]-th request, the one for the image drawn at
    that position, and the ground-truth label is the entry of the label
    column at the index of that image. *)
Theorem predicted_class_and_accuracy :
  (forall (scores : list (list Q)) (c : nat),
     np.argmax scores = Ret c ->
     exists m,
       concat scores !! c = Some m
       /\ (forall j x, concat scores !! j = Some x -> (x <= m)%Q)
       /\ (forall j x, j < c -> concat scores !! j = Some x -> (x < m)%Q))
  /\ (forall (n_examples n_print_examples : nat) (request_url : string)
             (seed : Z) (dataset : string) (use_graphpipe : bool)
             (emnist_folder_path : string) (w w' : world env)
             (durations : list Q) (data : emnist) (N : nat)
             (labels : list Z),
        load_emnist emnist_folder_path false w = (Ret data, w) ->
        (select_split dataset data).2 = PyArray (matrix N 1 labels) ->
        eval_serving_performance n_examples n_print_examples request_url seed
          dataset use_graphpipe emnist_folder_path w = (Ret durations, w') ->
        exists (inds : list nat) (results : list (nat * Z)),
          sampled_indices emnist_folder_path dataset seed n_examples w
          = Ret inds
          /\ length results = n_examples
          /\ (forall i idx predicted label,
                inds !! i = Some idx ->
                results !! i = Some (predicted, label) ->
                labels !! idx = Some label
                /\ exists flat scores,
                     flatten_image (select_split dataset data).1 idx
                     = Ret flat
                     /\ reply_scores env use_graphpipe request_url
                          (length (sent w) + i) flat = Ret scores
                     /\ np.argmax scores = Ret predicted)
          /\ 0 < n_examples
          /\ last (stdout w')
             = Some (PrintAccuracy n_examples
                       (inject_Z (Z.of_nat (count_hits results))
                        / inject_Z (Z.of_nat n_examples))%Q)).
Proof.
  split; [exact argmax_spec|].
  intros n n_print url seed dataset g folder w w' ds data N labels Hload Hy H.
  apply (eval_serving_performance_samples _ _ _ _ _ _ _ _ _ _ _ Hload) in H
    as (inds & results & Hsam & Hlen & Hn & Hres & Hlast).
  exists inds, results. split_and!; try done.
  - apply Forall2_length in Hres.
    rewrite length_zip, length_seq in Hres. lia.
  - intros i idx pred label Hidx Hr.
    assert (Hki : zip (seq (length (sent w)) n) inds !! i
                  = Some (length (sent w) + i, idx)).
    { apply lookup_zip_with_Some. exists (length (sent w) + i), idx.
      split_and!; [done | | done].
      apply lookup_seq. split; [done|]. apply lookup_lt_Some in Hidx. lia. }
    destruct (Forall2_lookup_lr _ _ _ _ _ _ Hres Hki Hr)
      as (flat & scores & Hflat & Hsc & Hpred & Hlab).
    cbn [fst snd] in *. rewrite Hy in Hlab.
    apply label_item_matrix_inv in Hlab. split; [done|]. by exists flat, scores.
Qed.

(** ** The evaluator runs to its end, or to the first failure *)

Lemma label_char_is_Some (l : Z) : (0 <= l < 62)%Z -> is_Some (label_char l).
Proof. intros Hl. unfold label_char. repeat case_match; try by eexists. lia. lia. Qed.

Lemma label_item_matrix (N : nat) (labels : list Z) (i : nat) (l : Z) :
  labels !! i = Some l -> i < N ->
  label_item (PyArray (matrix N 1 labels)) i 0 = Ret l
  /\ label_at (PyArray (matrix N 1 labels)) [i; 0] = Ret l.
Proof.
  intros Hl Hi. split.
  - unfold label_item, py_getitem, np.index0.
    cbn [matrix np.shape np.strides np.buffer].
    replace (i <? N) with true by (symmetry; by apply Nat.ltb_lt).
    cbn [mbind outcome_bind np.shape np.strides np.buffer Nat.ltb Nat.leb
         label_at]. unfold np.getitem.
    cbn [np.shape np.strides np.buffer np.in_bounds np.offset of_option].
    rewrite Nat.mul_0_l, drop_0, lookup_drop, Nat.mul_1_r, Nat.add_0_r.
    by rewrite Hl.
  - unfold label_at, np.getitem.
    cbn [matrix np.shape np.strides np.buffer np.in_bounds np.offset].
    replace (i <? N) with true by (symmetry; by apply Nat.ltb_lt).
    cbn [Nat.ltb Nat.leb andb].
    replace (i * 1 + (0 * N + 0)) with i by lia. by rewrite Hl.
Qed.

Lemma argmax_lt (scores : list (list Q)) :
  np.rectangular scores = true -> 0 < length (concat scores) ->
  exists c, np.argmax scores = Ret c /\ c < length (concat scores).
Proof.
  intros Hrect Hlen. destruct (np.argmax scores) as [c|e|] eqn:Hc.
  - exists c. split; [done|].
    apply argmax_spec in Hc as (m & Hm & _). by eapply lookup_lt_Some.
  - unfold np.argmax in Hc. rewrite Hrect in Hc.
    destruct (concat scores); [cbn in Hlen; lia|done].
  - unfold np.argmax in Hc. rewrite Hrect in Hc.
    destruct (concat scores); done.
Qed.

Section Returns.

Variables (n_print : nat) (url dataset : string) (g : bool) (data : emnist).
Variables (N : nat) (labels : list Z).

Let x := (select_split dataset data).1.

Hypothesis Hsh : np.shape x = [N; 28; 28].
Hypothesis Hx : readable x.
Hypothesis Hy : (select_split dataset data).2 = PyArray (matrix N 1 labels).
Hypothesis Hlen : length labels = N.
Hypothesis Hlabels : Forall (fun l => 0 <= l < 62)%Z labels.

Lemma query_returns (flat : np.ndarray Q) (w : world env) :
  np.shape flat = [1; 784] -> readable flat ->
  classified env g url (length (sent w)) ->
  exists start scores w',
    query g url flat w = (Ret (start, scores), w')
    /\ class_scores scores.
Proof.
  intros Hfsh Hfr Hsrv. unfold query. unfold classified in Hsrv.
  destruct g; cbn [negb].
  - rewrite bind_run. cbn [time_time]. rewrite bind_run.
    unfold remote_execute. cbn [sent].
    destruct (Hsrv flat) as (scores & -> & Hsc).
    by eexists _, scores, _.
  - rewrite bind_run. cbn [time_time]. rewrite lift_bind_run.
    destruct (tolist2_readable flat 1 784 Hfr Hfsh) as (rows & -> & _).
    rewrite bind_run. unfold requests_post_predictions. cbn [sent].
    destruct (Hsrv rows) as (scores & -> & Hsc).
    by eexists _, scores, _.
Qed.

Lemma query_fails (flat : np.ndarray Q) (w : world env) (e : exn) :
  np.shape flat = [1; 784] -> readable flat ->
  request_fails env g url (length (sent w)) e ->
  exists p,
    query g url flat w
    = (Raise e, mk_world (fs w) (S (ticks w)) (rng w) (sent w ++ [(url, p)])
                         (stdout w)).
Proof.
  intros Hfsh Hfr Hsrv. unfold query. unfold request_fails in Hsrv.
  destruct g; cbn [negb].
  - rewrite bind_run. cbn [time_time]. rewrite bind_run.
    unfold remote_execute. cbn [sent fs ticks rng stdout].
    rewrite (Hsrv flat). by eexists.
  - rewrite bind_run. cbn [time_time]. rewrite lift_bind_run.
    destruct (tolist2_readable flat 1 784 Hfr Hfsh) as (rows & -> & _).
    rewrite bind_run. unfold requests_post_predictions.
    cbn [sent fs ticks rng stdout].
    destruct (Hsrv rows) as [-> | [-> ->]]; by eexists.
Qed.

Lemma flatten_readable (i : nat) :
  i < N ->
  exists img flat,
    np.index0 x i = Ret img
    /\ np.reshape img [1; 784] np.order_C = Ret flat
    /\ np.shape flat = [1; 784] /\ readable flat.
Proof.
  intros Hi.
  destruct (index0_readable x N i [28; 28] Hx Hsh Hi)
    as (img & Himg & Hish & Hir).
  destruct (reshape_readable img [1; 784] np.order_C Hir)
    as (flat & Hflat & Hfsh & Hfr); [by rewrite Hish|].
  by exists img, flat.
Qed.

Lemma eval_step_returns (idx i acc : nat) (ds : list Q) (w : world env) :
  i < N -> classified env g url (length (sent w)) ->
  exists acc' ds' w',
    eval_step n_print url dataset g data get_emnist_mapping x
      (select_split dataset data).2 idx i acc ds w
    = (Ret (acc', ds'), w').
Proof.
  intros Hi Hsrv. unfold eval_step.
  destruct (flatten_readable i Hi) as (img & flat & Himg & Hflat & Hfsh & Hfr).
  rewrite lift_bind_run, Himg. rewrite lift_bind_run, Hflat.
  rewrite bind_run.
  destruct (query_returns (np.map_elements (fun v => v / 255)%Q flat) w)
    as (start & scores & w1 & -> & Hsc);
    [exact Hfsh | by apply map_elements_readable | exact Hsrv |].
  rewrite bind_run. cbn [time_time].
  rewrite lift_bind_run.
  destruct Hsc as [Hrect Hsc].
  destruct (argmax_lt scores) as (pred & -> & Hpred); [done | lia |].
  destruct (lookup_lt_is_Some_2 labels i ltac:(lia)) as [l Hl].
  destruct (label_item_matrix N labels i l Hl Hi) as [Hitem Hat].
  rewrite lift_bind_run, Hy, Hitem.
  rewrite bind_run.
  destruct (idx <? n_print); [|by eexists _, _, _].
  rewrite bind_run, show_img_run. cbn zeta.
  assert (Hxy : (if decide (dataset = "train") then x_train data
                 else x_test data) = x
                /\ (if decide (dataset = "train") then y_train data
                    else y_test data) = PyArray (matrix N 1 labels)).
  { rewrite <- Hy. unfold x, select_split.
    by destruct (decide (dataset = "train")). }
  destruct Hxy as [-> ->]. rewrite Himg, Hat. cbn [mbind outcome_bind].
  rewrite mapping_lookup.
  destruct (label_char_is_Some l) as [c ->].
  { rewrite Forall_forall in Hlabels. apply Hlabels.
    by eapply list_elem_of_lookup_2. }
  cbn [of_option mbind outcome_bind]. rewrite lift_bind_run.
  rewrite mapping_lookup.
  destruct (label_char_is_Some (Z.of_nat pred)) as [c' ->]; [lia|].
  cbn [of_option]. by eexists _, _, _.
Qed.

Lemma eval_step_fails (idx i acc : nat) (ds : list Q) (w : world env)
  (e : exn) :
  i < N -> request_fails env g url (length (sent w)) e ->
  exists p,
    eval_step n_print url dataset g data get_emnist_mapping x
      (select_split dataset data).2 idx i acc ds w
    = (Raise e, mk_world (fs w) (S (ticks w)) (rng w) (sent w ++ [(url, p)])
                         (stdout w)).
Proof.
  intros Hi Hsrv. unfold eval_step.
  destruct (flatten_readable i Hi) as (img & flat & Himg & Hflat & Hfsh & Hfr).
  rewrite lift_bind_run, Himg. rewrite lift_bind_run, Hflat.
  rewrite bind_run.
  destruct (query_fails (np.map_elements (fun v => v / 255)%Q flat) w e)
    as (p & ->);
    [exact Hfsh | by apply map_elements_readable | exact Hsrv |].
  by exists p.
Qed.

Lemma eval_loop_returns (inds : list nat) :
  Forall (fun i => i < N) inds ->
  forall (idx acc : nat) (ds : list Q) (w : world env),
    (forall k, k < length inds ->
       classified env g url (length (sent w) + k)) ->
    exists acc' ds' w',
      eval_loop n_print url dataset g data get_emnist_mapping x
        (select_split dataset data).2 idx inds acc ds w
      = (Ret (acc', ds'), w').
Proof.
  induction 1 as [|i inds Hi _ IH]; intros idx acc ds w Hsrv.
  - by eexists _, _, _.
  - cbn [eval_loop]. rewrite bind_run.
    destruct (eval_step_returns idx i acc ds w Hi) as (acc1 & ds1 & w1 & Hs).
    { specialize (Hsrv 0 ltac:(cbn; lia)). by rewrite Nat.add_0_r in Hsrv. }
    rewrite Hs. apply eval_step_ret in Hs as (p & out & _ & _ & ->).
    apply IH. intros k Hk. cbn [sent]. rewrite length_app. cbn [length].
    replace (length (sent w) + 1 + k) with (length (sent w) + S k) by lia.
    apply Hsrv. cbn [length]. lia.
Qed.

Lemma eval_loop_fails (pre : list nat) (i : nat) (post : list nat) (e : exn) :
  Forall (fun i => i < N) pre -> i < N ->
  forall (idx acc : nat) (ds : list Q) (w : world env),
    (forall k, k < length pre ->
       classified env g url (length (sent w) + k)) ->
    request_fails env g url (length (sent w) + length pre) e ->
    exists w',
      eval_loop n_print url dataset g data get_emnist_mapping x
        (select_split dataset data).2 idx (pre ++ i :: post) acc ds w
      = (Raise e, w')
      /\ fs w' = fs w
      /\ length (sent w') = length (sent w) + length pre + 1
      /\ ticks w' = ticks w + 2 * length pre + 1.
Proof.
  intros Hpre Hi. induction Hpre as [|i0 pre Hi0 _ IH];
    intros idx acc ds w Hsrv Hfail.
  - cbn [app eval_loop length] in *. rewrite bind_run.
    rewrite Nat.add_0_r in Hfail.
    destruct (eval_step_fails idx i acc ds w e Hi Hfail) as (p & ->).
    eexists. split; [reflexivity|]. cbn [fs sent ticks].
    rewrite length_app. cbn [length]. split_and!; [done | lia | lia].
  - cbn [app eval_loop]. rewrite bind_run.
    destruct (eval_step_returns idx i0 acc ds w Hi0) as (acc1 & ds1 & w1 & Hs).
    { specialize (Hsrv 0 ltac:(cbn; lia)). by rewrite Nat.add_0_r in Hsrv. }
    rewrite Hs. apply eval_step_ret in Hs as (p & out & _ & _ & ->).
    destruct (IH (S idx) acc1 ds1
                (mk_world (fs w) (S (S (ticks w))) (rng w)
                          (sent w ++ [(url, p)]) (stdout w ++ out)))
      as (w' & -> & Hfs & Hsent & Hticks).
    + intros k Hk. cbn [sent]. rewrite length_app. cbn [length].
      replace (length (sent w) + 1 + k) with (length (sent w) + S k) by lia.
      apply Hsrv. cbn [length]. lia.
    + cbn [sent]. rewrite length_app. cbn [length] in *.
      by replace (length (sent w) + 1 + length pre)
        with (length (sent w) + S (length pre)) by lia.
    + exists w'. split; [reflexivity|].
      cbn [fs sent ticks length] in *. rewrite length_app in Hsent.
      cbn [length] in Hsent. split_and!; [done | lia | lia].
Qed.

Lemma argmax_unclassifiable (scores : list (list Q)) :
  unclassifiable scores -> exists msg, np.argmax scores = Raise (ValueError msg).
Proof.
  unfold np.argmax. intros [Hr | Hc].
  - rewrite Hr. by eexists.
  - rewrite Hc. destruct (np.rectangular scores); by eexists.
Qed.

Lemma query_unclassifiable (flat : np.ndarray Q) (w : world env) :
  np.shape flat = [1; 784] -> readable flat ->
  answered_unclassifiably env g url (length (sent w)) ->
  exists start scores p,
    query g url flat w
    = (Ret (start, scores),
       mk_world (fs w) (S (ticks w)) (rng w) (sent w ++ [(url, p)])
                (stdout w))
    /\ unclassifiable scores.
Proof.
  intros Hfsh Hfr Hsrv. unfold query.
  unfold answered_unclassifiably in Hsrv. destruct g; cbn [negb].
  - rewrite bind_run. cbn [time_time]. rewrite bind_run.
    unfold remote_execute. cbn [sent fs ticks rng stdout].
    destruct (Hsrv flat) as (scores & -> & Hsc).
    by eexists _, scores, _.
  - rewrite bind_run. cbn [time_time]. rewrite lift_bind_run.
    destruct (tolist2_readable flat 1 784 Hfr Hfsh) as (rows & -> & _).
    rewrite bind_run. unfold requests_post_predictions.
    cbn [sent fs ticks rng stdout].
    destruct (Hsrv rows) as (scores & -> & Hsc).
    by eexists _, scores, _.
Qed.

Lemma eval_step_unclassifiable (idx i acc : nat) (ds : list Q)
  (w : world env) :
  i < N -> answered_unclassifiably env g url (length (sent w)) ->
  exists msg p,
    eval_step n_print url dataset g data get_emnist_mapping x
      (select_split dataset data).2 idx i acc ds w
    = (Raise (ValueError msg),
       mk_world (fs w) (S (S (ticks w))) (rng w) (sent w ++ [(url, p)])
                (stdout w)).
Proof.
  intros Hi Hsrv. unfold eval_step.
  destruct (flatten_readable i Hi) as (img & flat & Himg & Hflat & Hfsh & Hfr).
  rewrite lift_bind_run, Himg. rewrite lift_bind_run, Hflat.
  rewrite bind_run.
  destruct (query_unclassifiable (np.map_elements (fun v => v / 255)%Q flat) w)
    as (start & scores & p & -> & Hsc);
    [exact Hfsh | by apply map_elements_readable | exact Hsrv |].
  rewrite bind_run. cbn [time_time fs ticks rng sent stdout].
  rewrite lift_bind_run.
  destruct (argmax_unclassifiable scores Hsc) as [msg ->].
  by exists msg, p.
Qed.

Lemma eval_loop_unclassifiable (pre : list nat) (i : nat) (post : list nat) :
  Forall (fun i => i < N) pre -> i < N ->
  forall (idx acc : nat) (ds : list Q) (w : world env),
    (forall k, k < length pre ->
       classified env g url (length (sent w) + k)) ->
    answered_unclassifiably env g url (length (sent w) + length pre) ->
    exists msg w',
      eval_loop n_print url dataset g data get_emnist_mapping x
        (select_split dataset data).2 idx (pre ++ i :: post) acc ds w
      = (Raise (ValueError msg), w')
      /\ fs w' = fs w
      /\ length (sent w') = length (sent w) + length pre + 1
      /\ ticks w' = ticks w + 2 * length pre + 2.
Proof.
  intros Hpre Hi. induction Hpre as [|i0 pre Hi0 _ IH];
    intros idx acc ds w Hsrv Hfail.
  - cbn [app eval_loop length] in *. rewrite bind_run.
    rewrite Nat.add_0_r in Hfail.
    destruct (eval_step_unclassifiable idx i acc ds w Hi Hfail)
      as (msg & p & ->).
    eexists msg, _. split; [reflexivity|]. cbn [fs sent ticks].
    rewrite length_app. cbn [length]. split_and!; [done | lia | lia].
  - cbn [app eval_loop]. rewrite bind_run.
    destruct (eval_step_returns idx i0 acc ds w Hi0) as (acc1 & ds1 & w1 & Hs).
    { specialize (Hsrv 0 ltac:(cbn; lia)). by rewrite Nat.add_0_r in Hsrv. }
    rewrite Hs. apply eval_step_ret in Hs as (p & out & _ & _ & ->).
    destruct (IH (S idx) acc1 ds1
                (mk_world (fs w) (S (S (ticks w))) (rng w)
                          (sent w ++ [(url, p)]) (stdout w ++ out)))
      as (msg & w' & -> & Hfs & Hsent & Hticks).
    + intros k Hk. cbn [sent]. rewrite length_app. cbn [length].
      replace (length (sent w) + 1 + k) with (length (sent w) + S k) by lia.
      apply Hsrv. cbn [length]. lia.
    + cbn [sent]. rewrite length_app. cbn [length] in *.
      by replace (length (sent w) + 1 + length pre)
        with (length (sent w) + S (length pre)) by lia.
    + exists msg, w'. split; [reflexivity|].
      cbn [fs sent ticks length] in *. rewrite length_app in Hsent.
      cbn [length] in Hsent. split_and!; [done | lia | lia].
Qed.

End Returns.

(** The evaluator up to its loop: the data is loaded, the generator seeded
    and the indices drawn. *)
Lemma evaluator_reaches_the_loop (n n_print : nat) (url : string) (seed : Z)
  (dataset : string) (g : bool) (folder : string) (w : world env)
  (data : emnist) (N : nat) :
  load_emnist folder false w = (Ret data, w) ->
  np.shape (select_split dataset data).1 = [N; 28; 28] ->
  (0 <= seed < 2 ^ 32)%Z -> 0 < n <= N ->
  exists (inds : list nat) (s : rng_state env),
    length inds = n /\ Forall (fun i => i < N) inds
    /\ eval_serving_performance n n_print url seed dataset g folder w
       = ('(acc, durations) ←
            eval_loop n_print url dataset g data get_emnist_mapping
              (select_split dataset data).1 (select_split dataset data).2
              0 inds 0 [];
          accuracy ← lift (truediv (inject_Z (Z.of_nat acc))
                                   (inject_Z (Z.of_nat n)));
          emit (PrintAccuracy n accuracy);;
          mret durations)
         (mk_world (fs w) (ticks w) s (sent w) (stdout w)).
Proof.
  intros Hload Hsh Hseed Hn.
  unfold eval_serving_performance. rewrite bind_run, Hload.
  destruct (select_split dataset data) as [x y]. cbn [fst snd] in *.
  assert (Hdraw : exists inds, drawn_indices env seed x n = Ret inds).
  { unfold drawn_indices, shape0. rewrite (seed_valid _ Hseed), Hsh.
    cbn [lookup list_lookup of_option mbind outcome_bind].
    replace (N =? 0) with false by (symmetry; apply Nat.eqb_neq; lia).
    replace (N <? n) with false by (symmetry; apply Nat.ltb_ge; lia).
    by eexists. }
  destruct Hdraw as [inds Hdraw].
  destruct (draw_eval_indices_state seed x n inds w Hdraw) as (N1 & HN1 & Hd).
  apply drawn_indices_spec in Hdraw as (N2 & HN2 & Hlen & _ & Hlt).
  assert (N2 = N) as ->.
  { unfold shape0 in HN2. rewrite Hsh in HN2. by injection HN2. }
  exists inds, (shuffle_from (N1 - 1) (seq 0 N1) (seed_state env seed)).2.
  split; [exact Hlen|]. split; [by apply Forall_forall|].
  rewrite bind_run, Hd. reflexivity.
Qed.

(** X7. The evaluator returns: when the data has loaded, the labels of the
    split are a column of class indices 0..61 with one row per image, the
    seed is valid, between 1 and N examples are asked for and the service
    answers every request with rows of one length that hold the scores of 1
    to 62 classes in all, the run ends with the list of the [n_examples]
    latencies, whatever [n_print_examples] is. *)
Theorem evaluator_returns_the_latencies (n_examples n_print_examples : nat)
  (request_url : string) (seed : Z) (dataset : string) (use_graphpipe : bool)
  (emnist_folder_path : string) (w : world env) (data : emnist) (N : nat)
  (labels : list Z) :
  load_emnist emnist_folder_path false w = (Ret data, w) ->
  np.shape (select_split dataset data).1 = [N; 28; 28] ->
  (select_split dataset data).2 = PyArray (matrix N 1 labels) ->
  length labels = N ->
  Forall (fun l => 0 <= l < 62)%Z labels ->
  service_classifies env use_graphpipe request_url ->
  (0 <= seed < 2 ^ 32)%Z ->
  0 < n_examples <= N ->
  exists w',
    eval_serving_performance n_examples n_print_examples request_url seed
      dataset use_graphpipe emnist_folder_path w
    = (Ret (recorded_latency env (ticks w) <$> seq 0 n_examples), w').
Proof.
  intros Hload Hsh Hy Hlen Hlabels Hsrv Hseed Hn.
  destruct (load_emnist_readable emnist_folder_path w data dataset Hload)
    as (N' & Hsh' & Hx).
  assert (Hrun : exists ds w',
    eval_serving_performance n_examples n_print_examples request_url seed
      dataset use_graphpipe emnist_folder_path w = (Ret ds, w')).
  { destruct (evaluator_reaches_the_loop n_examples n_print_examples
                request_url seed dataset use_graphpipe emnist_folder_path w
                data N Hload Hsh Hseed Hn) as (inds & s & _ & Hlt & ->).
    rewrite bind_run.
    destruct (eval_loop_returns n_print_examples request_url dataset
                use_graphpipe data N labels Hsh Hx Hy Hlen Hlabels inds Hlt
                0 0 [] (mk_world (fs w) (ticks w) s (sent w) (stdout w)))
      as (acc & ds & w1 & ->); [intros k _; apply Hsrv|].
    rewrite lift_bind_run. unfold truediv.
    replace (Qeq_bool (inject_Z (Z.of_nat n_examples)) 0) with false.
    - rewrite bind_run. unfold emit. by eexists _, _.
    - symmetry. apply not_true_is_false. intros H.
      apply Qeq_bool_iff in H. change 0%Q with (inject_Z 0) in H.
      assert (Z.of_nat n_examples = 0%Z) by (by apply inject_Z_injective).
      lia. }
  destruct Hrun as (ds & w' & Hrun). exists w'. rewrite Hrun.
  apply eval_serving_performance_ret in Hrun
    as (_ & _ & _ & _ & _ & _ & _ & _ & _ & -> & _).
  reflexivity.
Qed.

(** X8. The evaluator does not catch a failure of the service and does not
    retry: when the first [j] requests are answered with scores that make a
    class (rows of one length, 1 to 62 scores in all) and the next one fails
    with an exception (or, over HTTP, its answer lacks the "predictions"
    field, a [KeyError]), the run ends with that exception after [j + 1]
    requests and [2 * j + 1] clock readings; the latencies measured so far
    are not returned. *)
Theorem evaluator_stops_at_the_first_failed_request (n_examples
  n_print_examples : nat) (request_url : string) (seed : Z) (dataset : string)
  (use_graphpipe : bool) (emnist_folder_path : string) (w : world env)
  (data : emnist) (N : nat) (labels : list Z) (j : nat) (e : exn) :
  load_emnist emnist_folder_path false w = (Ret data, w) ->
  np.shape (select_split dataset data).1 = [N; 28; 28] ->
  (select_split dataset data).2 = PyArray (matrix N 1 labels) ->
  length labels = N ->
  Forall (fun l => 0 <= l < 62)%Z labels ->
  (0 <= seed < 2 ^ 32)%Z ->
  n_examples <= N -> j < n_examples ->
  (forall k, k < j ->
     classified env use_graphpipe request_url (length (sent w) + k)) ->
  request_fails env use_graphpipe request_url (length (sent w) + j) e ->
  exists w',
    eval_serving_performance n_examples n_print_examples request_url seed
      dataset use_graphpipe emnist_folder_path w = (Raise e, w')
    /\ fs w' = fs w
    /\ length (sent w') = length (sent w) + j + 1
    /\ ticks w' = ticks w + 2 * j + 1.
Proof.
  intros Hload Hsh Hy Hlen Hlabels Hseed Hn Hj Hsrv Hfail.
  destruct (load_emnist_readable emnist_folder_path w data dataset Hload)
    as (N' & Hsh' & Hx).
  destruct (evaluator_reaches_the_loop n_examples n_print_examples
              request_url seed dataset use_graphpipe emnist_folder_path w
              data N Hload Hsh Hseed ltac:(lia)) as (inds & s & Hinds & Hlt & ->).
  destruct (lookup_lt_is_Some_2 inds j ltac:(lia)) as [i Hi].
  rewrite <- (take_drop_middle inds j i Hi) in Hlt |- *.
  apply Forall_app in Hlt as [Hpre Hrest].
  apply Forall_cons in Hrest as [Hi' _].
  assert (Hlpre : length (take j inds) = j) by (rewrite length_take; lia).
  rewrite bind_run.
  destruct (eval_loop_fails n_print_examples request_url dataset
              use_graphpipe data N labels Hsh Hx Hy Hlen Hlabels
              (take j inds) i (drop (S j) inds) e Hpre Hi' 0 0 []
              (mk_world (fs w) (ticks w) s (sent w) (stdout w)))
    as (w' & -> & Hfs & Hsent & Hticks).
  - intros k Hk. cbn [sent]. apply Hsrv. lia.
  - cbn [sent]. by rewrite Hlpre.
  - exists w'. split; [reflexivity|]. cbn [fs sent ticks] in *.
    rewrite Hlpre in *. done.
Qed.

(** ** What the throughput driver sends and changes *)

(** X20. An answer that [np.argmax] does not take ends the run. When the
    first [j] requests are answered with scores that make a class and the
    next one is answered with rows of different lengths, or with no score
    at all, the run ends with a [ValueError] after [j + 1] requests and
    [2 * j + 2] clock readings: the answer is not checked before [np.argmax]
    is applied to it, and the latencies measured so far, that of the last
    request included, are not returned. *)
Theorem evaluator_stops_at_an_answer_without_a_class (n_examples
  n_print_examples : nat) (request_url : string) (seed : Z) (dataset : string)
  (use_graphpipe : bool) (emnist_folder_path : string) (w : world env)
  (data : emnist) (N : nat) (labels : list Z) (j : nat) :
  load_emnist emnist_folder_path false w = (Ret data, w) ->
  np.shape (select_split dataset data).1 = [N; 28; 28] ->
  (select_split dataset data).2 = PyArray (matrix N 1 labels) ->
  length labels = N ->
  Forall (fun l => 0 <= l < 62)%Z labels ->
  (0 <= seed < 2 ^ 32)%Z ->
  n_examples <= N -> j < n_examples ->
  (forall k, k < j ->
     classified env use_graphpipe request_url (length (sent w) + k)) ->
  answered_unclassifiably env use_graphpipe request_url
    (length (sent w) + j) ->
  exists msg w',
    eval_serving_performance n_examples n_print_examples request_url seed
      dataset use_graphpipe emnist_folder_path w
    = (Raise (ValueError msg), w')
    /\ fs w' = fs w
    /\ length (sent w') = length (sent w) + j + 1
    /\ ticks w' = ticks w + 2 * j + 2.
Proof.
  intros Hload Hsh Hy Hlen Hlabels Hseed Hn Hj Hsrv Hfail.
  destruct (load_emnist_readable emnist_folder_path w data dataset Hload)
    as (N' & Hsh' & Hx).
  destruct (evaluator_reaches_the_loop n_examples n_print_examples
              request_url seed dataset use_graphpipe emnist_folder_path w
              data N Hload Hsh Hseed ltac:(lia)) as (inds & s & Hinds & Hlt & ->).
  destruct (lookup_lt_is_Some_2 inds j ltac:(lia)) as [i Hi].
  rewrite <- (take_drop_middle inds j i Hi) in Hlt |- *.
  apply Forall_app in Hlt as [Hpre Hrest].
  apply Forall_cons in Hrest as [Hi' _].
  assert (Hlpre : length (take j inds) = j) by (rewrite length_take; lia).
  rewrite bind_run.
  destruct (eval_loop_unclassifiable n_print_examples request_url dataset
              use_graphpipe data N labels Hsh Hx Hy Hlen Hlabels
              (take j inds) i (drop (S j) inds) Hpre Hi' 0 0 []
              (mk_world (fs w) (ticks w) s (sent w) (stdout w)))
    as (msg & w' & -> & Hfs & Hsent & Hticks).
  - intros k Hk. cbn [sent]. apply Hsrv. lia.
  - cbn [sent]. by rewrite Hlpre.
  - exists msg, w'. split; [reflexivity|]. cbn [fs sent ticks] in *.
    rewrite Hlpre in *. done.
Qed.

(** X9. A run of [eval_throughput] that returns has left the file system
    and the random generator as they were, and it has neither printed nor
    shown anything: [print] and [matplotlib] are not called (what the run
    writes are records of the [logging] module, which are not modelled). It
    only sent requests, all of them to [request_url], and read the clock
    once per request and twice more. *)
Theorem throughput_only_reads_the_clock_and_sends (fuel : nat) (duration : Q)
  (request_url : string) (batch_size : Z) (dataset : string)
  (use_graphpipe : bool) (emnist_folder_path : string) (w w' : world env)
  (num_reqs : Z) (reqs_per_second : Q) :
  eval_throughput fuel duration request_url batch_size dataset use_graphpipe
    emnist_folder_path w = (Ret (num_reqs, reqs_per_second), w') ->
  fs w' = fs w /\ rng w' = rng w /\ stdout w' = stdout w
  /\ exists requests,
       sent w' = sent w ++ requests
       /\ Forall (fun p => p.1 = request_url) requests
       /\ ticks w' = ticks w + length requests + 2.
Proof.
  intros H.
  apply eval_throughput_ret in H
    as (data & N & k & ps & _ & _ & _ & _ & _ & _ & _ & Hlen & Hps & ->).
  cbn [fs rng stdout sent ticks]. split_and!; try done.
  exists ps. split_and!; [done | | by rewrite Hlen].
  apply Forall_lookup. intros i p Hp. by apply Hps in Hp as [? _].
Qed.

Lemma throughput_data_pixels (x d : np.ndarray Q) (N : nat) :
  np.shape x = [N; 28; 28] ->
  np.reshape_infer x [1; 28 * 28] = Ret d ->
  np.shape d = [N; 1; 28 * 28] /\ readable d
  /\ forall n r c, n < N -> r < 28 -> c < 28 ->
       np.getitem d [n; 0; 28 * r + c] = np.getitem x [n; r; c].
Proof.
  intros Hsh. unfold np.reshape_infer. rewrite Hsh, infer_dim_images.
  cbn [mbind outcome_bind]. intros Hd.
  pose proof (reshape_ret_readable _ _ _ _ Hd) as [Hdsh Hdr].
  split; [exact Hdsh|]. split; [exact Hdr|].
  intros n r c Hn Hr Hc.
  unfold np.reshape in Hd. destruct (_ =? _); [|discriminate].
  cbn [np.resolve_order] in Hd.
  destruct (np.ravel np.order_C x) as [l|] eqn:Hl; [|discriminate].
  injection Hd as <-. unfold np.getitem at 1.
  cbn [np.shape np.strides np.buffer np.in_bounds np.fresh_strides
       np.c_strides np.offset].
  replace (n <? N) with true by (symmetry; by apply Nat.ltb_lt).
  change (0 <? 1) with true. change (28 * 28) with 784.
  replace (28 * r + c <? 784) with true
    by (symmetry; apply Nat.ltb_lt; lia).
  cbn [andb]. change (np.size [1; 784]) with 784.
  change (np.size [784]) with 784. change (np.size []) with 1.
  replace (n * 784 + (0 * 784 + ((28 * r + c) * 1 + 0)))
    with (n * 784 + (r * 28 + c)) by lia.
  apply (ravel_C_lookup _ _ _ _ Hl). rewrite Hsh.
  by apply c_indices_images_lookup.
Qed.

Lemma post_batch_content (url : string) (data : np.ndarray Q) (N : nat)
  (b n : Z) (w w' : world env) :
  np.shape data = [N; 1; 28 * 28] -> readable data ->
  post_batch url data b n w = (Ret tt, w') ->
  exists p,
    w' = log_request w (url, p)
    /\ forall m k, m < batch_rows N b n -> k < 784 ->
         payload_entry p m k = np.getitem data [slice_bound N n + m; 0; k].
Proof.
  intros Hsh Hd. unfold post_batch.
  destruct (slice0_readable data N [1; 28 * 28] n (n + b) Hd Hsh)
    as (piece & -> & Hpsh & Hp & Hget).
  rewrite lift_bind_run. unfold np.reshape_infer. rewrite Hpsh.
  fold (batch_rows N b n) in *. set (M := batch_rows N b n) in *.
  change (np.size [M; 1; 28 * 28]) with (M * (1 * (784 * 1))).
  rewrite infer_dim_rows by done. cbn [mbind outcome_bind].
  destruct (np.reshape piece [M; 28 * 28] np.order_C) as [batch|e|] eqn:Hb;
    [|discriminate..].
  pose proof (reshape_ret_readable _ _ _ _ Hb) as [Hbsh Hbr].
  destruct (tolist2_readable batch M (28 * 28) Hbr Hbsh)
    as (rows & Htl & _ & Hrows).
  rewrite lift_bind_run. rewrite lift_bind_run, Htl. rewrite bind_run.
  unfold requests_post_predictions.
  destruct (post_reply env _ _ _) as [e|[pred|]]; [discriminate| |discriminate].
  intros [= <-]. exists (Instances rows). split; [reflexivity|].
  intros m k Hm Hk. cbn [payload_entry].
  rewrite Hrows by (done || change (28 * 28) with 784; lia).
  rewrite <- Hget by done.
  unfold np.reshape in Hb. destruct (_ =? _); [|discriminate].
  cbn [np.resolve_order] in Hb.
  destruct (np.ravel np.order_C piece) as [l|] eqn:Hl; [|discriminate].
  injection Hb as <-. unfold np.getitem at 1.
  cbn [np.shape np.strides np.buffer np.in_bounds np.fresh_strides
       np.c_strides np.offset].
  replace (m <? M) with true by (symmetry; by apply Nat.ltb_lt).
  change (28 * 28) with 784.
  replace (k <? 784) with true by (symmetry; apply Nat.ltb_lt; lia).
  cbn [andb]. change (np.size [784]) with 784.
  change (np.size []) with 1.
  replace (m * 784 + (k * 1 + 0)) with (m * 784 + k) by lia.
  apply (ravel_C_lookup _ _ _ _ Hl). rewrite Hpsh.
  by apply c_indices_rows_lookup.
Qed.

Lemma execute_batch_content (url : string) (data : np.ndarray Q) (N : nat)
  (b n : Z) (w w' : world env) :
  np.shape data = [N; 1; 28 * 28] -> readable data ->
  execute_batch url data b n w = (Ret tt, w') ->
  exists p,
    w' = log_request w (url, p)
    /\ forall m k, m < batch_rows N b n -> k < 784 ->
         payload_entry p m k = np.getitem data [slice_bound N n + m; 0; k].
Proof.
  intros Hsh Hd. unfold execute_batch.
  destruct (slice0_readable data N [1; 28 * 28] n (n + b) Hd Hsh)
    as (piece & -> & Hpsh & Hp & Hget).
  rewrite lift_bind_run, bind_run. unfold remote_execute.
  destruct (execute_reply env _ _ _) as [e|scores]; [discriminate|].
  intros [= <-]. exists (Tensor piece). split; [reflexivity|].
  intros m k Hm Hk. cbn [payload_entry]. rewrite Hpsh.
  by apply Hget.
Qed.

Lemma throughput_loop_payloads (request : Z -> M env unit) (url : string)
  (P : Z -> payload -> Prop) (end_time : Q) (b : Z) :
  (forall n w w', request n w = (Ret tt, w') ->
     exists p, w' = log_request w (url, p) /\ P n p) ->
  forall fuel n w n' w',
    throughput_loop fuel request end_time b n w = (Ret n', w') ->
    exists ps : list (string * payload),
      sent w' = sent w ++ ps
      /\ forall i p, ps !! i = Some p -> P (n + Z.of_nat i * b)%Z p.2.
Proof.
  intros Hreq. induction fuel as [|fuel IH]; intros n w n' w'; [discriminate|].
  cbn [throughput_loop]. rewrite bind_run. cbn [time_time].
  destruct (Qle_bool (wall_clock env (ticks w)) end_time) eqn:Hle.
  - rewrite bind_run.
    destruct (request n _) as [[[]|e|] w1] eqn:Hr; [|discriminate..].
    apply Hreq in Hr as (p & -> & Hp).
    intros H. apply IH in H as (ps & Hsent & Hps).
    cbn [log_request sent] in Hsent.
    exists ((url, p) :: ps). split; [by rewrite Hsent, <- app_assoc|].
    intros [|i] q Hq; cbn in Hq.
    + injection Hq as <-. cbn [snd].
      by replace (n + Z.of_nat 0 * b)%Z with n by lia.
    + apply Hps in Hq.
      by replace (n + Z.of_nat (S i) * b)%Z
        with (n + b + Z.of_nat i * b)%Z by lia.
  - intros [= <- <-]. exists []. split; [by rewrite app_nil_r|]. done.
Qed.

Lemma eval_throughput_rows (fuel : nat) (duration : Q) (url : string)
  (b : Z) (dataset : string) (g : bool) (folder : string) (w w' : world env)
  (num_reqs : Z) (rps : Q) :
  eval_throughput fuel duration url b dataset g folder w
  = (Ret (num_reqs, rps), w') ->
  exists (data : emnist) (N : nat) (ps : list (string * payload)),
    load_emnist folder false w = (Ret data, w)
    /\ np.shape (if decide (dataset = "train") then x_train data
                 else x_test data) = [N; 28; 28]
    /\ sent w' = sent w ++ ps
    /\ forall i p, ps !! i = Some p ->
         forall m r c,
           m < slice_bound N (Z.of_nat i * b + b)
               - slice_bound N (Z.of_nat i * b) ->
           r < 28 -> c < 28 ->
           payload_entry p.2 m (28 * r + c)
           = (fun v => v / 255)%Q
               <$> np.getitem (if decide (dataset = "train")
                               then x_train data else x_test data)
                     [slice_bound N (Z.of_nat i * b) + m; r; c].
Proof.
  intros Hrun. pose proof Hrun as Hrun'.
  apply eval_throughput_ret in Hrun'
    as (data & N & k & ps & Hload & Hsh & _ & _ & Hq & _ & _ & _ & _ & ->).
  clear Hq. exists data, N, ps.
  split; [done|]. split; [done|]. split; [done|].
  revert Hrun. unfold eval_throughput. rewrite bind_run, Hload.
  rewrite lift_bind_run.
  destruct (np.reshape_infer _ [1; 28 * 28]) as [d|e|] eqn:Hd;
    [|discriminate..].
  destruct (throughput_data_pixels _ _ _ Hsh Hd) as (Hdsh & Hdr & Hpix).
  set (data' := np.map_elements _ d).
  assert (Hsh' : np.shape data' = [N; 1; 28 * 28]) by exact Hdsh.
  assert (Hd' : readable data') by by apply map_elements_readable.
  set (P := fun (n : Z) (p : payload) =>
    forall m k, m < batch_rows N b n -> k < 784 ->
      payload_entry p m k = np.getitem data' [slice_bound N n + m; 0; k]).
  assert (Hloop : forall (request : Z -> M env unit) w0 n' w1,
    (forall n w w', request n w = (Ret tt, w') ->
       exists p, w' = log_request w (url, p) /\ P n p) ->
    throughput_loop fuel request
      (wall_clock env (ticks w) + duration)%Q b 0%Z w0 = (Ret n', w1) ->
    exists qs, sent w1 = sent w0 ++ qs
      /\ forall i p, qs !! i = Some p -> P (Z.of_nat i * b)%Z p.2).
  { intros request w0 n' w1 Hreq Hl.
    eapply throughput_loop_payloads in Hl as (qs & Hsent & Hqs); [|exact Hreq].
    exists qs. split; [done|]. intros i p Hp. apply Hqs in Hp.
    by replace (0 + Z.of_nat i * b)%Z
      with (Z.of_nat i * b)%Z in Hp by lia. }
  assert (Hfinal : forall qs,
    sent w ++ qs = sent w ++ ps ->
    (forall i p, qs !! i = Some p -> P (Z.of_nat i * b)%Z p.2) ->
    forall i p, ps !! i = Some p ->
      forall m r c,
        m < slice_bound N (Z.of_nat i * b + b)
            - slice_bound N (Z.of_nat i * b) ->
        r < 28 -> c < 28 ->
        payload_entry p.2 m (28 * r + c)
        = (fun v => v / 255)%Q
            <$> np.getitem (if decide (dataset = "train") then x_train data
                            else x_test data)
                  [slice_bound N (Z.of_nat i * b) + m; r; c]).
  { intros qs Hqs%app_inv_head HP i p Hp m r c Hm Hr Hc. subst qs.
    rewrite (HP i p Hp m (28 * r + c)) by (done || lia).
    unfold data'. rewrite getitem_map_elements. f_equal.
    apply Hpix; [|done..].
    pose proof (slice_bound_le N (Z.of_nat i * b + b)).
    lia. }
  destruct g; cbn [negb]; rewrite bind_run, bind_run;
    cbn [time_time];
    (destruct (throughput_loop _ _ _ _ _ _) as [[n'|e|] w1] eqn:Hl;
       [|discriminate..]);
    rewrite lift_bind_run;
    (destruct (truediv _ _) as [q|e|]; [|discriminate..]);
    intros Hw; apply (f_equal snd) in Hw; apply (f_equal sent) in Hw;
    cbn [snd sent] in Hw;
    eapply Hloop in Hl as (qs & Hsent & Hqs).
  - eapply Hfinal; [|exact Hqs]. cbn [sent] in Hsent.
    rewrite <- Hsent. exact Hw.
  - intros n w0 w0'. by apply execute_batch_content.
  - eapply Hfinal; [|exact Hqs]. cbn [sent] in Hsent.
    rewrite <- Hsent. exact Hw.
  - intros n w0 w0'. by apply post_batch_content.
Qed.

(** X10. In a run of [eval_throughput] that returns, request [i] carries
    the rows of the split from [i * batch_size] up to
    [(i + 1) * batch_size] (as Python slices them), each flattened row by
    row and scaled: entry [28 * r + c] of the example at position [m] is the
    pixel at row [r] and column [c] of image [first + m] divided by 255. *)
Theorem throughput_sends_consecutive_rows (fuel : nat) (duration : Q)
  (request_url : string) (batch_size : Z) (dataset : string)
  (use_graphpipe : bool) (emnist_folder_path : string) (w w' : world env)
  (num_reqs : Z) (reqs_per_second : Q) :
  eval_throughput fuel duration request_url batch_size dataset use_graphpipe
    emnist_folder_path w = (Ret (num_reqs, reqs_per_second), w') ->
  exists (data : emnist) (N : nat) (requests : list (string * payload)),
    load_emnist emnist_folder_path false w = (Ret data, w)
    /\ np.shape (select_split dataset data).1 = [N; 28; 28]
    /\ sent w' = sent w ++ requests
    /\ forall i p,
         requests !! i = Some p ->
         let first := slice_bound N (Z.of_nat i * batch_size) in
         let stop := slice_bound N (Z.of_nat i * batch_size + batch_size) in
         forall m r c, m < stop - first -> r < 28 -> c < 28 ->
           payload_entry p.2 m (28 * r + c)
           = (fun v => v / 255)%Q
               <$> np.getitem (select_split dataset data).1 [first + m; r; c].
Proof.
  intros Hrun.
  destruct (eval_throughput_rows _ _ _ _ _ _ _ _ _ _ _ Hrun)
    as (data & N & ps & Hload & Hsh & Hsent & Hrows).
  exists data, N, ps. rewrite select_split_fst.
  split; [done|]. split; [done|]. split; [done|].
  cbn zeta. exact Hrows.
Qed.


Lemma batch_rows_nonpositive (N : nat) (b : Z) (i : nat) :
  (b <= 0)%Z ->
  batch_rows N b (Z.of_nat i * b) = if i is 0 then slice_bound N b else 0.
Proof.
  intros Hb. unfold batch_rows, slice_bound. destruct i as [|i].
  - replace (Z.of_nat 0 * b + b)%Z with b by lia.
    replace (Z.of_nat 0 * b)%Z with 0%Z by lia.
    destruct (Z.ltb_spec 0 0); [lia|]. destruct (Z.ltb_spec b 0); lia.
  - assert (Z.of_nat (S i) * b <= b)%Z by nia.
    destruct (Z.ltb_spec (Z.of_nat (S i) * b + b) 0),
             (Z.ltb_spec (Z.of_nat (S i) * b) 0); lia.
Qed.


(** X11. [eval_throughput] does not check the batch size. With a batch size
    of zero every request is empty and the total returned is 0 however many
    requests were sent; with a negative one the total is negative or zero,
    the first request carries all rows but the last [-batch_size] (the slice
    [data[0:batch_size]]) and every later request is empty. *)
Theorem throughput_batch_size_not_positive (fuel : nat) (duration : Q)
  (request_url : string) (batch_size : Z) (dataset : string)
  (use_graphpipe : bool) (emnist_folder_path : string) (w w' : world env)
  (num_reqs : Z) (reqs_per_second : Q) :
  (batch_size <= 0)%Z ->
  eval_throughput fuel duration request_url batch_size dataset use_graphpipe
    emnist_folder_path w = (Ret (num_reqs, reqs_per_second), w') ->
  (num_reqs <= 0)%Z
  /\ (reqs_per_second == inject_Z num_reqs / duration)%Q
  /\ exists (data : emnist) (N : nat) (requests : list (string * payload)),
       load_emnist emnist_folder_path false w = (Ret data, w)
       /\ np.shape (if decide (dataset = "train") then x_train data
                    else x_test data) = [N; 28; 28]
       /\ sent w' = sent w ++ requests
       /\ num_reqs = (Z.of_nat (length requests) * batch_size)%Z
       /\ (forall i p, requests !! i = Some p ->
             examples_in p.2
             = if decide (i = 0 /\ batch_size <> 0%Z)
               then N - Z.to_nat (- batch_size) else 0).
Proof.
  intros Hb H.
  apply eval_throughput_ret in H
    as (data & N & k & ps & Hload & Hsh & -> & _ & Hq & _ & _ & Hlen & Hps & ->).
  apply truediv_ret in Hq as [_ ->].
  split; [nia|]. split; [reflexivity|].
  exists data, N, ps. cbn [sent]. split_and!; try done.
  - by rewrite Hlen.
  - intros i p Hp. apply Hps in Hp as [_ ->].
    rewrite batch_rows_nonpositive by done.
    unfold slice_bound.
    destruct i, (decide (_ /\ _)), (Z.ltb_spec batch_size 0); lia.
Qed.

(** ** The throughput driver runs to its end *)

Lemma throughput_data (x : np.ndarray Q) (N : nat) :
  np.shape x = [N; 28; 28] -> readable x ->
  exists d, np.reshape_infer x [1; 28 * 28] = Ret d
            /\ np.shape d = [N; 1; 28 * 28] /\ readable d.
Proof.
  intros Hsh Hx. unfold np.reshape_infer. rewrite Hsh, infer_dim_images.
  cbn [mbind outcome_bind]. apply reshape_readable; [done|].
  rewrite Hsh. change (np.size [N; 1; 28 * 28]) with (N * 784).
  by change (np.size [N; 28; 28]) with (N * 784).
Qed.

Lemma post_batch_payload (data : np.ndarray Q) (N : nat) (b n : Z) :
  np.shape data = [N; 1; 28 * 28] -> readable data ->
  exists piece batch rows,
    np.slice0 data n (n + b) = Ret piece
    /\ np.reshape_infer piece [28 * 28] = Ret batch
    /\ np.tolist2 batch = Ret rows.
Proof.
  intros Hsh Hd.
  destruct (slice0_readable data N [1; 28 * 28] n (n + b) Hd Hsh)
    as (piece & Hpiece & Hpsh & Hp & _).
  set (m := slice_bound N (n + b) - slice_bound N n) in *.
  destruct (reshape_readable piece [m; 28 * 28] np.order_C Hp)
    as (batch & Hb & Hbsh & Hbatch).
  { rewrite Hpsh. change (np.size [m; 28 * 28]) with (m * 784).
    change (np.size [m; 1; 28 * 28]) with (m * (1 * 784)). lia. }
  destruct (tolist2_readable batch m (28 * 28) Hbatch Hbsh)
    as (rows & Hrows & _).
  exists piece, batch, rows. split; [done|]. split; [|done].
  unfold np.reshape_infer. rewrite Hpsh.
  change (np.size [m; 1; 28 * 28]) with (m * (1 * (784 * 1))).
  by rewrite infer_dim_rows.
Qed.

Lemma batch_request_returns (url : string) (data : np.ndarray Q) (N : nat)
  (g : bool) (b n : Z) (w : world env) :
  np.shape data = [N; 1; 28 * 28] -> readable data ->
  answered env g url (length (sent w)) ->
  exists p,
    (if g then execute_batch url data b else post_batch url data b) n w
    = (Ret tt, log_request w (url, p)).
Proof.
  intros Hsh Hd Hsrv. unfold answered in Hsrv.
  destruct (post_batch_payload data N b n Hsh Hd)
    as (piece & batch & rows & Hpiece & Hbatch & Hrows).
  destruct g.
  - unfold execute_batch. rewrite lift_bind_run, Hpiece, bind_run.
    unfold remote_execute. destruct (Hsrv piece) as [scores ->].
    by exists (Tensor piece).
  - unfold post_batch. rewrite lift_bind_run, Hpiece.
    rewrite lift_bind_run, Hbatch. rewrite lift_bind_run, Hrows.
    rewrite bind_run. unfold requests_post_predictions.
    destruct (Hsrv rows) as [scores ->]. by exists (Instances rows).
Qed.

Lemma batch_request_fails (url : string) (data : np.ndarray Q) (N : nat)
  (g : bool) (b n : Z) (w : world env) (e : exn) :
  np.shape data = [N; 1; 28 * 28] -> readable data ->
  request_fails env g url (length (sent w)) e ->
  exists p,
    (if g then execute_batch url data b else post_batch url data b) n w
    = (Raise e, log_request w (url, p)).
Proof.
  intros Hsh Hd Hsrv. unfold request_fails in Hsrv.
  destruct (post_batch_payload data N b n Hsh Hd)
    as (piece & batch & rows & Hpiece & Hbatch & Hrows).
  destruct g.
  - unfold execute_batch. rewrite lift_bind_run, Hpiece, bind_run.
    unfold remote_execute. rewrite (Hsrv piece).
    by exists (Tensor piece).
  - unfold post_batch. rewrite lift_bind_run, Hpiece.
    rewrite lift_bind_run, Hbatch. rewrite lift_bind_run, Hrows.
    rewrite bind_run. unfold requests_post_predictions.
    destruct (Hsrv rows) as [-> | [-> ->]]; by exists (Instances rows).
Qed.

Lemma throughput_loop_run (request : Z -> M env unit) (url : string)
  (good : nat -> Prop) (end_time : Q) (b : Z) (k : nat) :
  (forall n w, good (length (sent w)) ->
     exists p, request n w = (Ret tt, log_request w (url, p))) ->
  forall fuel n w,
    k < fuel ->
    (forall i, i < k -> good (length (sent w) + i)) ->
    (forall i, i < k ->
       Qle_bool (wall_clock env (ticks w + i)) end_time = true) ->
    Qle_bool (wall_clock env (ticks w + k)) end_time = false ->
    exists ps,
      length ps = k
      /\ throughput_loop fuel request end_time b n w
         = (Ret (n + Z.of_nat k * b)%Z,
            mk_world (fs w) (ticks w + k + 1) (rng w) (sent w ++ ps)
                     (stdout w)).
Proof.
  intros Hreq. induction k as [|k IH]; intros fuel n w Hk Hgood Hin Hout;
    (destruct fuel as [|fuel]; [lia|]); cbn [throughput_loop];
    rewrite bind_run; cbn [time_time].
  - rewrite Nat.add_0_r in Hout. rewrite Hout.
    replace (n + Z.of_nat 0 * b)%Z with n by lia. exists [].
    split; [reflexivity|]. rewrite app_nil_r, Nat.add_0_r.
    by replace (ticks w + 1) with (S (ticks w)) by lia.
  - pose proof (Hin 0 ltac:(lia)) as H0. rewrite Nat.add_0_r in H0.
    rewrite H0, bind_run.
    destruct (Hreq n (mk_world (fs w) (S (ticks w)) (rng w) (sent w)
                               (stdout w))) as (p & ->).
    { cbn [sent]. specialize (Hgood 0 ltac:(lia)).
      by rewrite Nat.add_0_r in Hgood. }
    destruct (IH fuel (n + b)%Z
                (log_request (mk_world (fs w) (S (ticks w)) (rng w) (sent w)
                                       (stdout w)) (url, p)))
      as (ps & Hlen & ->).
    + lia.
    + intros i Hi. cbn [log_request sent]. rewrite length_app. cbn [length].
      replace (length (sent w) + 1 + i) with (length (sent w) + S i) by lia.
      apply Hgood. lia.
    + intros i Hi. cbn [log_request ticks].
      replace (S (ticks w) + i) with (ticks w + S i) by lia.
      apply Hin. lia.
    + cbn [log_request ticks].
      by replace (S (ticks w) + k) with (ticks w + S k) by lia.
    + exists ((url, p) :: ps). split; [cbn; by rewrite Hlen|].
      cbn [log_request fs ticks rng sent stdout].
      rewrite <- app_assoc. cbn [app].
      replace (n + Z.of_nat (S k) * b)%Z with (n + b + Z.of_nat k * b)%Z
        by lia.
      by replace (S (ticks w) + k + 1) with (ticks w + S k + 1) by lia.
Qed.

Lemma throughput_loop_fails (request : Z -> M env unit) (url : string)
  (good : nat -> Prop) (bad : nat -> Prop) (e : exn) (end_time : Q) (b : Z)
  (j : nat) :
  (forall n w, good (length (sent w)) ->
     exists p, request n w = (Ret tt, log_request w (url, p))) ->
  (forall n w, bad (length (sent w)) ->
     exists p, request n w = (Raise e, log_request w (url, p))) ->
  forall fuel n w,
    j < fuel ->
    (forall i, i < j -> good (length (sent w) + i)) ->
    bad (length (sent w) + j) ->
    (forall i, i <= j ->
       Qle_bool (wall_clock env (ticks w + i)) end_time = true) ->
    exists ps,
      length ps = S j
      /\ throughput_loop fuel request end_time b n w
         = (Raise e,
            mk_world (fs w) (ticks w + j + 1) (rng w) (sent w ++ ps)
                     (stdout w)).
Proof.
  intros Hreq Hfail. induction j as [|j IH];
    intros fuel n w Hj Hgood Hbad Hin;
    (destruct fuel as [|fuel]; [lia|]); cbn [throughput_loop];
    rewrite bind_run; cbn [time_time];
    pose proof (Hin 0 ltac:(lia)) as H0; rewrite Nat.add_0_r in H0;
    rewrite H0, bind_run.
  - destruct (Hfail n (mk_world (fs w) (S (ticks w)) (rng w) (sent w)
                                (stdout w))) as (p & ->).
    { cbn [sent]. by rewrite Nat.add_0_r in Hbad. }
    exists [(url, p)]. split; [reflexivity|].
    cbn [log_request fs ticks rng sent stdout].
    by replace (ticks w + 0 + 1) with (S (ticks w)) by lia.
  - destruct (Hreq n (mk_world (fs w) (S (ticks w)) (rng w) (sent w)
                               (stdout w))) as (p & ->).
    { cbn [sent]. specialize (Hgood 0 ltac:(lia)).
      by rewrite Nat.add_0_r in Hgood. }
    destruct (IH fuel (n + b)%Z
                (log_request (mk_world (fs w) (S (ticks w)) (rng w) (sent w)
                                       (stdout w)) (url, p)))
      as (ps & Hlen & ->).
    + lia.
    + intros i Hi. cbn [log_request sent]. rewrite length_app. cbn [length].
      replace (length (sent w) + 1 + i) with (length (sent w) + S i) by lia.
      apply Hgood. lia.
    + cbn [log_request sent]. rewrite length_app. cbn [length].
      by replace (length (sent w) + 1 + j) with (length (sent w) + S j) by lia.
    + intros i Hi. cbn [log_request ticks].
      replace (S (ticks w) + i) with (ticks w + S i) by lia.
      apply Hin. lia.
    + exists ((url, p) :: ps). split; [cbn; by rewrite Hlen|].
      cbn [log_request fs ticks rng sent stdout].
      rewrite <- app_assoc. cbn [app].
      by replace (S (ticks w) + j + 1) with (ticks w + S j + 1) by lia.
Qed.

(** The driver up to its loop: the data is loaded and prepared and the
    clock is read for the end timestamp. *)
Lemma throughput_reaches_the_loop (fuel : nat) (duration : Q) (url : string)
  (b : Z) (dataset : string) (g : bool) (folder : string) (w : world env)
  (data : emnist) :
  load_emnist folder false w = (Ret data, w) ->
  exists (d : np.ndarray Q) (N : nat),
    np.shape d = [N; 1; 28 * 28] /\ readable d
    /\ eval_throughput fuel duration url b dataset g folder w
       = (num_reqs ←
            throughput_loop fuel
              (if g then execute_batch url d b else post_batch url d b)
              (wall_clock env (ticks w) + duration)%Q b 0%Z;
          reqs_per_second ← lift (truediv (inject_Z num_reqs) duration);
          mret (num_reqs, reqs_per_second))
         (mk_world (fs w) (S (ticks w)) (rng w) (sent w) (stdout w)).
Proof.
  intros Hload.
  destruct (load_emnist_readable folder w data dataset Hload)
    as (N & Hsh & Hx).
  rewrite select_split_fst in Hsh, Hx.
  unfold eval_throughput. rewrite bind_run, Hload.
  rewrite lift_bind_run.
  destruct (throughput_data _ N Hsh Hx) as (d & -> & Hdsh & Hd).
  exists (np.map_elements (fun v => v / 255)%Q d), N.
  split; [exact Hdsh|]. split; [by apply map_elements_readable|].
  destruct g; cbn [negb]; rewrite !bind_run; cbn [time_time]; reflexivity.
Qed.

Lemma eval_throughput_run (fuel : nat) (duration : Q) (url : string) (b : Z)
  (dataset : string) (g : bool) (folder : string) (w : world env)
  (data : emnist) (k : nat) :
  load_emnist folder false w = (Ret data, w) ->
  (forall i, i < k -> answered env g url (length (sent w) + i)) ->
  (forall i, i < k ->
     (wall_clock env (ticks w + 1 + i) <= wall_clock env (ticks w) + duration)%Q) ->
  (wall_clock env (ticks w) + duration < wall_clock env (ticks w + 1 + k))%Q ->
  k < fuel ->
  exists ps,
    length ps = k
    /\ eval_throughput fuel duration url b dataset g folder w
       = (r ← truediv (inject_Z (Z.of_nat k * b)) duration;
          Ret ((Z.of_nat k * b)%Z, r),
          mk_world (fs w) (ticks w + k + 2) (rng w) (sent w ++ ps) (stdout w)).
Proof.
  intros Hload Hsrv Hin Hout Hk.
  destruct (throughput_reaches_the_loop fuel duration url b dataset g folder
              w data Hload) as (d & N & Hdsh & Hd & ->).
  rewrite bind_run.
  destruct (throughput_loop_run
              (if g then execute_batch url d b else post_batch url d b) url
              (answered env g url) (wall_clock env (ticks w) + duration)%Q b k
              ltac:(intros n w0 H0; by eapply batch_request_returns)
              fuel 0%Z
              (mk_world (fs w) (S (ticks w)) (rng w) (sent w) (stdout w)))
    as (ps & Hlen & ->).
  - exact Hk.
  - exact Hsrv.
  - intros i Hi. apply Qle_bool_iff. cbn [ticks].
    replace (S (ticks w) + i) with (ticks w + 1 + i) by lia. by apply Hin.
  - cbn [ticks]. replace (S (ticks w) + k) with (ticks w + 1 + k) by lia.
    destruct (Qle_bool _ _) eqn:Hle; [|reflexivity].
    apply Qle_bool_iff in Hle. by apply Qlt_not_le in Hout.
  - exists ps. split; [done|]. cbn [fs ticks rng sent stdout].
    rewrite lift_bind_run.
    replace (0 + Z.of_nat k * b)%Z with (Z.of_nat k * b)%Z by lia.
    replace (S (ticks w) + k + 1) with (ticks w + k + 2) by lia.
    by destruct (truediv _ _).
Qed.

(** X12. The throughput driver returns: when the data has loaded, the
    service answers every request, the duration is not zero and the clock
    passes the end timestamp at its reading number [iterations + 1] after
    the first, then with more fuel than iterations the run returns
    [iterations * batch_size] and that number divided by the duration, after
    [iterations] requests. *)
Theorem throughput_returns_once_the_clock_passes_the_end (fuel : nat)
  (duration : Q) (request_url : string) (batch_size : Z) (dataset : string)
  (use_graphpipe : bool) (emnist_folder_path : string) (w : world env)
  (data : emnist) (iterations : nat) :
  load_emnist emnist_folder_path false w = (Ret data, w) ->
  service_answers env use_graphpipe request_url ->
  ~ (duration == 0)%Q ->
  (forall i, i < iterations ->
     (wall_clock env (ticks w + 1 + i)
      <= wall_clock env (ticks w) + duration)%Q) ->
  (wall_clock env (ticks w) + duration
   < wall_clock env (ticks w + 1 + iterations))%Q ->
  iterations < fuel ->
  exists w',
    eval_throughput fuel duration request_url batch_size dataset use_graphpipe
      emnist_folder_path w
    = (Ret ((Z.of_nat iterations * batch_size)%Z,
            (inject_Z (Z.of_nat iterations * batch_size) / duration)%Q), w')
    /\ length (sent w') = length (sent w) + iterations.
Proof.
  intros Hload Hsrv Hd Hin Hout Hk.
  destruct (eval_throughput_run fuel duration request_url batch_size dataset
              use_graphpipe emnist_folder_path w data iterations
              Hload ltac:(intros i _; apply Hsrv) Hin Hout Hk)
    as (ps & Hlen & ->).
  eexists. split.
  - unfold truediv.
    replace (Qeq_bool duration 0) with false; [reflexivity|].
    symmetry. apply not_true_is_false. intros H. by apply Qeq_bool_iff in H.
  - cbn [sent]. rewrite length_app. lia.
Qed.

(** X13. With a duration of zero [eval_throughput] never returns a result:
    the division by the duration is not guarded. When the data has loaded
    and the service answers, the loop still runs for as long as the clock
    stands still, and the run then ends with [ZeroDivisionError], the
    requests sent. *)
Theorem throughput_zero_duration_raises (fuel : nat) (duration : Q)
  (request_url : string) (batch_size : Z) (dataset : string)
  (use_graphpipe : bool) (emnist_folder_path : string) (w : world env) :
  (duration == 0)%Q ->
  let run := eval_throughput fuel duration request_url batch_size dataset
               use_graphpipe emnist_folder_path w in
  (forall result, run.1 <> Ret result)
  /\ (forall data iterations,
        load_emnist emnist_folder_path false w = (Ret data, w) ->
        service_answers env use_graphpipe request_url ->
        (forall i, i < iterations ->
           (wall_clock env (ticks w + 1 + i) <= wall_clock env (ticks w))%Q) ->
        (wall_clock env (ticks w) < wall_clock env (ticks w + 1 + iterations))%Q ->
        iterations < fuel ->
        run.1 = Raise ZeroDivisionError
        /\ length (sent run.2) = length (sent w) + iterations).
Proof.
  intros Hd. cbn zeta. split.
  - intros [n r] H.
    destruct (eval_throughput _ _ _ _ _ _ _ _) as [o w'] eqn:Hrun.
    cbn [fst] in H. subst o.
    apply eval_throughput_ret in Hrun
      as (data & N & k & ps & _ & _ & _ & _ & Hq & _).
    apply truediv_ret in Hq as [Hq _]. contradiction.
  - intros data k Hload Hsrv Hin Hout Hk.
    destruct (eval_throughput_run fuel duration request_url batch_size dataset
                use_graphpipe emnist_folder_path w data k Hload
                ltac:(intros i _; apply Hsrv))
      as (ps & Hlen & ->); [| |done|].
    + intros i Hi. rewrite Hd, Qplus_0_r. by apply Hin.
    + by rewrite Hd, Qplus_0_r.
    + cbn [fst snd sent]. split.
      * unfold truediv.
        by replace (Qeq_bool duration 0) with true
          by (symmetry; by apply Qeq_bool_iff).
      * rewrite length_app. lia.
Qed.

(** X14. The throughput driver does not catch a failure of the service:
    when the first [j] requests are answered, the next one fails and the
    clock has not passed the end timestamp by then, the run ends with that
    exception after [j + 1] requests; no total and no rate are returned. *)
Theorem throughput_stops_at_the_first_failed_request (fuel : nat)
  (duration : Q) (request_url : string) (batch_size : Z) (dataset : string)
  (use_graphpipe : bool) (emnist_folder_path : string) (w : world env)
  (data : emnist) (j : nat) (e : exn) :
  load_emnist emnist_folder_path false w = (Ret data, w) ->
  (forall i, i < j ->
     answered env use_graphpipe request_url (length (sent w) + i)) ->
  request_fails env use_graphpipe request_url (length (sent w) + j) e ->
  (forall i, i <= j ->
     (wall_clock env (ticks w + 1 + i)
      <= wall_clock env (ticks w) + duration)%Q) ->
  j < fuel ->
  exists w',
    eval_throughput fuel duration request_url batch_size dataset use_graphpipe
      emnist_folder_path w = (Raise e, w')
    /\ fs w' = fs w
    /\ length (sent w') = length (sent w) + j + 1
    /\ ticks w' = ticks w + j + 2.
Proof.
  intros Hload Hsrv Hfail Hin Hj.
  destruct (throughput_reaches_the_loop fuel duration request_url batch_size
              dataset use_graphpipe emnist_folder_path w data Hload)
    as (d & N & Hdsh & Hd & ->).
  rewrite bind_run.
  destruct (throughput_loop_fails
              (if use_graphpipe then execute_batch request_url d batch_size
               else post_batch request_url d batch_size) request_url
              (answered env use_graphpipe request_url)
              (fun k => request_fails env use_graphpipe request_url k e) e
              (wall_clock env (ticks w) + duration)%Q batch_size j
              ltac:(intros n w0 H0; by eapply batch_request_returns)
              ltac:(intros n w0 H0; by eapply batch_request_fails)
              fuel 0%Z
              (mk_world (fs w) (S (ticks w)) (rng w) (sent w) (stdout w)))
    as (ps & Hlen & ->).
  - exact Hj.
  - exact Hsrv.
  - exact Hfail.
  - intros i Hi. apply Qle_bool_iff. cbn [ticks].
    replace (S (ticks w) + i) with (ticks w + 1 + i) by lia. by apply Hin.
  - eexists. split; [reflexivity|]. cbn [fs sent ticks].
    rewrite length_app, Hlen. split_and!; [done | lia | lia].
Qed.

(** ** The download *)

Lemma download_emnist_start (folder : string) (w : world env) :
  download_emnist folder w =
  match (if isdir_in (fs w) folder then mret tt else os_mkdir folder) w with
  | (Ret _, w1) =>
      match get_reply env EMNIST_MATLAB_URL with
      | inl e => (Raise e, w1)
      | inr req =>
          (write_file (os_path_join folder "emnist_matlab.zip") req;;
           extractall (os_path_join folder "emnist_matlab.zip") folder;;
           files ← os_listdir (os_path_join folder "matlab");
           for_each files (fun matlab_file =>
             shutil_move
               (os_path_join (os_path_join folder "matlab") matlab_file)
               (os_path_join folder matlab_file));;
           shutil_rmtree (os_path_join folder "matlab")) w1
      end
  | (Raise e, w1) => (Raise e, w1)
  | (OutOfFuel, w1) => (OutOfFuel, w1)
  end.
Proof.
  unfold download_emnist. rewrite bind_run. unfold os_path_isdir.
  rewrite bind_run. cbn [get_fs].
  change ((mret (isdir_in (fs w) folder) : M env bool) w)
    with (Ret (isdir_in (fs w) folder), w). cbn iota beta.
  rewrite bind_run.
  destruct (isdir_in (fs w) folder); cbn [negb].
  - change ((mret tt : M env unit) w) with (@Ret unit tt, w). cbn iota beta.
    rewrite bind_run. unfold requests_get.
    by destruct (get_reply env EMNIST_MATLAB_URL).
  - destruct (os_mkdir folder w) as [[[]|e|] w1]; [|reflexivity..].
    rewrite bind_run. unfold requests_get.
    by destruct (get_reply env EMNIST_MATLAB_URL).
Qed.

Lemma os_mkdir_creates (folder : string) (w : world env) :
  folder <> "" -> fs w !! strip_slash folder = None ->
  parent_ok (fs w) (strip_slash folder) = true ->
  os_mkdir folder w
  = (Ret tt, mk_world (<[strip_slash folder := Dir]> (fs w)) (ticks w) (rng w)
                      (sent w) (stdout w)).
Proof.
  intros Hne Hnone Hparent. unfold os_mkdir. rewrite bind_run. cbn [get_fs].
  destruct (decide (folder = "")); [done|].
  rewrite bool_decide_eq_false_2 by (rewrite Hnone; by intros [? ?]).
  by rewrite Hparent.
Qed.

Lemma os_mkdir_exists (folder : string) (w : world env) (n : node) :
  folder <> "" -> fs w !! strip_slash folder = Some n ->
  os_mkdir folder w = (Raise FileExistsError, w).
Proof.
  intros Hne Hn. unfold os_mkdir. rewrite bind_run. cbn [get_fs].
  destruct (decide (folder = "")); [done|].
  by rewrite bool_decide_eq_true_2 by (by rewrite Hn).
Qed.

(** X15. Failures of the download. When the request to the EMNIST server
    raises an exception, [download_emnist] raises it, and so does
    [load_emnist] with [download=True] when the archive is missing: nothing
    is written if the folder existed, and a folder that had to be created
    stays created. When the folder path names an existing file,
    [os.mkdir] raises [FileExistsError] before anything is requested. *)
Theorem download_failures_propagate (emnist_folder_path : string)
  (w : world env) :
  let created :=
    mk_world (<[strip_slash emnist_folder_path := Dir]> (fs w)) (ticks w)
             (rng w) (sent w) (stdout w) in
  (forall e,
     get_reply env EMNIST_MATLAB_URL = inl e ->
     isdir_in (fs w) emnist_folder_path = true ->
     download_emnist emnist_folder_path w = (Raise e, w)
     /\ (isfile_in (fs w) (os_path_join emnist_folder_path EMNIST_FILENAME)
         = false ->
         load_emnist emnist_folder_path true w = (Raise e, w)))
  /\ (forall e,
        get_reply env EMNIST_MATLAB_URL = inl e ->
        emnist_folder_path <> "" ->
        fs w !! strip_slash emnist_folder_path = None ->
        parent_ok (fs w) (strip_slash emnist_folder_path) = true ->
        download_emnist emnist_folder_path w = (Raise e, created)
        /\ load_emnist emnist_folder_path true w = (Raise e, created))
  /\ (forall c,
        emnist_folder_path <> "" ->
        fs w !! strip_slash emnist_folder_path = Some (File c) ->
        download_emnist emnist_folder_path w = (Raise FileExistsError, w)
        /\ load_emnist emnist_folder_path true w
           = (Raise FileExistsError, w)).
Proof.
  cbn zeta. split_and!.
  - intros e He Hdir.
    assert (Hd : download_emnist emnist_folder_path w = (Raise e, w)).
    { rewrite download_emnist_start, Hdir.
      change ((mret tt : M env unit) w) with (@Ret unit tt, w). cbn iota beta.
      by rewrite He. }
    split; [exact Hd|]. intros Hfile.
    rewrite load_emnist_run. cbn zeta. unfold archive_present.
    by rewrite Hdir, Hfile, Hd.
  - intros e He Hne Hnone Hparent.
    assert (Hdir : isdir_in (fs w) emnist_folder_path = false).
    { unfold isdir_in. rewrite Hnone. by destruct (decide _). }
    assert (Hd : download_emnist emnist_folder_path w
                 = (Raise e,
                    mk_world (<[strip_slash emnist_folder_path := Dir]> (fs w))
                             (ticks w) (rng w) (sent w) (stdout w))).
    { rewrite download_emnist_start, Hdir, os_mkdir_creates by done.
      by rewrite He. }
    split; [exact Hd|].
    rewrite load_emnist_run. cbn zeta. unfold archive_present.
    by rewrite Hdir, Hd.
  - intros c Hne Hfile.
    assert (Hdir : isdir_in (fs w) emnist_folder_path = false).
    { unfold isdir_in. rewrite Hfile. by destruct (decide _). }
    assert (Hd : download_emnist emnist_folder_path w
                 = (Raise FileExistsError, w)).
    { by rewrite download_emnist_start, Hdir,
        (os_mkdir_exists _ _ (File c)) by done. }
    split; [exact Hd|].
    rewrite load_emnist_run. cbn zeta. unfold archive_present.
    by rewrite Hdir, Hd.
Qed.

(** ** Archives the loader refuses *)

Lemma reshape_wrong_width (N C : nat) (pixels : list Z) :
  N <> 0 -> C <> 784 ->
  np.reshape (np.map_elements inject_Z (matrix N C pixels)) [N; 28; 28]
             np.order_A
  = Raise (ValueError "cannot reshape array").
Proof.
  intros HN HC. unfold np.reshape.
  replace (np.size [N; 28; 28]
           =? np.size (np.shape (np.map_elements inject_Z (matrix N C pixels))))
    with false; [reflexivity|].
  symmetry. apply Nat.eqb_neq.
  cbn [np.map_elements matrix np.shape].
  change (np.size [N; 28; 28]) with (N * 784).
  change (np.size [N; C]) with (N * (C * 1)). nia.
Qed.

Lemma load_images_wrong_width (o : pyobj) (path : list nat) (N C : nat)
  (pixels : list Z) :
  py_path o path = Ret (PyArray (matrix N C pixels)) ->
  N <> 0 -> C <> 784 ->
  load_images o path = Raise (ValueError "cannot reshape array").
Proof.
  intros Hp HN HC. unfold load_images. rewrite Hp.
  cbn [mbind outcome_bind astype_float32].
  change (shape0 (np.map_elements inject_Z (matrix N C pixels))) with (Ret N).
  cbn [mbind outcome_bind]. by apply reshape_wrong_width.
Qed.

(** X16. Archives [load_emnist] refuses, leaving the world as it was: a
    MAT-file without the variable "dataset" raises [KeyError]; an images
    matrix of a non-empty split whose number of columns is not 784 raises
    the [ValueError] of the reshape to (N, 28, 28), for the training split
    and, when the training split is well formed, for the test split. *)
Theorem load_emnist_refuses_malformed_archives (emnist_folder_path : string)
  (download : bool) (w : world env) (raw : gmap string pyobj) :
  archive_present (fs w) emnist_folder_path = true ->
  loadmat_in (fs w) (os_path_join emnist_folder_path EMNIST_FILENAME)
  = Ret raw ->
  (raw !! "dataset" = None ->
   load_emnist emnist_folder_path download w = (Raise KeyError, w))
  /\ (forall N C pixels train_rest rest,
        raw !! "dataset"
        = Some (struct (struct (PyArray (matrix N C pixels) :: train_rest)
                          :: rest)) ->
        N <> 0 -> C <> 784 ->
        load_emnist emnist_folder_path download w
        = (Raise (ValueError "cannot reshape array"), w))
  /\ (forall n_train train_pixels train_labels train_rest
             N C pixels test_rest rest,
        raw !! "dataset"
        = Some (struct (struct (PyArray (matrix n_train 784 train_pixels)
                                  :: train_labels :: train_rest)
                          :: struct (PyArray (matrix N C pixels) :: test_rest)
                          :: rest)) ->
        length train_pixels = n_train * 784 ->
        N <> 0 -> C <> 784 ->
        load_emnist emnist_folder_path download w
        = (Raise (ValueError "cannot reshape array"), w)).
Proof.
  intros Hp Hraw. rewrite load_emnist_run. cbn zeta. rewrite Hp.
  unfold read_archive. rewrite Hraw. cbn [mbind outcome_bind].
  unfold read_emnist. split_and!.
  - by intros ->.
  - intros N C pixels train_rest rest -> HN HC.
    cbn [of_option mbind outcome_bind]. set (ds := struct _).
    by rewrite (load_images_wrong_width ds [0; 0; 0; 0; 0; 0] N C pixels
                  eq_refl HN HC).
  - intros n_train train_pixels train_labels train_rest N C pixels test_rest
           rest -> Htr HN HC.
    cbn [of_option mbind outcome_bind]. set (ds := struct _).
    rewrite (load_images_matrix ds [0; 0; 0; 0; 0; 0] n_train train_pixels
               eq_refl Htr).
    cbn [mbind outcome_bind].
    change (py_path ds [0; 0; 0; 0; 0; 1]) with (Ret train_labels).
    cbn [mbind outcome_bind].
    by rewrite (load_images_wrong_width ds [0; 0; 1; 0; 0; 0] N C pixels
                  eq_refl HN HC).
Qed.

End FurtherProperties.

(** ** What the evaluator prints *)

Section Printing.

Context {env : environment}.

Lemma select_split_eq (dataset : string) (data : emnist) :
  select_split dataset data
  = (if decide (dataset = "train") then x_train data else x_test data,
     if decide (dataset = "train") then y_train data else y_test data).
Proof. unfold select_split. by destruct (decide _). Qed.

Lemma eval_step_output (n_print : nat) (url dataset : string) (g : bool)
  (data : emnist) (idx i acc acc' : nat) (ds ds' : list Q) (w w' : world env) :
  eval_step n_print url dataset g data get_emnist_mapping
    (select_split dataset data).1 (select_split dataset data).2
    idx i acc ds w = (Ret (acc', ds'), w') ->
  if idx <? n_print then
    exists block,
      printed_sample env g url (select_split dataset data).1
        (select_split dataset data).2 (length (sent w)) i = Ret block
      /\ stdout w' = stdout w ++ block
  else stdout w' = stdout w.
Proof.
  unfold eval_step, printed_sample, sample_result, flatten_image.
  rewrite select_split_eq. cbn [fst snd].
  set (x := if decide (dataset = "train") then x_train data else x_test data).
  set (y := if decide (dataset = "train") then y_train data else y_test data).
  rewrite lift_bind_run.
  destruct (np.index0 x i) as [img|e|] eqn:Himg; [|discriminate..].
  rewrite lift_bind_run. cbn [mbind outcome_bind].
  destruct (np.reshape img [1; 784] np.order_C) as [flat|e|]; [|discriminate..].
  cbn [mbind outcome_bind].
  rewrite bind_run.
  destruct (query g url _ w) as [[[start scores]|e|] w1] eqn:Hq;
    [|discriminate..].
  apply query_ret in Hq as (-> & -> & p & ->).
  cbn [mbind outcome_bind].
  rewrite bind_run. cbn [time_time fs ticks rng sent stdout].
  rewrite lift_bind_run.
  destruct (np.argmax scores) as [pred|e|]; [|discriminate..].
  rewrite lift_bind_run. cbn [mbind outcome_bind].
  destruct (label_item y i 0) as [label|e|]; [|discriminate..].
  cbn [mbind outcome_bind fst].
  rewrite bind_run.
  destruct (idx <? n_print).
  - rewrite bind_run, show_img_run. cbn zeta. fold x y.
    rewrite Himg. cbn [mbind outcome_bind].
    destruct (label_at y [i; 0]) as [l|e|]; cbn [mbind outcome_bind];
      [|discriminate..].
    destruct (get_emnist_mapping !! l) as [c|];
      cbn [of_option mbind outcome_bind]; [|discriminate].
    rewrite lift_bind_run.
    destruct (get_emnist_mapping !! Z.of_nat pred) as [c'|];
      cbn [of_option]; [|discriminate].
    intros [= <- <- <-]. eexists. split; [reflexivity|].
    cbn [emit stdout]. by rewrite <- app_assoc.
  - by intros [= <- <- <-].
Qed.

Lemma eval_loop_output (n_print : nat) (url dataset : string) (g : bool)
  (data : emnist) (inds : list nat) :
  forall (idx acc acc' : nat) (ds ds' : list Q) (w w' : world env),
    eval_loop n_print url dataset g data get_emnist_mapping
      (select_split dataset data).1 (select_split dataset data).2
      idx inds acc ds w = (Ret (acc', ds'), w') ->
    exists blocks : list (list event),
      stdout w' = stdout w ++ concat blocks
      /\ length blocks = Nat.min (n_print - idx) (length inds)
      /\ forall i j block,
           inds !! i = Some j -> blocks !! i = Some block ->
           printed_sample env g url (select_split dataset data).1
             (select_split dataset data).2 (length (sent w) + i) j
           = Ret block.
Proof.
  induction inds as [|j inds IH]; intros idx acc acc' ds ds' w w'.
  - intros [= <- <- <-]. exists []. cbn. rewrite app_nil_r.
    split; [done|]. split; [lia|]. intros i j block H. done.
  - cbn [eval_loop]. rewrite bind_run.
    destruct (eval_step _ _ _ _ _ _ _ _ _ _ _ _ w) as [[[acc1 ds1]|e|] w1]
      eqn:Hs; [|discriminate..].
    pose proof (eval_step_output _ _ _ _ _ _ _ _ _ _ _ _ _ Hs) as Hout.
    apply eval_step_ret in Hs as (p & out & _ & _ & ->).
    intros H. apply IH in H as (blocks & Hstd & Hlen & Hblocks).
    cbn [stdout sent] in *. rewrite length_app in Hblocks. cbn [length] in *.
    destruct (idx <? n_print) eqn:Hidx.
    + apply Nat.ltb_lt in Hidx. destruct Hout as (block & Hblock & Hb).
      apply app_inv_head in Hb. subst out.
      exists (block :: blocks). split_and!.
      * rewrite Hstd. cbn [concat]. by rewrite <- app_assoc.
      * cbn [length]. lia.
      * intros [|i] j' block' Hj Hb'; cbn in Hj, Hb'.
        -- injection Hj as <-. injection Hb' as <-.
           by rewrite Nat.add_0_r.
        -- replace (length (sent w) + S i) with (length (sent w) + 1 + i)
             by lia.
           by apply Hblocks.
    + apply Nat.ltb_ge in Hidx.
      assert (out = []) as ->.
      { apply (app_inv_head (stdout w)). by rewrite app_nil_r. }
      assert (blocks = []) as ->.
      { apply length_zero_iff_nil. lia. }
      exists []. split_and!.
      * rewrite Hstd. cbn. by rewrite !app_nil_r.
      * cbn [length]. lia.
      * intros i j' block' _ H. done.
Qed.

(** X17. What a returning run of the evaluator prints and shows. The
    output of [print] and of the [matplotlib] calls (the records of the
    [logging] module are not part of it) grows by one block per printed
    sample, in the order of the requests, followed by the accuracy line;
    the run prints and shows nothing else. There are
    [min(n_print_examples, n_examples)] blocks. The block of the [i]-th
    sampled image holds that image as shown by [show_img], the line
    [Label: c] with the character of its label and the line
    [Predicted Label: c] with the character of the class the service
    predicted for it. *)
Theorem evaluator_prints_the_first_samples (n_examples n_print_examples : nat)
  (request_url : string) (seed : Z) (dataset : string) (use_graphpipe : bool)
  (emnist_folder_path : string) (w w' : world env) (durations : list Q) :
  eval_serving_performance n_examples n_print_examples request_url seed
    dataset use_graphpipe emnist_folder_path w = (Ret durations, w') ->
  exists (data : emnist) (inds : list nat) (blocks : list (list event))
         (accuracy : Q),
    load_emnist emnist_folder_path false w = (Ret data, w)
    /\ sampled_indices emnist_folder_path dataset seed n_examples w = Ret inds
    /\ stdout w'
       = stdout w ++ concat blocks ++ [PrintAccuracy n_examples accuracy]
    /\ length blocks = Nat.min n_print_examples n_examples
    /\ forall i idx block,
         inds !! i = Some idx -> blocks !! i = Some block ->
         printed_sample env use_graphpipe request_url
           (select_split dataset data).1 (select_split dataset data).2
           (length (sent w) + i) idx = Ret block.
Proof.
  intros Hrun. pose proof Hrun as Hrun'.
  apply eval_serving_performance_ret in Hrun'
    as (data & inds & ps & out & s & Hload & Hsam & Hlen & Hn & _ & Hps & _).
  revert Hrun. unfold eval_serving_performance. rewrite bind_run, Hload.
  rewrite (sampled_indices_of_load _ _ _ _ _ _ Hload) in Hsam.
  rewrite (surjective_pairing (select_split dataset data)).
  rewrite bind_run.
  destruct (draw_eval_indices_state seed _ n_examples inds w Hsam)
    as (N & HN & ->).
  rewrite bind_run.
  destruct (eval_loop _ _ _ _ _ _ _ _ _ _ _ _ _) as [[[acc ds1]|e|] w1]
    eqn:Hl; [|discriminate..].
  apply eval_loop_output in Hl as (blocks & Hstd & Hblen & Hblocks).
  cbn [stdout sent] in *.
  rewrite lift_bind_run.
  destruct (truediv _ _) as [q|e|]; [|discriminate..].
  intros [= _ <-].
  exists data, inds, blocks, q. split_and!; try done.
  - by rewrite (sampled_indices_of_load _ _ _ _ _ _ Hload).
  - cbn [stdout]. by rewrite Hstd, <- app_assoc.
  - rewrite Hblen, Hlen. f_equal. lia.
Qed.

End Printing.

(** ** Paths *)
Lemma append_cons (x : ascii) (a b : string) :
  String x a +:+ b = String x (a +:+ b).
Proof. reflexivity. Qed.

Lemma append_assoc (a b c : string) : (a +:+ b) +:+ c = a +:+ (b +:+ c).
Proof.
  induction a as [|x a IH]; [reflexivity|]. by rewrite !append_cons, IH.
Qed.

Lemma append_nil_r (a : string) : a +:+ "" = a.
Proof.
  induction a as [|x a IH]; [reflexivity|]. by rewrite append_cons, IH.
Qed.

Lemma strip_prefix_app (p s : string) : strip_prefix p (p +:+ s) = Some s.
Proof.
  induction p as [|x p IH]; [by destruct s|].
  rewrite append_cons. cbn [strip_prefix].
  by destruct (decide (x = x)).
Qed.

Lemma strip_prefix_Some (p k r : string) :
  strip_prefix p k = Some r -> k = p +:+ r.
Proof.
  revert k. induction p as [|x p IH]; intros k.
  - destruct k; cbn; intros [= <-]; reflexivity.
  - destruct k as [|y k]; cbn [strip_prefix]; [done|].
    destruct (decide (x = y)) as [->|]; [|done].
    intros H. by rewrite (IH _ H).
Qed.

Lemma dirname_join (a b : string) :
  dirname b = None -> dirname (a +:+ "/" +:+ b) = Some a.
Proof.
  intros Hb. induction a as [|x a IH].
  - change ("" +:+ "/" +:+ b) with (String "/" b). cbn [dirname].
    rewrite Hb. by destruct (decide _).
  - rewrite append_cons. cbn [dirname]. by rewrite IH.
Qed.

Lemma basename_join (a b : string) :
  dirname b = None -> basename (a +:+ "/" +:+ b) = b.
Proof.
  intros Hb. induction a as [|x a IH].
  - change ("" +:+ "/" +:+ b) with (String "/" b). cbn [basename].
    rewrite Hb. by destruct (decide _).
  - rewrite append_cons. cbn [basename].
    by rewrite (dirname_join a b Hb).
Qed.

Lemma dirname_Some_inv (k d : string) :
  dirname k = Some d ->
  exists b, k = d +:+ "/" +:+ b /\ dirname b = None.
Proof.
  revert d. induction k as [|x k IH]; intros d; [done|]. cbn [dirname].
  destruct (dirname k) as [d'|] eqn:Hk.
  - intros [= <-]. destruct (IH d' eq_refl) as (b & -> & Hb).
    by exists b.
  - destruct (decide (x = "/"%char)) as [->|]; [|done].
    intros [= <-]. by exists k.
Qed.

Lemma dirname_None_app (a b : string) :
  dirname (a +:+ b) = None -> dirname b = None.
Proof.
  induction a as [|x a IH]; [done|]. rewrite append_cons. cbn [dirname].
  destruct (dirname (a +:+ b)); [done|]. intros _. by apply IH.
Qed.

Lemma ends_with_slash_app (a b : string) :
  b <> "" -> ends_with_slash (a +:+ b) = ends_with_slash b.
Proof.
  intros Hb. induction a as [|x a IH]; [reflexivity|].
  rewrite append_cons, <- IH. cbn [ends_with_slash].
  destruct (a +:+ b) as [|y s] eqn:Hs; [|reflexivity].
  destruct a; [by cbn in Hs | discriminate].
Qed.

Lemma ends_with_slash_inv (s : string) :
  ends_with_slash s = true ->
  exists a, dirname s = Some a /\ s = a +:+ "/".
Proof.
  induction s as [|x s IH]; [done|]. cbn [ends_with_slash].
  destruct s as [|y s].
  - destruct (decide (x = "/"%char)) as [->|]; [|done].
    intros _. by exists "".
  - intros H. destruct (IH H) as (a & Ha & Hs).
    exists (String x a). split; [|by rewrite append_cons, <- Hs].
    change (dirname (String x (String y s)))
      with (match dirname (String y s) with
            | Some d => Some (String x d)
            | None => if decide (x = "/"%char) then Some "" else None
            end).
    by rewrite Ha.
Qed.

(** [os.path.join] on a folder name, with or without its trailing slash. *)
Lemma os_path_join_strip (folder name : string) :
  folder <> "" ->
  os_path_join folder name = strip_slash folder +:+ "/" +:+ name.
Proof.
  intros Hf. unfold os_path_join, strip_slash.
  destruct (decide (folder = "")); [done|].
  destruct (ends_with_slash folder) eqn:He; [|reflexivity].
  destruct (ends_with_slash_inv _ He) as (a & Ha & Hs).
  rewrite Ha. cbn [default]. rewrite Hs at 1. apply append_assoc.
Qed.

Lemma strip_slash_id (s : string) :
  ends_with_slash s = false -> strip_slash s = s.
Proof. unfold strip_slash. by intros ->. Qed.

Lemma below_refl (p : string) : below p p = Some "".
Proof.
  unfold below. rewrite <- (append_nil_r p) at 2.
  by rewrite strip_prefix_app.
Qed.

Lemma below_join (p s : string) : below p (p +:+ "/" +:+ s) = Some ("/" +:+ s).
Proof.
  unfold below. rewrite strip_prefix_app.
  change ("/" +:+ s) with (String "/" s).
  by destruct (decide ("/"%char = "/"%char)).
Qed.

Lemma below_Some (p k r : string) :
  below p k = Some r ->
  k = p +:+ r /\ (r = "" \/ exists s, r = "/" +:+ s).
Proof.
  unfold below. destruct (strip_prefix p k) as [[|x r']|] eqn:Hs; [| |done].
  - intros [= <-]. apply strip_prefix_Some in Hs. auto.
  - destruct (decide (x = "/"%char)) as [->|]; [|done].
    intros [= <-]. apply strip_prefix_Some in Hs. split; [done|].
    right. by exists r'.
Qed.

(** A path below [p +:+ "/" +:+ q] is below [p]. *)
Lemma below_deeper (p q k r : string) :
  below (p +:+ "/" +:+ q) k = Some r -> exists r', below p k = Some r'.
Proof.
  intros [-> _]%below_Some. rewrite append_assoc.
  change (("/" +:+ q) +:+ r) with ("/" +:+ (q +:+ r)).
  rewrite below_join. eauto.
Qed.

Lemma isdir_in_true (f : gmap string node) (p : string) :
  isdir_in f p = true <-> p <> "" /\ f !! strip_slash p = Some Dir.
Proof.
  unfold isdir_in. destruct (decide (p = "")) as [->|Hp].
  - split; [done | by intros [? _]].
  - destruct (f !! strip_slash p) as [[|c]|]; split; try done;
      by intros [_ ?].
Qed.

Lemma parent_ok_join (f : gmap string node) (folder name : string) :
  isdir_in f folder = true ->
  ends_with_slash (strip_slash folder) = false ->
  dirname name = None ->
  parent_ok f (os_path_join folder name) = true.
Proof.
  intros [Hne Hdir]%isdir_in_true He Hn.
  rewrite os_path_join_strip by done. unfold parent_ok.
  rewrite dirname_join by done.
  destruct (decide (strip_slash folder = "")) as [|Hb]; [done|].
  apply isdir_in_true. split; [done|]. by rewrite strip_slash_id.
Qed.

(** A move that renames a single path. *)
Lemma move_single (f : gmap string node) (src dst : string) (v : node) :
  f !! src = Some v -> f !! dst = None ->
  (forall k, is_Some (f !! k) -> below src k <> None -> k = src) ->
  list_to_map
    ((fun kv : string * node =>
        match below src kv.1 with
        | Some r => (dst +:+ r, kv.2)
        | None => kv
        end) <$> map_to_list f)
  = <[dst := v]> (delete src f).
Proof.
  intros Hsrc Hdst Honly.
  set (g := fun kv : string * node =>
              match below src kv.1 with
              | Some r => (dst +:+ r, kv.2)
              | None => kv
              end).
  assert (Hin : forall k x,
    (k, x) ∈ g <$> map_to_list f <->
    (f !! k = Some x /\ below src k = None) \/ (k = dst /\ x = v)).
  { intros k x. rewrite list_elem_of_fmap. split.
    - intros ([k0 x0] & Hg & Hk0%elem_of_map_to_list).
      unfold g in Hg. cbn [fst snd] in Hg.
      destruct (below src k0) as [r|] eqn:Hb.
      + assert (k0 = src) as -> by (apply Honly; [by eexists | by rewrite Hb]).
        rewrite below_refl in Hb. injection Hb as <-.
        rewrite append_nil_r in Hg. injection Hg as -> ->.
        right. split; [done|]. congruence.
      + injection Hg as -> ->. by left.
    - intros [[Hk Hb] | [-> ->]].
      + exists (k, x). split; [|by apply elem_of_map_to_list].
        unfold g. cbn [fst snd]. by rewrite Hb.
      + exists (src, v). split; [|by apply elem_of_map_to_list].
        unfold g. cbn [fst snd]. by rewrite below_refl, append_nil_r. }
  assert (Hsd : src <> dst) by (intros ->; congruence).
  apply map_eq. intros k.
  destruct (decide (k = dst)) as [->|Hkd].
  - rewrite lookup_insert_eq. apply elem_of_list_to_map_1'.
    + intros y [[Hy _] | [_ ->]]%Hin; [congruence | done].
    + apply Hin. by right.
  - rewrite lookup_insert_ne by done.
    destruct (decide (k = src)) as [->|Hks].
    + rewrite lookup_delete_eq. apply not_elem_of_list_to_map_1.
      intros ([k0 x] & Hk & Hx)%list_elem_of_fmap. cbn in Hk. subst k0.
      apply Hin in Hx as [[_ Hb] | [? _]]; [|done].
      by rewrite below_refl in Hb.
    + rewrite lookup_delete_ne by done.
      destruct (f !! k) as [x|] eqn:Hk.
      * apply elem_of_list_to_map_1'.
        -- intros y [[Hy _] | [? _]]%Hin; [congruence | done].
        -- apply Hin. left. split; [done|].
           destruct (below src k) eqn:Hb; [|done].
           exfalso. apply Hks, Honly; [by eexists | by rewrite Hb].
      * apply not_elem_of_list_to_map_1.
        intros ([k0 x] & Hk0 & Hx)%list_elem_of_fmap. cbn in Hk0. subst k0.
        apply Hin in Hx as [[? _] | [? _]]; [congruence | done].
Qed.

Section Moves.

Context {env : environment}.

Lemma shutil_move_single (src dst : string) (v : node) (w : world env) :
  fs w !! src = Some v -> fs w !! dst = None ->
  (forall k, is_Some (fs w !! k) -> below src k <> None -> k = src) ->
  shutil_move src dst w
  = (Ret tt, mk_world (<[dst := v]> (delete src (fs w))) (ticks w) (rng w)
                      (sent w) (stdout w)).
Proof.
  intros Hsrc Hdst Honly. unfold shutil_move. rewrite bind_run. cbn [get_fs].
  rewrite bool_decide_eq_true_2 by (by rewrite Hsrc).
  unfold put_fs. by rewrite (move_single _ _ _ v).
Qed.

End Moves.

(** ** The paths of a download *)

Lemma dirname_slash (a s : string) : dirname (a +:+ "/" +:+ s) <> None.
Proof.
  intros H. apply dirname_None_app in H.
  change ("/" +:+ s) with (String "/" s) in H. cbn [dirname] in H.
  destruct (dirname s); [done|].
  by destruct (decide ("/"%char = "/"%char)).
Qed.

Lemma append_eq_self (a x : string) : a = a +:+ x -> x = "".
Proof.
  intros H. symmetry. apply (inj (String.append a)).
  by rewrite append_nil_r.
Qed.

Section Paths.

Variable base : string.

Lemma matlab_path_join (n : string) :
  matlab_path base n = (matlab_dir base) +:+ "/" +:+ n.
Proof. unfold matlab_path, matlab_dir. by rewrite append_assoc. Qed.

Lemma dirname_matlab_path (n : string) :
  dirname n = None -> dirname (matlab_path base n) = Some (matlab_dir base).
Proof. intros Hn. rewrite matlab_path_join. by apply dirname_join. Qed.

Lemma basename_matlab_path (n : string) :
  dirname n = None -> basename (matlab_path base n) = n.
Proof. intros Hn. rewrite matlab_path_join. by apply basename_join. Qed.

Lemma matlab_dir_no_slash : ends_with_slash (matlab_dir base) = false.
Proof. unfold matlab_dir. by rewrite ends_with_slash_app. Qed.

Lemma matlab_dir_nonempty : (matlab_dir base) <> "".
Proof. unfold matlab_dir. by destruct base. Qed.

#[local] Instance matlab_path_inj : Inj (=) (=) (matlab_path base).
Proof.
  intros n1 n2 H. unfold matlab_path in H.
  apply (inj (String.append base)) in H.
  by apply (inj (String.append "/matlab/")) in H.
Qed.

#[local] Instance base_path_inj : Inj (=) (=) (base_path base).
Proof.
  intros n1 n2 H. unfold base_path in H.
  apply (inj (String.append base)) in H.
  by apply (inj (String.append "/")) in H.
Qed.

Lemma matlab_path_ne_base_path (n n' : string) :
  dirname n' = None -> matlab_path base n <> base_path base n'.
Proof.
  intros Hn' H. unfold matlab_path, base_path in H.
  apply (inj (String.append base)) in H.
  change ("/matlab/" +:+ n) with ("/" +:+ "matlab" +:+ "/" +:+ n) in H.
  apply (inj (String.append "/")) in H. subst n'.
  by apply dirname_slash in Hn'.
Qed.

Lemma matlab_path_ne_dir (n : string) : matlab_path base n <> (matlab_dir base).
Proof.
  intros H. unfold matlab_path, matlab_dir in H.
  apply (inj (String.append base)) in H. discriminate.
Qed.

Lemma matlab_path_ne_zip (n : string) : matlab_path base n <> (zip_file_path base).
Proof.
  intros H. unfold matlab_path, zip_file_path in H.
  apply (inj (String.append base)) in H. discriminate.
Qed.

Lemma base_path_ne_dir (n : string) : n <> "matlab" -> base_path base n <> (matlab_dir base).
Proof.
  intros Hn H. unfold base_path, matlab_dir in H.
  apply (inj (String.append base)) in H.
  change "/matlab" with ("/" +:+ "matlab") in H.
  by apply (inj (String.append "/")) in H.
Qed.

Lemma base_path_ne_zip (n : string) :
  n <> "emnist_matlab.zip" -> base_path base n <> (zip_file_path base).
Proof.
  intros Hn H. unfold base_path, zip_file_path in H.
  apply (inj (String.append base)) in H.
  change "/emnist_matlab.zip" with ("/" +:+ "emnist_matlab.zip") in H.
  by apply (inj (String.append "/")) in H.
Qed.

Lemma zip_ne_dir : (zip_file_path base) <> (matlab_dir base).
Proof.
  intros H. unfold zip_file_path, matlab_dir in H.
  apply (inj (String.append base)) in H. discriminate.
Qed.

Lemma below_base_path (x : string) (k : string) :
  k = base +:+ "/" +:+ x -> below base k <> None.
Proof. intros ->. by rewrite below_join. Qed.

(** Among the known_path base paths, only the path itself lies at or below the path
    of a file of the archive's folder. *)
Lemma matlab_path_app (n r : string) :
  matlab_path base n +:+ r = base +:+ "/" +:+ "matlab/" +:+ n +:+ r.
Proof. unfold matlab_path. by rewrite !append_assoc. Qed.

Lemma below_matlab_path (names : list string) (n k : string) :
  Forall plain_name names -> known_path base names k ->
  below (matlab_path base n) k <> None -> k = matlab_path base n.
Proof.
  intros Hnames Hk Hb.
  destruct (below (matlab_path base n) k) as [r|] eqn:Hr; [clear Hb|done].
  apply below_Some in Hr as [Hkr Hr].
  destruct Hr as [->|[s ->]]; [by rewrite append_nil_r in Hkr|].
  exfalso. rewrite matlab_path_app in Hkr.
  rewrite Forall_forall in Hnames.
  destruct Hk as [Hk|Hk|Hk|Hk|n' Hn' Hk|n' Hn' Hk].
  - revert Hk. by eapply below_base_path.
  - rewrite Hk in Hkr. apply append_eq_self in Hkr. discriminate.
  - rewrite Hk in Hkr. unfold zip_file_path in Hkr.
    apply (inj (String.append base)) in Hkr. discriminate.
  - rewrite Hk in Hkr. unfold matlab_dir in Hkr.
    apply (inj (String.append base)) in Hkr. discriminate.
  - rewrite Hk in Hkr. unfold matlab_path in Hkr.
    apply (inj (String.append base)) in Hkr.
    change ("/" +:+ "matlab/" +:+ n +:+ "/" +:+ s)
      with ("/matlab/" +:+ n +:+ "/" +:+ s) in Hkr.
    apply (inj (String.append "/matlab/")) in Hkr.
    destruct (Hnames n' Hn') as [Hd _]. rewrite Hkr in Hd.
    by apply dirname_slash in Hd.
  - rewrite Hk in Hkr. unfold base_path in Hkr.
    apply (inj (String.append base)) in Hkr.
    apply (inj (String.append "/")) in Hkr.
    destruct (Hnames n' Hn') as [Hd _]. rewrite Hkr in Hd.
    change ("matlab/" +:+ n +:+ "/" +:+ s)
      with ("matlab" +:+ "/" +:+ n +:+ "/" +:+ s) in Hd.
    by apply dirname_slash in Hd.
Qed.

(** And only the folder and its files lie at or below the folder. *)
Lemma below_matlab_dir (names : list string) (k : string) :
  Forall plain_name names -> known_path base names k ->
  below (matlab_dir base) k <> None ->
  k = (matlab_dir base) \/ exists n, n ∈ names /\ k = matlab_path base n.
Proof.
  intros Hnames Hk Hb.
  destruct (below (matlab_dir base) k) as [r|] eqn:Hr; [clear Hb|done].
  apply below_Some in Hr as [Hkr Hr].
  destruct Hk as [Hk|Hk|Hk|Hk|n' Hn' Hk|n' Hn' Hk]; eauto.
  - exfalso. revert Hk. apply below_base_path with (x := "matlab" +:+ r).
    rewrite Hkr. unfold matlab_dir. by rewrite append_assoc.
  - exfalso. rewrite Hk in Hkr. unfold matlab_dir in Hkr.
    rewrite append_assoc in Hkr. apply append_eq_self in Hkr. discriminate.
  - exfalso. rewrite Hk in Hkr. unfold zip_file_path, matlab_dir in Hkr.
    rewrite append_assoc in Hkr. apply (inj (String.append base)) in Hkr.
    discriminate.
  - exfalso. rewrite Hk in Hkr. unfold base_path, matlab_dir in Hkr.
    rewrite append_assoc in Hkr. apply (inj (String.append base)) in Hkr.
    change ("/matlab" +:+ r) with ("/" +:+ "matlab" +:+ r) in Hkr.
    apply (inj (String.append "/")) in Hkr.
    rewrite Forall_forall in Hnames.
    destruct (Hnames n' Hn') as (Hd & _ & Hm & _).
    destruct Hr as [->|[s ->]]; [by rewrite append_nil_r in Hkr|].
    rewrite Hkr in Hd. by apply dirname_slash in Hd.
Qed.

Lemma below_matlab_dir_path (n : string) :
  below (matlab_dir base) (matlab_path base n) <> None.
Proof. rewrite matlab_path_join. by rewrite below_join. Qed.

Lemma below_matlab_dir_base_path (n : string) :
  plain_name n -> below (matlab_dir base) (base_path base n) = None.
Proof.
  intros (Hd & _ & Hm & _).
  destruct (below (matlab_dir base) (base_path base n)) as [r|] eqn:Hr; [|done].
  exfalso. apply below_Some in Hr as [Hkr Hr].
  unfold base_path, matlab_dir in Hkr. rewrite append_assoc in Hkr.
  apply (inj (String.append base)) in Hkr.
  change ("/matlab" +:+ r) with ("/" +:+ "matlab" +:+ r) in Hkr.
  apply (inj (String.append "/")) in Hkr.
  destruct Hr as [->|[s ->]]; [by rewrite append_nil_r in Hkr|].
  rewrite Hkr in Hd. by apply dirname_slash in Hd.
Qed.

Lemma below_matlab_dir_zip : below (matlab_dir base) (zip_file_path base) = None.
Proof.
  destruct (below (matlab_dir base) (zip_file_path base)) as [r|] eqn:Hr; [|done].
  exfalso. apply below_Some in Hr as [Hkr Hr].
  unfold zip_file_path, matlab_dir in Hkr. rewrite append_assoc in Hkr.
  apply (inj (String.append base)) in Hkr. discriminate.
Qed.

Lemma below_matlab_dir_outside (k : string) :
  below base k = None -> below (matlab_dir base) k = None.
Proof.
  intros Hk. destruct (below (matlab_dir base) k) as [r|] eqn:Hr; [|done].
  exfalso. unfold matlab_dir in Hr.
  change "/matlab" with ("/" +:+ "matlab") in Hr.
  apply below_deeper in Hr as [r' Hr']. congruence.
Qed.

Lemma below_matlab_dir_base : below (matlab_dir base) base = None.
Proof.
  destruct (below (matlab_dir base) base) as [r|] eqn:Hr; [|done].
  exfalso. apply below_Some in Hr as [Hkr Hr].
  unfold matlab_dir in Hkr. rewrite append_assoc in Hkr.
  apply append_eq_self in Hkr. discriminate.
Qed.

End Paths.

Section Download.

Context {env : environment}.

Variable folder : string.

Let base := strip_slash folder.
Let md := matlab_dir base.
Let mp := matlab_path base.
Let bp := base_path base.

Hypothesis Hfolder : folder <> "".

Lemma join_zip : os_path_join folder "emnist_matlab.zip" = zip_file_path base.
Proof. by rewrite os_path_join_strip. Qed.

Lemma join_matlab : os_path_join folder "matlab" = md.
Proof. by rewrite os_path_join_strip. Qed.

Lemma join_member (n : string) : os_path_join folder ("matlab/" +:+ n) = mp n.
Proof. by rewrite os_path_join_strip. Qed.

Lemma join_moved (n : string) : os_path_join folder n = bp n.
Proof. by rewrite os_path_join_strip. Qed.

Lemma join_listed (n : string) : os_path_join md n = mp n.
Proof.
  unfold os_path_join. destruct (decide (md = "")) as [H|_].
  { by apply matlab_dir_nonempty in H. }
  unfold md at 1. rewrite matlab_dir_no_slash. symmetry.
  apply matlab_path_join.
Qed.

(** *** Unpacking the archive *)

Lemma unpacked_cons (f : gmap string node) (nc : string * content)
  (l : list (string * content)) :
  unpacked folder f (nc :: l)
  = unpacked folder (<[mp nc.1 := File nc.2]> (<[md := Dir]> f)) l.
Proof. reflexivity. Qed.

Lemma extract_member_plain (f : gmap string node) (nc : string * content) :
  plain_name nc.1 ->
  extract_member folder f ("matlab/" +:+ nc.1, nc.2)
  = <[mp nc.1 := File nc.2]> (<[md := Dir]> f).
Proof.
  intros [Hd _]. unfold extract_member. cbn [fst snd].
  rewrite join_member. unfold mp. rewrite dirname_matlab_path by done.
  fold md. destruct (decide (md = "")) as [H|_]; [|done].
  by apply matlab_dir_nonempty in H.
Qed.

Lemma extract_all (l : list (string * content)) (f : gmap string node) :
  Forall plain_name l.*1 ->
  foldl (extract_member folder) f
        ((fun nc : string * content => ("matlab/" +:+ nc.1, nc.2)) <$> l)
  = unpacked folder f l.
Proof.
  revert f. induction l as [|nc l IH]; intros f Hl; [reflexivity|].
  apply Forall_cons in Hl as [Hnc Hl]. cbn [fmap list_fmap foldl].
  rewrite unpacked_cons, extract_member_plain by done. by apply IH.
Qed.

Lemma unpacked_other (l : list (string * content)) (f : gmap string node)
  (k : string) :
  k <> md -> (forall nc, nc ∈ l -> k <> mp nc.1) ->
  unpacked folder f l !! k = f !! k.
Proof.
  revert f. induction l as [|nc l IH]; intros f Hk Hl; [reflexivity|].
  rewrite unpacked_cons.
  rewrite IH by (done || intros nc' ?; apply Hl; by right).
  rewrite !lookup_insert_ne; [done..|].
  intros H. by apply (Hl nc); [left|].
Qed.

Lemma unpacked_dir (l : list (string * content)) (f : gmap string node) :
  l <> [] \/ f !! md = Some Dir -> unpacked folder f l !! md = Some Dir.
Proof.
  revert f. induction l as [|nc l IH]; intros f Hl.
  - destruct Hl; done.
  - rewrite unpacked_cons.
    apply IH. right. rewrite lookup_insert_ne by apply matlab_path_ne_dir.
    apply lookup_insert_eq.
Qed.

Lemma unpacked_file (l : list (string * content)) (f : gmap string node)
  (n : string) (c : content) :
  NoDup l.*1 -> (n, c) ∈ l -> unpacked folder f l !! mp n = Some (File c).
Proof.
  revert f. induction l as [|nc l IH]; intros f Hnd Hin.
  - by apply elem_of_nil in Hin.
  - rewrite unpacked_cons.
    apply NoDup_cons in Hnd as [Hnc Hnd].
    apply elem_of_cons in Hin as [<-|Hin]; [|by apply IH].
    rewrite unpacked_other.
    + cbn [fst snd]. apply lookup_insert_eq.
    + apply matlab_path_ne_dir.
    + intros nc' Hnc' H. apply (inj mp) in H. cbn [fst] in *.
      apply Hnc. rewrite H. by apply list_elem_of_fmap_2.
Qed.

Lemma unpacked_is_Some (l : list (string * content)) (f : gmap string node)
  (k : string) :
  is_Some (unpacked folder f l !! k) ->
  is_Some (f !! k) \/ k = md \/ exists nc, nc ∈ l /\ k = mp nc.1.
Proof.
  revert f. induction l as [|nc l IH]; intros f; [by left|].
  rewrite unpacked_cons.
  intros [H|[H|(nc' & Hnc' & H)]]%IH.
  - destruct (decide (k = mp nc.1)) as [->|Hk].
    { right. right. exists nc. split; [by left | done]. }
    rewrite lookup_insert_ne in H by done.
    destruct (decide (k = md)) as [->|Hk']; [by right; left|].
    rewrite lookup_insert_ne in H by done. by left.
  - by right; left.
  - right. right. exists nc'. split; [by right | done].
Qed.

(** *** Listing the archive's folder *)

Lemma listed_paths (l : list (string * content)) (f : gmap string node) :
  Forall plain_name l.*1 -> NoDup l.*1 ->
  (forall k, is_Some (f !! k) ->
     below base k = None \/ k = base \/ k = zip_file_path base) ->
  basename <$> filter (fun k => dirname k = Some md)
                      (map_to_list (unpacked folder f l)).*1
  ≡ₚ l.*1.
Proof.
  intros Hl Hnd Hf.
  assert (Hp : filter (fun k => dirname k = Some md)
                      (map_to_list (unpacked folder f l)).*1 ≡ₚ mp <$> l.*1).
  { apply NoDup_Permutation.
    - apply NoDup_filter, NoDup_fst_map_to_list.
    - by apply (NoDup_fmap_2 mp).
    - intros k. rewrite list_elem_of_filter. split.
      + intros [Hd ([k' x] & -> & Hx%elem_of_map_to_list)%list_elem_of_fmap].
        cbn [fst] in *. apply list_elem_of_fmap.
        destruct (unpacked_is_Some l f k' ltac:(by eexists))
          as [H|[->|(nc & Hnc & ->)]].
        * exfalso. apply dirname_Some_inv in Hd as (b & -> & _).
          destruct (Hf _ H) as [Hb|[Hb|Hb]].
          -- revert Hb. apply below_base_path with (x := "matlab/" +:+ b).
             unfold md, matlab_dir. by rewrite append_assoc.
          -- unfold md, matlab_dir in Hb. rewrite append_assoc in Hb.
             symmetry in Hb. apply append_eq_self in Hb. discriminate.
          -- unfold md, matlab_dir, zip_file_path in Hb.
             rewrite append_assoc in Hb.
             apply (inj (String.append base)) in Hb. discriminate.
        * exfalso. unfold md, matlab_dir in Hd.
          change "/matlab" with ("/" +:+ "matlab") in Hd.
          rewrite dirname_join in Hd by done. injection Hd as Hd.
          apply append_eq_self in Hd. discriminate.
        * exists nc.1. split; [done|]. by apply list_elem_of_fmap_2.
      + intros (n & -> & (nc & -> & Hnc)%list_elem_of_fmap)%list_elem_of_fmap.
        rewrite Forall_forall in Hl. split.
        * apply dirname_matlab_path, Hl. by apply list_elem_of_fmap_2.
        * apply list_elem_of_fmap. exists (mp nc.1, File nc.2).
          split; [done|]. apply elem_of_map_to_list.
          apply unpacked_file; [done | by destruct nc]. }
  rewrite Hp. replace (basename <$> (mp <$> l.*1)) with l.*1; [done|].
  rewrite <- list_fmap_compose.
  transitivity (id <$> l.*1); [by rewrite list_fmap_id|].
  apply Forall_fmap_ext. eapply Forall_impl; [exact Hl|].
  intros n [Hn _]. cbn. symmetry. by apply basename_matlab_path.
Qed.

(** *** Moving the files up *)

Lemma moved_cons (f : gmap string node) (n : string) (L : list string) :
  moved folder f (n :: L)
  = moved folder (match f !! mp n with
           | Some v => <[bp n := v]> (delete (mp n) f)
           | None => f
           end) L.
Proof. reflexivity. Qed.

Lemma moved_other (L : list string) (f : gmap string node) (k : string) :
  (forall n, n ∈ L -> k <> bp n /\ k <> mp n) -> moved folder f L !! k = f !! k.
Proof.
  revert f. induction L as [|n L IH]; intros f HL; [reflexivity|].
  rewrite moved_cons, IH by (intros n' ?; apply HL; by right).
  destruct (HL n ltac:(by left)) as [H1 H2].
  destruct (f !! mp n); [|done].
  by rewrite lookup_insert_ne, lookup_delete_ne.
Qed.

Lemma moved_src (L : list string) (f : gmap string node) (n : string) :
  Forall plain_name L -> n ∈ L -> moved folder f L !! mp n = None.
Proof.
  revert f. induction L as [|n' L IH]; intros f HL Hn.
  - by apply elem_of_nil in Hn.
  - rewrite moved_cons. apply Forall_cons in HL as [Hn' HL].
    destruct (decide (n ∈ L)) as [|Hnot]; [by apply IH|].
    apply elem_of_cons in Hn as [->|]; [|done].
    rewrite moved_other.
    + destruct (f !! mp n') eqn:Hf; [|done].
      rewrite lookup_insert_ne, lookup_delete_eq; [done|].
      intros H. symmetry in H. revert H.
      apply matlab_path_ne_base_path, Hn'.
    + rewrite Forall_forall in HL. intros n Hn. split.
      * apply matlab_path_ne_base_path, HL, Hn.
      * intros H. apply (inj mp) in H. by subst.
Qed.

Lemma moved_dst (L : list string) (f : gmap string node) (n : string)
  (v : node) :
  Forall plain_name L -> NoDup L -> n ∈ L -> f !! mp n = Some v ->
  moved folder f L !! bp n = Some v.
Proof.
  revert f. induction L as [|n' L IH]; intros f HL Hnd Hn Hf.
  - by apply elem_of_nil in Hn.
  - rewrite moved_cons. apply Forall_cons in HL as [Hn' HL].
    apply NoDup_cons in Hnd as [Hnot Hnd].
    apply elem_of_cons in Hn as [->|Hn].
    + rewrite Hf. rewrite moved_other; [apply lookup_insert_eq|].
      rewrite Forall_forall in HL. intros n Hn. split.
      * intros H. apply (inj bp) in H. by subst.
      * intros H. symmetry in H. revert H.
        apply matlab_path_ne_base_path, Hn'.
    + apply IH; [done..|].
      assert (Hne : n <> n') by (intros ->; done).
      destruct (f !! mp n'); [|done].
      rewrite lookup_insert_ne, lookup_delete_ne; [done|..].
      * intros H. by apply (inj mp) in H.
      * intros H. rewrite Forall_forall in HL. revert H.
        apply not_eq_sym, matlab_path_ne_base_path, Hn'.
Qed.

Lemma for_each_moves (names : list string) (L : list string) :
  Forall plain_name names -> L ⊆ names -> NoDup L ->
  forall w : world env,
    (forall n, n ∈ L -> is_Some (fs w !! mp n)) ->
    (forall n, n ∈ L -> fs w !! bp n = None) ->
    (forall k, is_Some (fs w !! k) -> known_path base names k) ->
    for_each L (fun matlab_file =>
      shutil_move (os_path_join (os_path_join folder "matlab") matlab_file)
                  (os_path_join folder matlab_file)) w
    = (Ret tt, mk_world (moved folder (fs w) L) (ticks w) (rng w) (sent w)
                        (stdout w)).
Proof.
  intros Hnames. rewrite join_matlab.
  induction L as [|n L IH]; intros HL Hnd w Hsrc Hdst Hknown.
  - by destruct w.
  - apply NoDup_cons in Hnd as [Hnot Hnd].
    assert (Hn : n ∈ names) by (apply HL; by left).
    assert (HL' : L ⊆ names) by (intros n' ?; apply HL; by right).
    pose proof Hnames as Hall. rewrite Forall_forall in Hall.
    cbn [for_each]. rewrite bind_run.
    rewrite join_listed, join_moved.
    destruct (Hsrc n ltac:(by left)) as [v Hv].
    rewrite (shutil_move_single (mp n) (bp n) v);
      [|done | by apply Hdst; left |].
    2:{ intros k Hk. apply (below_matlab_path base names); [done|].
        by apply Hknown. }
    rewrite moved_cons, Hv.
    rewrite (IH HL' Hnd (mk_world (<[bp n := v]> (delete (mp n) (fs w)))
                                  (ticks w) (rng w) (sent w) (stdout w)));
      [reflexivity|..]; cbn [fs].
    + intros n' Hn'. rewrite lookup_insert_ne, lookup_delete_ne.
      * apply Hsrc. by right.
      * intros H. apply (inj mp) in H. by subst.
      * apply not_eq_sym, matlab_path_ne_base_path, Hall, Hn.
    + intros n' Hn'. rewrite lookup_insert_ne, lookup_delete_ne.
      * apply Hdst. by right.
      * apply matlab_path_ne_base_path, Hall, HL', Hn'.
      * intros H. apply (inj bp) in H. by subst.
    + intros k. destruct (decide (k = bp n)) as [->|Hk].
      * intros _. by apply known_moved with (n := n).
      * rewrite lookup_insert_ne by done. intros [x Hx].
        apply lookup_delete_Some in Hx as [_ Hx]. apply Hknown. by eexists.
Qed.

End Download.

Section DownloadRuns.

Context {env : environment}.

Lemma write_file_run (p : string) (c : content) (w : world env) :
  parent_ok (fs w) p = true -> fs w !! p <> Some Dir ->
  write_file p c w
  = (Ret tt, mk_world (<[p := File c]> (fs w)) (ticks w) (rng w) (sent w)
                      (stdout w)).
Proof.
  intros Hp Hd. unfold write_file. rewrite bind_run. cbn [get_fs].
  rewrite Hp. cbn [negb]. by destruct (fs w !! p) as [[|c']|].
Qed.

(** X18. A download whose body is no zip archive. When the folder exists
    and the EMNIST server answers with a body that is not a zip archive,
    [download_emnist] writes the body to [emnist_matlab.zip] in the folder
    and then raises [BadZipFile]: the file stays on disk and nothing else
    changes. [load_emnist] with [download=True] raises the same when the
    archive is missing. *)
Theorem download_of_a_body_that_is_no_archive (emnist_folder_path : string)
  (body : content) (w : world env) :
  let zip := os_path_join emnist_folder_path "emnist_matlab.zip" in
  let left_behind :=
    mk_world (<[zip := File body]> (fs w)) (ticks w) (rng w) (sent w)
             (stdout w) in
  get_reply env EMNIST_MATLAB_URL = inr body ->
  (forall members, body <> ZipArchive members) ->
  isdir_in (fs w) emnist_folder_path = true ->
  ends_with_slash (strip_slash emnist_folder_path) = false ->
  fs w !! zip <> Some Dir ->
  download_emnist emnist_folder_path w = (Raise BadZipFile, left_behind)
  /\ (isfile_in (fs w) (os_path_join emnist_folder_path EMNIST_FILENAME)
      = false ->
      load_emnist emnist_folder_path true w = (Raise BadZipFile, left_behind)).
Proof.
  cbn zeta. intros Hget Hbody Hdir Hslash Hzip.
  assert (Hd : download_emnist emnist_folder_path w
               = (Raise BadZipFile,
                  mk_world (<[os_path_join emnist_folder_path
                                "emnist_matlab.zip" := File body]> (fs w))
                           (ticks w) (rng w) (sent w) (stdout w))).
  { rewrite download_emnist_start, Hdir.
    change ((mret tt : M env unit) w) with (@Ret unit tt, w). cbn iota beta.
    rewrite Hget, bind_run.
    rewrite write_file_run by (by apply parent_ok_join || done).
    rewrite bind_run. unfold extractall. rewrite bind_run. cbn [get_fs fs].
    rewrite lookup_insert_eq.
    destruct body as [vars|members|]; [done | | done].
    by destruct (Hbody members). }
  split; [exact Hd|]. intros Hfile.
  rewrite load_emnist_run. cbn zeta. unfold archive_present.
  by rewrite Hdir, Hfile, Hd.
Qed.

(** X19. A successful download. Let the EMNIST server answer with a zip
    archive whose members are files [matlab/name] with distinct plain names,
    let the folder path be non-empty, and let the folder exist or be one
    that [os.mkdir] can create, with nothing else at or below it. Then
    [download_emnist] returns, and changes the file system only: every
    member is at [folder/name] with its content, the archive itself stays at
    [folder/emnist_matlab.zip], and every other path, the unpacked folder
    [matlab] and its files included, is as before the call, apart from the
    folder that was created if it was missing. [load_emnist] with
    [download=True] goes on to read [emnist-byclass.mat] from that file
    system. *)
Theorem download_places_the_files (emnist_folder_path : string)
  (files : list (string * content)) (w : world env) :
  let archive :=
    ZipArchive ((fun nc : string * content => ("matlab/" +:+ nc.1, nc.2))
                  <$> files) in
  let zip := os_path_join emnist_folder_path "emnist_matlab.zip" in
  let before :=
    if isdir_in (fs w) emnist_folder_path then fs w
    else <[strip_slash emnist_folder_path := Dir]> (fs w) in
  get_reply env EMNIST_MATLAB_URL = inr archive ->
  files <> [] -> NoDup files.*1 -> Forall plain_name files.*1 ->
  emnist_folder_path <> "" ->
  ends_with_slash (strip_slash emnist_folder_path) = false ->
  (isdir_in (fs w) emnist_folder_path = true
   \/ (fs w !! strip_slash emnist_folder_path = None
       /\ parent_ok (fs w) (strip_slash emnist_folder_path) = true)) ->
  (forall k, is_Some (fs w !! k) ->
     below (strip_slash emnist_folder_path) k = None
     \/ k = strip_slash emnist_folder_path) ->
  exists after : gmap string node,
    download_emnist emnist_folder_path w
    = (Ret tt, mk_world after (ticks w) (rng w) (sent w) (stdout w))
    /\ load_emnist emnist_folder_path true w
       = (read_archive after
            (os_path_join emnist_folder_path EMNIST_FILENAME),
          mk_world after (ticks w) (rng w) (sent w) (stdout w))
    /\ (forall n c, (n, c) ∈ files ->
          after !! os_path_join emnist_folder_path n = Some (File c))
    /\ after !! zip = Some (File archive)
    /\ (forall k,
          k <> zip ->
          (forall nc, nc ∈ files ->
             k <> os_path_join emnist_folder_path nc.1) ->
          after !! k = before !! k).
Proof.
  cbn zeta. intros Hget Hne Hnd Hnames Hfolder Hslash Hstart Hclean.
  set (base := strip_slash emnist_folder_path) in *.
  set (archive := ZipArchive _) in *.
  set (f0 := if isdir_in (fs w) emnist_folder_path then fs w
             else <[base := Dir]> (fs w)).
  pose proof Hnames as Hall. rewrite Forall_forall in Hall.
  (* the folder exists or is created *)
  assert (Hstep : (if isdir_in (fs w) emnist_folder_path then mret tt
                   else os_mkdir emnist_folder_path) w
                  = (Ret tt, mk_world f0 (ticks w) (rng w) (sent w)
                                      (stdout w))).
  { unfold f0. destruct (isdir_in (fs w) emnist_folder_path) eqn:Hdir.
    - by destruct w.
    - destruct Hstart as [|[Hnone Hparent]]; [done|].
      by apply os_mkdir_creates. }
  assert (Hdir0 : isdir_in f0 emnist_folder_path = true).
  { unfold f0. destruct (isdir_in (fs w) emnist_folder_path) eqn:Hdir;
      [done|].
    apply isdir_in_true. split; [done|]. apply lookup_insert_eq. }
  assert (Hclean0 : forall k, is_Some (f0 !! k) ->
                      below base k = None \/ k = base).
  { unfold f0. intros k.
    destruct (isdir_in (fs w) emnist_folder_path); [apply Hclean|].
    destruct (decide (k = base)) as [->|Hk]; [by right|].
    rewrite lookup_insert_ne by done. apply Hclean. }
  assert (Habsent : forall x, f0 !! (base +:+ "/" +:+ x) = None).
  { intros x. apply eq_None_not_Some. intros [H|H]%Hclean0.
    - revert H. by eapply below_base_path.
    - symmetry in H. apply append_eq_self in H. discriminate. }
  assert (Hpresent : archive_present (fs w) emnist_folder_path = false).
  { unfold archive_present. apply andb_false_iff.
    destruct (isdir_in (fs w) emnist_folder_path) eqn:Hdir; [right|by left].
    unfold isfile_in. rewrite os_path_join_strip by done. fold base.
    specialize (Habsent EMNIST_FILENAME). unfold f0 in Habsent.
    by rewrite Habsent. }
  (* the archive is written and unpacked *)
  set (f1 := <[zip_file_path base := File archive]> f0).
  set (f2 := unpacked emnist_folder_path f1 files).
  assert (Hf1 : forall k, is_Some (f1 !! k) ->
                  below base k = None \/ k = base \/ k = zip_file_path base).
  { intros k. unfold f1. destruct (decide (k = zip_file_path base)) as [->|Hk].
    - by right; right.
    - rewrite lookup_insert_ne by done. intros [H|H]%Hclean0; auto. }
  assert (Hknown2 : forall k, is_Some (f2 !! k) -> known_path base files.*1 k).
  { intros k [H|[->|(nc & Hnc & ->)]]%unpacked_is_Some.
    - destruct (Hf1 _ H) as [?|[?|?]];
        [by apply known_outside | by apply known_base | by apply known_zip].
    - by apply known_dir.
    - apply known_matlab with (n := nc.1); [|done].
      by apply list_elem_of_fmap_2. }
  (* the listing *)
  set (L := basename <$> filter (fun k => dirname k = Some (matlab_dir base))
                                (map_to_list f2).*1).
  assert (HL : L ≡ₚ files.*1) by (by apply listed_paths).
  assert (HLin : forall n, n ∈ L <-> n ∈ files.*1)
    by (intros n; by rewrite HL).
  assert (Hfile2 : forall n c, (n, c) ∈ files ->
                     f2 !! matlab_path base n = Some (File c))
    by (intros n c; by apply unpacked_file).
  assert (Hdir2 : f2 !! matlab_dir base = Some Dir)
    by (apply unpacked_dir; by left).
  set (f3 := moved emnist_folder_path f2 L).
  assert (Hdir3 : f3 !! matlab_dir base = Some Dir).
  { unfold f3. rewrite moved_other; [done|].
    intros n Hn%HLin. split.
    - apply not_eq_sym, base_path_ne_dir, Hall, Hn.
    - apply not_eq_sym, matlab_path_ne_dir. }
  set (f4 := filter (fun kv : string * node =>
                       below (matlab_dir base) kv.1 = None) f3).
  assert (Hkeep : forall k, below (matlab_dir base) k = None ->
                    f4 !! k = f3 !! k).
  { intros k Hk. unfold f4. destruct (f3 !! k) as [x|] eqn:Hx.
    - by apply map_lookup_filter_Some_2.
    - apply map_lookup_filter_None_2. by left. }
  exists f4.
  assert (Hd : download_emnist emnist_folder_path w
               = (Ret tt, mk_world f4 (ticks w) (rng w) (sent w) (stdout w))).
  { rewrite download_emnist_start, Hstep, Hget.
    rewrite bind_run, write_file_run; cbn [fs].
    2:{ by apply parent_ok_join. }
    2:{ rewrite join_zip by done. fold base. unfold zip_file_path.
        change (f0 !! (base +:+ "/" +:+ "emnist_matlab.zip") <> Some Dir).
        by rewrite Habsent. }
    rewrite bind_run. unfold extractall. rewrite bind_run.
    cbn [get_fs fs ticks rng sent stdout].
    rewrite lookup_insert_eq. unfold put_fs. cbn [fs ticks rng sent stdout].
    rewrite join_zip by done. fold base. fold f1.
    unfold archive. cbv beta iota. rewrite extract_all by done. fold f2.
    cbn [fs ticks rng sent stdout].
    rewrite bind_run. unfold os_listdir. rewrite bind_run. cbn [get_fs fs].
    rewrite join_matlab by done. fold base.
    rewrite (strip_slash_id _ (matlab_dir_no_slash base)).
    replace (isdir_in f2 (matlab_dir base)) with true.
    2:{ symmetry. apply isdir_in_true. split; [apply matlab_dir_nonempty|].
        by rewrite (strip_slash_id _ (matlab_dir_no_slash base)). }
    fold L.
    change ((mret L : M env (list string))
              (mk_world f2 (ticks w) (rng w) (sent w) (stdout w)))
      with (Ret L, mk_world f2 (ticks w) (rng w) (sent w) (stdout w)).
    cbn iota beta. rewrite bind_run.
    pose proof (for_each_moves (env := env) emnist_folder_path Hfolder files.*1 L Hnames)
      as Hmoves.
    rewrite join_matlab in Hmoves by done. fold base in Hmoves.
    rewrite Hmoves; cbn [fs ticks rng sent stdout].
    - fold f3. unfold shutil_rmtree. rewrite bind_run. cbn [get_fs fs].
      rewrite (strip_slash_id _ (matlab_dir_no_slash base)).
      replace (isdir_in f3 (matlab_dir base)) with true; [reflexivity|].
      symmetry. apply isdir_in_true. split; [apply matlab_dir_nonempty|].
      by rewrite (strip_slash_id _ (matlab_dir_no_slash base)).
    - intros n. apply HLin.
    - rewrite HL. exact Hnd.
    - intros n (nc & -> & Hnc)%HLin%list_elem_of_fmap.
      rewrite (Hfile2 nc.1 nc.2) by (by destruct nc). by eexists.
    - intros n Hn%HLin. unfold f2. rewrite unpacked_other.
      + unfold f1. rewrite lookup_insert_ne; [apply Habsent|].
        apply not_eq_sym, base_path_ne_zip, Hall, Hn.
      + apply base_path_ne_dir, Hall, Hn.
      + intros nc Hnc. apply not_eq_sym, matlab_path_ne_base_path, Hall, Hn.
    - exact Hknown2. }
  split; [exact Hd|]. split.
  { rewrite load_emnist_run. cbn zeta. by rewrite Hpresent, Hd. }
  split_and!.
  - intros n c Hnc.
    assert (Hn : n ∈ files.*1) by (by apply (list_elem_of_fmap_2 fst) in Hnc).
    rewrite join_moved by done. fold base.
    rewrite Hkeep by apply below_matlab_dir_base_path, Hall, Hn.
    unfold f3. apply moved_dst; [by rewrite HL..| by apply HLin | by apply Hfile2].
  - rewrite join_zip by done. fold base.
    rewrite Hkeep by apply below_matlab_dir_zip.
    unfold f3. rewrite moved_other.
    + unfold f2. rewrite unpacked_other; [apply lookup_insert_eq|..].
      * apply zip_ne_dir.
      * intros nc _. apply not_eq_sym, matlab_path_ne_zip.
    + intros n Hn%HLin. split.
      * apply not_eq_sym, base_path_ne_zip, Hall, Hn.
      * apply not_eq_sym, matlab_path_ne_zip.
  - intros k Hkz Hkf. rewrite join_zip in Hkz by done. fold base in Hkz.
    destruct (below (matlab_dir base) k) as [r|] eqn:Hb.
    + transitivity (@None node).
      * apply map_lookup_filter_None_2. right. intros x _. cbn. by rewrite Hb.
      * symmetry. apply eq_None_not_Some. intros [H|H]%Hclean0.
        -- apply (below_matlab_dir_outside base) in H. congruence.
        -- subst k. rewrite below_matlab_dir_base in Hb. done.
    + rewrite Hkeep by done. unfold f3. rewrite moved_other.
      * unfold f2. rewrite unpacked_other.
        -- unfold f1. by rewrite lookup_insert_ne.
        -- intros ->. by rewrite below_refl in Hb.
        -- intros nc _ ->. by apply below_matlab_dir_path in Hb.
      * intros n (nc & -> & Hnc)%HLin%list_elem_of_fmap. split.
        -- specialize (Hkf nc Hnc). by rewrite join_moved in Hkf.
        -- intros ->. by apply below_matlab_dir_path in Hb.
Qed.

End DownloadRuns.

(* ===================================================================== *)
(** * Runs of the example worlds                                          *)
(* ===================================================================== *)

Lemma example_world_loads :
  load_emnist "emnist_data" false example_world
  = (Ret example_data, example_world).
Proof. vm_compute. reflexivity. Qed.

Lemma small_world_loads :
  load_emnist "emnist_data" false small_world = (Ret small_data, small_world).
Proof. vm_compute. reflexivity. Qed.

(** A tie between two classes goes to the lower index. *)
Example argmax_tie : np.argmax [[1 # 10; 9 # 10; 9 # 10]%Q] = Ret 1.
Proof. reflexivity. Qed.

(** The evaluator on the small world: one query of a third of a second, its
    label predicted. *)
Lemma small_evaluator_run :
  let run := eval_serving_performance 1 1 "url" 42 "test" false "emnist_data"
               small_world in
  run.1 = Ret [(333333 # 1000)%Q]
  /\ last (stdout run.2) = Some (PrintAccuracy 1 1).
Proof. vm_compute. split; reflexivity. Qed.

(** The throughput driver on the small world, for two thirds of a second
    with batches of two: two requests, four counted, one image sent. *)
Lemma small_throughput_run :
  let run := eval_throughput 10 (2 # 3) "url" 2 "test" false "emnist_data"
               small_world in
  run.1 = Ret (4%Z, (12 # 2)%Q) /\ total_examples (sent run.2) = 1.
Proof. vm_compute. split; reflexivity. Qed.

Lemma run_eq {A} {env : environment} (r : outcome A * world env)
  (o : outcome A) : r.1 = o -> r = (o, r.2).
Proof. destruct r. cbn. by intros ->. Qed.

(** C1. An archive whose test split holds a single image: the training
    images (two of them) come out in column-major order, pixel [r + 28 * c]
    of the flat storage at row [r] and column [c], but the test image comes
    out in row-major order, pixel [28 * r + c] there: transposed. *)
Theorem single_image_split_is_transposed :
  exists data,
    load_emnist "emnist_data" false single_test_world
    = (Ret data, single_test_world)
    /\ np.shape (x_train data) = [2; 28; 28]
    /\ np.shape (x_test data) = [1; 28; 28]
    /\ (forall n r c, n < 2 -> r < 28 -> c < 28 ->
         np.getitem (x_train data) [n; r; c]
         = flat_pixel 2 (inject_Z <$> example_pixels 2) n (r + 28 * c))
    /\ (forall r c, r < 28 -> c < 28 ->
         np.getitem (x_test data) [0; r; c]
         = flat_pixel 1 (inject_Z <$> example_pixels 1) 0 (28 * r + c))
    /\ np.getitem (x_test data) [0; 0; 1] = Some 1%Q
    /\ flat_pixel 1 (inject_Z <$> example_pixels 1) 0 (0 + 28 * 1) = Some 28%Q.
Proof.
  exists (example_data_of 2 [3; 7]%Z 1 [1]%Z).
  split_and!.
  - vm_compute. reflexivity.
  - reflexivity.
  - reflexivity.
  - intros n r c Hn Hr Hc. cbn [x_train example_data_of].
    apply images_column_major; lia.
  - intros r c Hr Hc. cbn [x_test example_data_of].
    by apply images_single_row_major.
  - vm_compute. reflexivity.
  - vm_compute. reflexivity.
Qed.

(** X1: image 1 of two training images, row 2, column 3. *)
Lemma column_major_witness :
  exists x,
    load_images (struct [PyArray (matrix 2 784 (example_pixels 2))]) [0; 0; 0]
    = Ret x
    /\ np.shape x = [2; 28; 28]
    /\ np.getitem x [1; 2; 3]
       = flat_pixel 2 (inject_Z <$> example_pixels 2) 1 (2 + 28 * 3).
Proof.
  apply splits_of_two_or_more_are_column_major;
    [reflexivity | reflexivity | lia..].
Defined.

(** C2: the contract as the specification words it fails when download is
    allowed and the network is down. *)
Lemma load_emnist_download_can_fail :
  (load_emnist "emnist_data/" true offline_empty_world).1
  = Raise ConnectionError
  /\ ~ load_emnist_as_specified "emnist_data/" true offline_empty_world.
Proof.
  split; [vm_compute; reflexivity|].
  unfold load_emnist_as_specified. cbn [negb andb].
  rewrite andb_false_r. intros (data & w' & H).
  apply (f_equal fst) in H. vm_compute in H. discriminate.
Qed.

(** C2: a folder that does not exist, the example folder, and an empty
    world in which the download is allowed. *)
Lemma load_emnist_contract_witness :
  load_emnist "nowhere" false example_world
  = (Raise (FileNotFoundError
      "Folder nowhere or file emnist-byclass.mat does not exist and download is deactivated"),
     example_world)
  /\ load_emnist "emnist_data" false example_world
     = (read_archive (fs example_world) "emnist_data/emnist-byclass.mat",
        example_world)
  /\ (load_emnist "emnist_data" true empty_world).1 = Ret small_data.
Proof.
  split; [|split].
  - apply (load_emnist_contract "nowhere" false example_world);
      vm_compute; reflexivity.
  - apply (load_emnist_contract "emnist_data" false example_world).
    vm_compute. reflexivity.
  - rewrite (proj1 (proj2 (proj2
      (load_emnist_contract "emnist_data" true empty_world))))
      by (vm_compute; reflexivity).
    vm_compute. reflexivity.
Defined.

(** C4: the run of the throughput driver on the small world. *)
Lemma throughput_counter_and_rate_witness :
  exists iterations : nat,
    (4 = Z.of_nat iterations * 2)%Z
    /\ (12 # 2 = inject_Z 4 / (2 # 3))%Q.
Proof.
  destruct (throughput_counter_and_rate _ _ _ _ _ _ _ _ _ _ _
              (run_eq _ _ (proj1 small_throughput_run)))
    as (k & _ & _ & _ & Hk & _ & Hr).
  exists k. split; assumption.
Defined.


(** C6: the run of the evaluator on the small world, whose test image has
    label 1. *)
Lemma predicted_class_witness :
  exists results : list (nat * Z),
    length results = 1
    /\ last (stdout (eval_serving_performance 1 1 "url" 42 "test" false
                       "emnist_data" small_world).2)
       = Some (PrintAccuracy 1
                 (inject_Z (Z.of_nat (count_hits results))
                  / inject_Z (Z.of_nat 1))%Q).
Proof.
  destruct (proj2 (predicted_class_and_accuracy (env := example_env))
              1 1 "url" 42%Z "test" false "emnist_data" small_world _ _
              small_data 1 [1]%Z small_world_loads eq_refl
              (run_eq _ _ (proj1 small_evaluator_run)))
    as (inds & results & _ & Hlen & _ & _ & Hlast).
  exists results. split; assumption.
Defined.

(** C7: the latency as the specification words it is not the one recorded
    when the clock is set back during a request: [int] rounds the negative
    microseconds up. *)
Lemma latency_not_floor_when_clock_set_back :
  (eval_serving_performance 1 0 "url" 42 "test" false "emnist_data"
     offline_world).1 = Ret [(-1 # 1000)%Q]
  /\ latency_as_specified (wall_clock offline_env 0) (wall_clock offline_env 1)
     = (-2 # 1000)%Q
  /\ ~ (-1 # 1000 == latency_as_specified (wall_clock offline_env 0)
                                           (wall_clock offline_env 1))%Q.
Proof.
  split; [vm_compute; reflexivity|].
  split; [vm_compute; reflexivity|].
  vm_compute. discriminate.
Qed.

(** C7: the run of the evaluator on the small world. *)
Lemma latency_is_truncated_witness :
  length [(333333 # 1000)%Q] = 1
  /\ [(333333 # 1000)%Q] !! 0 = Some (333333 # 1000)%Q.
Proof.
  destruct (latency_is_truncated_microseconds _ _ _ _ _ _ _ _ _ _
              (run_eq _ _ (proj1 small_evaluator_run))) as [Hlen Hi].
  split; [exact Hlen|].
  destruct (Hi 0 ltac:(lia)) as [H0 _]. rewrite H0. vm_compute. reflexivity.
Defined.

(** C8: no examples asked of the example world. *)
Lemma zero_examples_witness :
  (eval_serving_performance 0 1 "url" 42 "test" false "emnist_data"
     example_world).1 = Raise ZeroDivisionError.
Proof.
  apply (proj2 (zero_examples_raises 1 "url" 42 "test" false "emnist_data"
                  example_world) example_data 3).
  - exact example_world_loads.
  - reflexivity.
  - lia.
  - lia.
Defined.


(** C10. The total [eval_throughput] returns is the batch size times the
    number of requests it sent. Request [i] carries the rows
    [i * batch_size] up to [(i + 1) * batch_size] of the split that exist,
    fewer than [batch_size] or none past the end, while the counter advances
    by [batch_size] all the same. So the total can exceed the examples
    sent: in the run on the small world, 4 against the one image of the
    split. *)
Theorem throughput_total_is_multiple_of_batch_size :
  (forall (env : environment) (fuel : nat) (duration : Q)
          (request_url : string) (batch_size : Z) (dataset : string)
          (use_graphpipe : bool) (emnist_folder_path : string)
          (w w' : world env) (num_reqs : Z) (reqs_per_second : Q),
     eval_throughput fuel duration request_url batch_size dataset
       use_graphpipe emnist_folder_path w
     = (Ret (num_reqs, reqs_per_second), w') ->
     exists (data : emnist) (N k : nat) (requests : list (string * payload)),
       load_emnist emnist_folder_path false w = (Ret data, w)
       /\ np.shape (if decide (dataset = "train") then x_train data
                    else x_test data) = [N; 28; 28]
       /\ num_reqs = (Z.of_nat k * batch_size)%Z
       /\ sent w' = sent w ++ requests /\ length requests = k
       /\ (forall i p, requests !! i = Some p ->
             examples_in p.2
             = slice_bound N (Z.of_nat i * batch_size + batch_size)
               - slice_bound N (Z.of_nat i * batch_size))
       /\ ((0 <= batch_size)%Z ->
           total_examples requests = Nat.min (Z.to_nat num_reqs) N))
  /\ (let run := eval_throughput 10 (2 # 3) "url" 2 "test" false
                   "emnist_data" small_world in
      run.1 = Ret (4%Z, (12 # 2)%Q)
      /\ total_examples (sent run.2) = 1).
Proof.
  split.
  - intros env fuel duration url b dataset g folder w w' n r H.
    apply throughput_requests in H
      as (data & N & k & ps & H1 & H2 & H3 & H4 & H5 & H6 & H7).
    exists data, N, k, ps. split_and!; done.
  - exact small_throughput_run.
Qed.

(** The same folder read in another world gives the same data. *)
Lemma load_emnist_same_folder {env1 env2 : environment} (w1 : world env1)
  (w2 : world env2) (folder : string) (data : emnist) :
  fs w1 = fs w2 ->
  load_emnist folder false w1 = (Ret data, w1) ->
  load_emnist folder false w2 = (Ret data, w2).
Proof.
  intros Hfs. rewrite !load_emnist_offline, Hfs. by intros [= ->].
Qed.

Lemma example_service_classifies (g : bool) (url : string) :
  service_classifies example_env g url.
Proof.
  intros k. destruct g; intros x; eexists;
    (split; [reflexivity | split; [reflexivity | cbn; lia]]).
Qed.

Lemma example_service_answers (g : bool) (url : string) :
  service_answers example_env g url.
Proof. intros k. destruct g; intros x; eexists; reflexivity. Qed.

(** X2: the first test image of the small data, whose label is 1. *)
Lemma show_img_witness :
  exists img,
    np.index0 (x_test small_data) 0 = Ret img
    /\ show_img 0 (x_train small_data) (y_train small_data)
         (x_test small_data) (y_test small_data) get_emnist_mapping "test"
         small_world
       = (Ret tt,
          mk_world (fs small_world) (ticks small_world) (rng small_world)
            (sent small_world)
            (stdout small_world ++ [ShowImage img; Print ("Label: " +:+ "1")])).
Proof.
  eexists. split; [reflexivity|].
  apply (proj1 (show_img_prints_or_raises 0 (x_train small_data)
                  (y_train small_data) (x_test small_data) (y_test small_data)
                  "test" small_world) _ 1%Z "1"); reflexivity.
Defined.

(** X3: four examples asked of the three test images. *)
Lemma oversized_sample_witness :
  eval_serving_performance 4 0 "url" 42 "test" false "emnist_data"
    example_world
  = (Raise (ValueError
       "Cannot take a larger sample than population when 'replace=False'"),
     mk_world (fs example_world) (ticks example_world)
       (seed_state example_env 42) (sent example_world)
       (stdout example_world)).
Proof.
  apply (proj2 (sample_request_is_checked_before_any_query 4 0 "url" 42
                  "test" false "emnist_data" example_world example_data 3
                  example_world_loads eq_refl)); lia.
Defined.


(** X5: the run of the evaluator on the small world. *)
Lemma evaluator_requests_witness :
  exists (data : emnist) (requests : list (string * payload)),
    load_emnist "emnist_data" false small_world = (Ret data, small_world)
    /\ length requests = 1.
Proof.
  destruct (evaluator_sends_the_sampled_images _ _ _ _ _ _ _ _ _ _
              (run_eq _ _ (proj1 small_evaluator_run)))
    as (data & inds & ps & Hload & _ & _ & Hlen & _).
  exists data, ps. split; assumption.
Defined.

(** X6: the same run. *)
Lemma evaluator_effects_witness :
  fs (eval_serving_performance 1 1 "url" 42 "test" false "emnist_data"
        small_world).2 = fs small_world
  /\ ticks (eval_serving_performance 1 1 "url" 42 "test" false "emnist_data"
              small_world).2 = ticks small_world + 2 * 1.
Proof.
  destruct (evaluator_effects _ _ _ _ _ _ _ _ _ _
              (run_eq _ _ (proj1 small_evaluator_run))) as (H1 & H2 & _).
  split; assumption.
Defined.

(** X7: two of the three test images, the first one printed. *)
Lemma evaluator_returns_witness :
  exists w',
    eval_serving_performance 2 1 "url" 42 "test" false "emnist_data"
      example_world
    = (Ret (recorded_latency example_env (ticks example_world) <$> seq 0 2),
       w').
Proof.
  apply (evaluator_returns_the_latencies 2 1 "url" 42 "test" false
           "emnist_data" example_world example_data 3 [1; 0; 1]%Z
           example_world_loads eq_refl eq_refl eq_refl).
  - repeat constructor; lia.
  - apply example_service_classifies.
  - lia.
  - lia.
Defined.

(** X8: the second of two requests gets an answer without predictions. *)
Lemma evaluator_failure_witness :
  exists w',
    eval_serving_performance 2 0 "url" 42 "test" false "emnist_data"
      flaky_world = (Raise KeyError, w')
    /\ fs w' = fs flaky_world
    /\ length (sent w') = length (sent flaky_world) + 1 + 1
    /\ ticks w' = ticks flaky_world + 2 * 1 + 1.
Proof.
  apply (evaluator_stops_at_the_first_failed_request 2 0 "url" 42 "test"
           false "emnist_data" flaky_world example_data 3 [1; 0; 1]%Z 1
           KeyError
           (load_emnist_same_folder example_world flaky_world _ _ eq_refl
              example_world_loads) eq_refl eq_refl eq_refl).
  - repeat constructor; lia.
  - lia.
  - lia.
  - lia.
  - intros [|k] Hk; [|lia]. intros rows. eexists.
    split; [reflexivity | split; [reflexivity | cbn; lia]].
  - intros rows. right. split; reflexivity.
Defined.

(** X20: the first answer has rows of two lengths. *)
Lemma ragged_answer_witness :
  exists msg w',
    eval_serving_performance 2 0 "url" 42 "test" false "emnist_data"
      ragged_world = (Raise (ValueError msg), w')
    /\ fs w' = fs ragged_world
    /\ length (sent w') = length (sent ragged_world) + 0 + 1
    /\ ticks w' = ticks ragged_world + 2 * 0 + 2.
Proof.
  apply (evaluator_stops_at_an_answer_without_a_class 2 0 "url" 42 "test"
           false "emnist_data" ragged_world example_data 3 [1; 0; 1]%Z 0
           (load_emnist_same_folder example_world ragged_world _ _ eq_refl
              example_world_loads) eq_refl eq_refl eq_refl).
  - repeat constructor; lia.
  - lia.
  - lia.
  - lia.
  - intros k Hk. lia.
  - intros rows. eexists. split; [reflexivity | by left].
Defined.

(** X9: the run of the throughput driver on the small world. *)
Lemma throughput_effects_witness :
  fs (eval_throughput 10 (2 # 3) "url" 2 "test" false "emnist_data"
        small_world).2 = fs small_world
  /\ stdout (eval_throughput 10 (2 # 3) "url" 2 "test" false "emnist_data"
               small_world).2 = stdout small_world.
Proof.
  destruct (throughput_only_reads_the_clock_and_sends _ _ _ _ _ _ _ _ _ _ _
              (run_eq _ _ (proj1 small_throughput_run)))
    as (H1 & _ & H3 & _).
  split; assumption.
Defined.

(** X10: the same run. *)
Lemma throughput_rows_witness :
  exists (data : emnist) (N : nat),
    load_emnist "emnist_data" false small_world = (Ret data, small_world)
    /\ np.shape (select_split "test" data).1 = [N; 28; 28].
Proof.
  destruct (throughput_sends_consecutive_rows _ _ _ _ _ _ _ _ _ _ _
              (run_eq _ _ (proj1 small_throughput_run)))
    as (data & N & ps & Hload & Hsh & _).
  exists data, N. split; assumption.
Defined.

Lemma example_clock_two_thirds :
  (forall i, i < 2 ->
     (wall_clock example_env (ticks example_world + 1 + i)
      <= wall_clock example_env (ticks example_world) + (2 # 3))%Q)
  /\ (wall_clock example_env (ticks example_world) + (2 # 3)
      < wall_clock example_env (ticks example_world + 1 + 2))%Q.
Proof.
  split; [|reflexivity].
  intros [|[|i]] Hi; [vm_compute; discriminate.. | lia].
Qed.

(** X11: batches of size zero on the example world. *)
Lemma zero_batch_size_witness :
  exists (w' : world example_env) (requests : list (string * payload)),
    sent w' = sent example_world ++ requests
    /\ (0 = Z.of_nat (length requests) * 0)%Z.
Proof.
  destruct (eval_throughput_run 10 (2 # 3) "url" 0 "test" false "emnist_data"
              example_world example_data 2 example_world_loads
              ltac:(intros i _; apply example_service_answers)
              (proj1 example_clock_two_thirds)
              (proj2 example_clock_two_thirds) ltac:(lia))
    as (ps & Hlen & Hrun).
  destruct (throughput_batch_size_not_positive 10 (2 # 3) "url" 0 "test"
              false "emnist_data" example_world _ _ _ ltac:(lia) Hrun)
    as (_ & _ & data & N & requests & _ & _ & Hsent & Hn & _).
  eexists _, requests. split; [exact Hsent | exact Hn].
Defined.

(** X12: two thirds of a second on the example world, batches of two: the
    clock passes the end at its fourth reading. *)
Lemma throughput_returns_witness :
  exists w',
    eval_throughput 10 (2 # 3) "url" 2 "test" false "emnist_data"
      example_world
    = (Ret ((Z.of_nat 2 * 2)%Z, (inject_Z (Z.of_nat 2 * 2) / (2 # 3))%Q), w')
    /\ length (sent w') = length (sent example_world) + 2.
Proof.
  apply (throughput_returns_once_the_clock_passes_the_end 10 (2 # 3) "url" 2
           "test" false "emnist_data" example_world example_data 2
           example_world_loads (example_service_answers false "url")).
  - discriminate.
  - exact (proj1 example_clock_two_thirds).
  - exact (proj2 example_clock_two_thirds).
  - lia.
Defined.

(** X13: no time at all on the example world. *)
Lemma zero_duration_witness :
  (eval_throughput 10 0 "url" 2 "test" false "emnist_data" example_world).1
  = Raise ZeroDivisionError
  /\ length (sent (eval_throughput 10 0 "url" 2 "test" false "emnist_data"
                     example_world).2)
     = length (sent example_world) + 0.
Proof.
  apply (proj2 (throughput_zero_duration_raises 10 0 "url" 2 "test" false
                  "emnist_data" example_world (Qeq_refl 0))
           example_data 0 example_world_loads
           (example_service_answers false "url")).
  - intros i Hi. lia.
  - reflexivity.
  - lia.
Defined.

(** X14: the second request of the binary client raises. *)
Lemma throughput_failure_witness :
  exists w',
    eval_throughput 10 1 "url" 2 "test" true "emnist_data" flaky_world
    = (Raise ConnectionError, w')
    /\ fs w' = fs flaky_world
    /\ length (sent w') = length (sent flaky_world) + 1 + 1
    /\ ticks w' = ticks flaky_world + 1 + 2.
Proof.
  apply (throughput_stops_at_the_first_failed_request 10 1 "url" 2 "test"
           true "emnist_data" flaky_world example_data 1 ConnectionError
           (load_emnist_same_folder example_world flaky_world _ _ eq_refl
              example_world_loads)).
  - intros [|i] Hi; [|lia]. intros a. eexists. reflexivity.
  - intros a. reflexivity.
  - intros [|[|i]] Hi; [vm_compute; discriminate.. | lia].
  - lia.
Defined.

(** X15: the network is down and the folder does not exist yet. *)
Lemma download_failure_witness :
  download_emnist "emnist_data/" offline_empty_world
  = (Raise ConnectionError,
     mk_world (<[strip_slash "emnist_data/" := Dir]> (fs offline_empty_world))
       (ticks offline_empty_world) (rng offline_empty_world)
       (sent offline_empty_world) (stdout offline_empty_world))
  /\ load_emnist "emnist_data/" true offline_empty_world
     = (Raise ConnectionError,
        mk_world (<[strip_slash "emnist_data/" := Dir]> (fs offline_empty_world))
          (ticks offline_empty_world) (rng offline_empty_world)
          (sent offline_empty_world) (stdout offline_empty_world)).
Proof.
  apply (proj1 (proj2 (download_failures_propagate "emnist_data/"
                         offline_empty_world)) ConnectionError eq_refl).
  - discriminate.
  - vm_compute. reflexivity.
  - vm_compute. reflexivity.
Defined.

(** X16: training images of two columns. *)
Lemma narrow_archive_witness :
  load_emnist "emnist_data" false narrow_world
  = (Raise (ValueError "cannot reshape array"), narrow_world).
Proof.
  apply (proj1 (proj2 (load_emnist_refuses_malformed_archives "emnist_data"
                         false narrow_world
                         {[ "dataset" :=
                              struct [struct [PyArray (matrix 1 2 [0; 1]%Z);
                                              PyArray (matrix 1 1 [3]%Z)];
                                      struct [PyArray (matrix 1 784
                                                         (example_pixels 1));
                                              PyArray (matrix 1 1 [1]%Z)];
                                      PyArray (matrix 2 2 [0; 1; 48; 49]%Z)] ]}
                         ltac:(vm_compute; reflexivity)
                         ltac:(vm_compute; reflexivity)))
           1 2 [0; 1]%Z [PyArray (matrix 1 1 [3]%Z)]
           [struct [PyArray (matrix 1 784 (example_pixels 1));
                    PyArray (matrix 1 1 [1]%Z)];
            PyArray (matrix 2 2 [0; 1; 48; 49]%Z)]).
  - vm_compute. reflexivity.
  - lia.
  - lia.
Defined.

(** X17: the run of the evaluator on the small world. *)
Lemma evaluator_prints_witness :
  exists (blocks : list (list event)) (accuracy : Q),
    stdout (eval_serving_performance 1 1 "url" 42 "test" false "emnist_data"
              small_world).2
    = stdout small_world ++ concat blocks ++ [PrintAccuracy 1 accuracy]
    /\ length blocks = 1.
Proof.
  destruct (evaluator_prints_the_first_samples _ _ _ _ _ _ _ _ _ _
              (run_eq _ _ (proj1 small_evaluator_run)))
    as (data & inds & blocks & accuracy & _ & _ & Hout & Hlen & _).
  exists blocks, accuracy. split; assumption.
Defined.

(** X18: the server answers with an error page. *)
Lemma error_page_witness :
  download_emnist "emnist_data" error_page_world
  = (Raise BadZipFile,
     mk_world (<["emnist_data/emnist_matlab.zip" := File OtherBytes]>
                 (fs error_page_world))
       (ticks error_page_world) (rng error_page_world)
       (sent error_page_world) (stdout error_page_world))
  /\ load_emnist "emnist_data" true error_page_world
     = (Raise BadZipFile,
        mk_world (<["emnist_data/emnist_matlab.zip" := File OtherBytes]>
                    (fs error_page_world))
          (ticks error_page_world) (rng error_page_world)
          (sent error_page_world) (stdout error_page_world)).
Proof.
  destruct (download_of_a_body_that_is_no_archive "emnist_data" OtherBytes
              error_page_world eq_refl) as [Hd Hl].
  - discriminate.
  - vm_compute. reflexivity.
  - vm_compute. reflexivity.
  - vm_compute. discriminate.
  - split; [exact Hd|]. apply Hl. vm_compute. reflexivity.
Defined.

(** X19: the download into a folder that does not exist yet. *)
Lemma download_witness :
  exists after : gmap string node,
    download_emnist "emnist_data" empty_world
    = (Ret tt, mk_world after (ticks empty_world) (rng empty_world)
                        (sent empty_world) (stdout empty_world))
    /\ after !! "emnist_data/emnist-byclass.mat" = Some (File small_archive)
    /\ after !! "emnist_data" = Some Dir
    /\ after !! "emnist_data/matlab" = None.
Proof.
  destruct (download_places_the_files "emnist_data"
              [("emnist-byclass.mat", small_archive)] empty_world eq_refl)
    as (after & Hd & _ & Hfiles & _ & Hother).
  - discriminate.
  - apply NoDup_singleton.
  - repeat constructor; discriminate.
  - discriminate.
  - vm_compute. reflexivity.
  - right. split; vm_compute; reflexivity.
  - intros k [x Hx]. cbn in Hx. by rewrite lookup_empty in Hx.
  - exists after. split_and!.
    + exact Hd.
    + apply (Hfiles "emnist-byclass.mat" small_archive), list_elem_of_singleton.
      reflexivity.
    + rewrite Hother.
      * vm_compute. reflexivity.
      * vm_compute. discriminate.
      * intros nc ->%list_elem_of_singleton. vm_compute. discriminate.
    + rewrite Hother.
      * vm_compute. reflexivity.
      * vm_compute. discriminate.
      * intros nc ->%list_elem_of_singleton. vm_compute. discriminate.
Defined.
